(** * Task Master Pro SDK: request pipeline, error taxonomy and domain model

    A shallow embedding of the Python SDK under
    [packages/python-sdk/src/taskmaster]:

    - [exceptions/]      the error taxonomy ([TaskMasterError] and its subclasses);
    - [models/]          [Task], [SubTask], the status and priority enumerations;
    - [client.py]        [TaskMasterClient] and its request pipeline;
    - [auth/jwt_handler.py]  [JWTHandler].

    Python values that travel as JSON are modelled by the inductive type
    [JSON]; a Python call that may raise is a computation in the [Result]
    monad, whose failure case carries the exception object. *)

From Stdlib Require Import ZArith List String Ascii Bool Lia.
From Stdlib Require Import Floats Uint63.
Import ListNotations.
Local Open Scope string_scope.

Set Implicit Arguments.
Set Warnings "-register-all".

(* ===================================================================== *)
(** ** JSON values and Python dictionaries *)
(* ===================================================================== *)

(** What [response.json()] and the entity payloads are made of.  A Python
    [dict] with string keys is an association list; [dict_get] is
    [d.get(k)] and returns the first binding of the key. *)
Inductive JSON : Type :=
| JNull
| JBool (b : bool)
| JNum (z : Z)
| JStr (s : string)
| JArr (items : list JSON)
| JObj (fields : list (string * JSON)).

Definition dict : Type := list (string * JSON).

Fixpoint dict_get (k : string) (d : dict) : option JSON :=
  match d with
  | [] => None
  | (k', v) :: d' => if String.eqb k k' then Some v else dict_get k d'
  end.

(** [d.get(k, default)] *)
Definition dict_get_default (k : string) (default : JSON) (d : dict) : JSON :=
  match dict_get k d with
  | Some v => v
  | None => default
  end.

(** [type(v).__name__] of a parsed JSON value. *)
Definition type_name (v : JSON) : string :=
  match v with
  | JNull => "NoneType"
  | JBool _ => "bool"
  | JNum _ => "int"
  | JStr _ => "str"
  | JArr _ => "list"
  | JObj _ => "dict"
  end.

(* ===================================================================== *)
(** ** Exceptions *)
(* ===================================================================== *)

(** *** The SDK taxonomy ([exceptions/base.py], [auth.py], [api.py],
        [validation.py]) *)

Module Cls.
(** The classes of the taxonomy, as tags. *)
Inductive t : Set :=
| TaskMasterError
| AuthenticationError | TokenExpiredError | InvalidTokenError
| MissingCredentialsError
| APIError | BadRequestError | NotFoundError | ConflictError
| ServerError | RateLimitError | ServiceUnavailableError
| ValidationError.

Definition eqb (a b : t) : bool :=
  match a, b with
  | TaskMasterError, TaskMasterError
  | AuthenticationError, AuthenticationError
  | TokenExpiredError, TokenExpiredError
  | InvalidTokenError, InvalidTokenError
  | MissingCredentialsError, MissingCredentialsError
  | APIError, APIError
  | BadRequestError, BadRequestError
  | NotFoundError, NotFoundError
  | ConflictError, ConflictError
  | ServerError, ServerError
  | RateLimitError, RateLimitError
  | ServiceUnavailableError, ServiceUnavailableError
  | ValidationError, ValidationError => true
  | _, _ => false
  end.

(** The direct base class, from the [class X(Y)] headers. *)
Definition base (c : t) : option t :=
  match c with
  | TaskMasterError => None
  | AuthenticationError | APIError | ValidationError => Some TaskMasterError
  | TokenExpiredError | InvalidTokenError | MissingCredentialsError =>
      Some AuthenticationError
  | BadRequestError | NotFoundError | ConflictError | ServerError
  | RateLimitError | ServiceUnavailableError => Some APIError
  end.

(** [issubclass c anc]; the hierarchy is two levels deep. *)
Definition issubclass (c anc : t) : bool :=
  eqb c anc ||
  match base c with
  | None => false
  | Some b =>
      eqb b anc ||
      match base b with
      | None => false
      | Some bb => eqb bb anc
      end
  end.
End Cls.

(** [ValidationErrorDetail] of [exceptions/validation.py]. *)
Record ValidationErrorDetail : Type := mkValidationErrorDetail {
  ved_field : string;
  ved_message : string;
  ved_code : option string;
  ved_value : JSON
}.

(** An instance of a taxonomy class.  [message] and [code] hold whatever
    the constructor was given: [_handle_response_status] passes values read
    from the response body, so they are JSON values. *)
Record SdkError : Type := mkSdkError {
  err_class : Cls.t;
  message : JSON;
  code : option JSON;
  status_code : option Z;
  response_data : dict;
  errors : list ValidationErrorDetail
}.

(** [TaskMasterError.__init__(message, code=None, status_code=None)] *)
Definition TaskMasterError_init (c : Cls.t) (msg : JSON)
    (code : option JSON) (status_code : option Z) : SdkError :=
  mkSdkError c msg code status_code [] [].

Definition TaskMasterError (msg : JSON) : SdkError :=
  TaskMasterError_init Cls.TaskMasterError msg None None.

(** [AuthenticationError.__init__]: code "AUTH_ERROR", status 401. *)
Definition AuthenticationError_init (c : Cls.t) (msg : JSON) : SdkError :=
  TaskMasterError_init c msg (Some (JStr "AUTH_ERROR")) (Some 401%Z).

Definition AuthenticationError (msg : JSON) : SdkError :=
  AuthenticationError_init Cls.AuthenticationError msg.

Definition set_code (c : string) (e : SdkError) : SdkError :=
  mkSdkError (err_class e) (message e) (Some (JStr c)) (status_code e)
             (response_data e) (errors e).

Definition TokenExpiredError (msg : JSON) : SdkError :=
  set_code "TOKEN_EXPIRED" (AuthenticationError_init Cls.TokenExpiredError msg).

Definition InvalidTokenError (msg : JSON) : SdkError :=
  set_code "INVALID_TOKEN" (AuthenticationError_init Cls.InvalidTokenError msg).

Definition MissingCredentialsError (msg : JSON) : SdkError :=
  set_code "MISSING_CREDENTIALS"
           (AuthenticationError_init Cls.MissingCredentialsError msg).

(** [APIError.__init__(message, status_code, code, response_data)];
    [self.response_data = response_data or {}]. *)
Definition APIError_init (c : Cls.t) (msg : JSON) (status : Z) (code : JSON)
    (response_data : option dict) : SdkError :=
  mkSdkError c msg (Some code) (Some status)
             (match response_data with Some d => d | None => [] end) [].

Definition APIError (msg : JSON) (status : Z) (code : JSON)
    (response_data : option dict) : SdkError :=
  APIError_init Cls.APIError msg status code response_data.

Definition BadRequestError (msg : JSON) (rd : option dict) : SdkError :=
  APIError_init Cls.BadRequestError msg 400 (JStr "BAD_REQUEST") rd.

Definition NotFoundError (msg : JSON) (rd : option dict) : SdkError :=
  APIError_init Cls.NotFoundError msg 404 (JStr "NOT_FOUND") rd.

Definition ConflictError (msg : JSON) (rd : option dict) : SdkError :=
  APIError_init Cls.ConflictError msg 409 (JStr "CONFLICT") rd.

Definition ServerError (msg : JSON) (rd : option dict) : SdkError :=
  APIError_init Cls.ServerError msg 500 (JStr "SERVER_ERROR") rd.

Definition RateLimitError (msg : JSON) (rd : option dict) : SdkError :=
  APIError_init Cls.RateLimitError msg 429 (JStr "RATE_LIMITED") rd.

Definition ServiceUnavailableError (msg : JSON) (rd : option dict) : SdkError :=
  APIError_init Cls.ServiceUnavailableError msg 503
                (JStr "SERVICE_UNAVAILABLE") rd.

(** [ValidationError.__init__(message, errors)]: code "VALIDATION_ERROR". *)
Definition ValidationError (msg : JSON)
    (errs : option (list ValidationErrorDetail)) : SdkError :=
  mkSdkError Cls.ValidationError msg (Some (JStr "VALIDATION_ERROR")) None []
             (match errs with Some l => l | None => [] end).

(** *** Exceptions of the libraries the SDK calls *)

(** [requests.exceptions]: every class below derives from
    [RequestException]. *)
Inductive RequestsClass : Set :=
| RequestException
| ConnectionError
| Timeout
| ConnectTimeout
| ReadTimeout
| RetryError
| JSONDecodeError
| InvalidHeader.

(** PyJWT's [jwt.exceptions].  [InvalidKeyError] derives from [PyJWTError]
    directly; the other classes derive from [jwt.InvalidTokenError]. *)
Inductive JwtClass : Set :=
| PyJWTError
| Jwt_InvalidTokenError
| DecodeError
| InvalidSignatureError
| ExpiredSignatureError
| InvalidAlgorithmError
| ImmatureSignatureError
| InvalidKeyError.

Definition is_jwt_ExpiredSignatureError (c : JwtClass) : bool :=
  match c with ExpiredSignatureError => true | _ => false end.

Definition is_jwt_InvalidTokenError (c : JwtClass) : bool :=
  match c with
  | PyJWTError | InvalidKeyError => false
  | _ => true
  end.

Inductive BuiltinClass : Set :=
| TypeError | ValueError | AttributeError | KeyError.

(** One entry of a [pydantic.ValidationError]: the error type, the
    location (field path) and the offending input. *)
Inductive LocItem : Type :=
| LKey (name : string)
| LIndex (i : nat).

Record ErrorDetails : Type := mkErrorDetails {
  ed_type : string;
  ed_loc : list LocItem;
  ed_input : JSON
}.

(** A Python exception object. *)
Inductive Exc : Type :=
| Sdk (e : SdkError)
| Requests (c : RequestsClass) (msg : string)
| Jwt (c : JwtClass) (msg : string)
| Pydantic (model : string) (line_errors : list ErrorDetails)
| Builtin (c : BuiltinClass) (msg : string).

(** [str(e)] for the library exceptions the SDK formats into messages. *)
Definition Exc_str (e : Exc) : string :=
  match e with
  | Requests _ msg | Jwt _ msg | Builtin _ msg => msg
  | Sdk e => match message e with JStr s => s | _ => "" end
  | Pydantic model _ => model
  end.

(** [isinstance(e, TaskMasterError)] and friends. *)
Definition isinstance_sdk (e : Exc) (c : Cls.t) : bool :=
  match e with
  | Sdk s => Cls.issubclass (err_class s) c
  | _ => false
  end.

Definition is_RequestException (e : Exc) : bool :=
  match e with Requests _ _ => true | _ => false end.

(* ===================================================================== *)
(** ** Computations that may raise *)
(* ===================================================================== *)

Inductive Result (A : Type) : Type :=
| Return (a : A)
| Raise (e : Exc).

Arguments Return {A} a.
Arguments Raise {A} e.

Definition bind {A B : Type} (m : Result A) (k : A -> Result B) : Result B :=
  match m with
  | Return a => k a
  | Raise e => Raise e
  end.

Declare Scope result_scope.
Delimit Scope result_scope with result.
Notation "x <- m ;; k" := (bind m (fun x => k))
  (at level 61, m at next level, right associativity) : result_scope.
Notation "m ;;; k" := (bind m (fun _ => k))
  (at level 61, right associativity) : result_scope.

(** [try: body  except C as e: handler(e)] where [catches e] is
    [isinstance(e, C)]. *)
Definition try_except {A : Type} (body : Result A) (catches : Exc -> bool)
    (handler : Exc -> Result A) : Result A :=
  match body with
  | Return a => Return a
  | Raise e => if catches e then handler e else Raise e
  end.

Definition raises {A : Type} (m : Result A) : Prop :=
  exists e, m = Raise e.

(** [[f(x) for x in xs]]: the first element that raises ends the loop. *)
Fixpoint mapM {A B : Type} (f : A -> Result B) (xs : list A)
    : Result (list B) :=
  match xs with
  | [] => Return []
  | x :: xs' =>
      bind (f x) (fun y => bind (mapM f xs') (fun ys => Return (y :: ys)))
  end.

(** [v.get(k, default)] on the value that [response.json()] returned: a
    [dict] answers, and any other value ([None], a list, a string, a
    number) has no attribute [get]. *)
Definition no_attribute (v : JSON) (name : string) : Exc :=
  Builtin AttributeError
    ("'" ++ type_name v ++ "' object has no attribute '" ++ name ++ "'").

Definition py_get (k : string) (default : JSON) (v : JSON) : Result JSON :=
  match v with
  | JObj d => Return (dict_get_default k default d)
  | _ => Raise (no_attribute v "get")
  end.

(* ===================================================================== *)
(** ** Domain model ([models/]) *)
(* ===================================================================== *)

(** A parsed timestamp: an instant, in microseconds since the epoch. *)
Definition datetime : Type := Z.

(** *** Field validation, as pydantic performs it for the declared fields

    A model class is instantiated from the unpacked mapping [data] (the
    body of [from_api_response]): every declared field is
    looked up in [data] by name and validated against its annotation; keys
    of [data] that name no field are not looked at (the configuration in
    [models/base.py] leaves [extra] at its default, ignore).  All field
    errors are collected and raised together as one
    [pydantic.ValidationError]. *)

Inductive Validated (A : Type) : Type :=
| Valid (a : A)
| Invalid (errs : list ErrorDetails).

Arguments Valid {A} a.
Arguments Invalid {A} errs.

Definition errors_of {A : Type} (v : Validated A) : list ErrorDetails :=
  match v with
  | Valid _ => []
  | Invalid errs => errs
  end.

Definition value_or {A : Type} (v : Validated A) (default : A) : A :=
  match v with
  | Valid a => a
  | Invalid _ => default
  end.

Definition line_error (ty : string) (loc : list LocItem) (input : JSON)
    : ErrorDetails :=
  mkErrorDetails ty loc input.

(** [Field(...)] without a default: the key must be present. *)
Definition required {A : Type} (d : dict) (name : string)
    (validate : list LocItem -> JSON -> Validated A) : Validated A :=
  match dict_get name d with
  | None => Invalid [line_error "missing" [LKey name] (JObj d)]
  | Some v => validate [LKey name] v
  end.

(** [Field(default=...)]: an absent key takes the default unvalidated. *)
Definition with_default {A : Type} (d : dict) (name : string) (default : A)
    (validate : list LocItem -> JSON -> Validated A) : Validated A :=
  match dict_get name d with
  | None => Valid default
  | Some v => validate [LKey name] v
  end.

(** [str] *)
Definition validate_str (loc : list LocItem) (v : JSON) : Validated string :=
  match v with
  | JStr s => Valid s
  | _ => Invalid [line_error "string_type" loc v]
  end.

(** [str] with [min_length] and [max_length] *)
Definition validate_str_len (min_length max_length : nat)
    (loc : list LocItem) (v : JSON) : Validated string :=
  match v with
  | JStr s =>
      if Nat.ltb (String.length s) min_length
      then Invalid [line_error "string_too_short" loc v]
      else if Nat.ltb max_length (String.length s)
      then Invalid [line_error "string_too_long" loc v]
      else Valid s
  | _ => Invalid [line_error "string_type" loc v]
  end.

(** [Optional[str]] *)
Definition validate_optional_str (loc : list LocItem) (v : JSON)
    : Validated (option string) :=
  match v with
  | JNull => Valid None
  | JStr s => Valid (Some s)
  | _ => Invalid [line_error "string_type" loc v]
  end.

(** [Optional[dict]] *)
Definition validate_optional_dict (loc : list LocItem) (v : JSON)
    : Validated (option dict) :=
  match v with
  | JNull => Valid None
  | JObj d => Valid (Some d)
  | _ => Invalid [line_error "dict_type" loc v]
  end.

(** *** Enumerations ([models/task.py]) *)

Inductive TaskStatus : Set :=
| PENDING | IN_PROGRESS | DONE | DEFERRED | CANCELLED | BLOCKED.

Definition TaskStatus_value (s : TaskStatus) : string :=
  match s with
  | PENDING => "pending"
  | IN_PROGRESS => "in-progress"
  | DONE => "done"
  | DEFERRED => "deferred"
  | CANCELLED => "cancelled"
  | BLOCKED => "blocked"
  end.

Definition TaskStatus_members : list TaskStatus :=
  [PENDING; IN_PROGRESS; DONE; DEFERRED; CANCELLED; BLOCKED].

Definition TaskStatus_eqb (a b : TaskStatus) : bool :=
  String.eqb (TaskStatus_value a) (TaskStatus_value b).

Inductive TaskPriority : Set :=
| LOW | MEDIUM | HIGH | CRITICAL.

Definition TaskPriority_value (p : TaskPriority) : string :=
  match p with
  | LOW => "low"
  | MEDIUM => "medium"
  | HIGH => "high"
  | CRITICAL => "critical"
  end.

Definition TaskPriority_members : list TaskPriority :=
  [LOW; MEDIUM; HIGH; CRITICAL].

(** [Enum(value)]: the member whose value is [s], if any. *)
Definition enum_lookup {E : Type} (value : E -> string) (members : list E)
    (s : string) : option E :=
  find (fun m => String.eqb (value m) s) members.

Definition validate_enum {E : Type} (value : E -> string) (members : list E)
    (loc : list LocItem) (v : JSON) : Validated E :=
  match v with
  | JStr s =>
      match enum_lookup value members s with
      | Some m => Valid m
      | None => Invalid [line_error "enum" loc v]
      end
  | _ => Invalid [line_error "enum" loc v]
  end.

(** Values of a [model_dump()] in Python mode. *)
Inductive PyVal : Type :=
| VStr (s : string)
| VStatus (s : TaskStatus)
| VPriority (p : TaskPriority)
| VDatetime (t : datetime)
| VDict (d : dict)
| VList (items : list PyVal)
| VModel (fields : list (string * PyVal)).

Definition dump : Type := list (string * PyVal).

Fixpoint dump_get (k : string) (d : dump) : option PyVal :=
  match d with
  | [] => None
  | (k', v) :: d' => if String.eqb k k' then Some v else dump_get k d'
  end.

(** A field of a dump under [exclude_none=True]: dropped when [None]. *)
Definition dump_optional {A : Type} (name : string) (inj : A -> PyVal)
    (v : option A) : dump :=
  match v with
  | Some a => [(name, inj a)]
  | None => []
  end.

(** [datetime]: what pydantic accepts as a timestamp (ISO 8601 strings,
    numeric epochs) is the library's own parser, taken here as the
    function [parse_datetime]. *)
Definition validate_datetime (parse_datetime : JSON -> option datetime)
    (loc : list LocItem) (v : JSON) : Validated datetime :=
  match parse_datetime v with
  | Some t => Valid t
  | None => Invalid [line_error "datetime_type" loc v]
  end.

(** Applying a constructor to validated fields, errors accumulating in
    field order. *)
Definition ap {A B : Type} (f : Validated (A -> B)) (x : Validated A)
    : Validated B :=
  match f, x with
  | Valid g, Valid a => Valid (g a)
  | _, _ => Invalid (errors_of f ++ errors_of x)
  end.

Notation "f <*> x" := (ap f x) (at level 50, left associativity).

(** [List[T]]: a JSON array whose items are validated in order, each
    under its index. *)
Fixpoint validate_items {A : Type}
    (validate_item : list LocItem -> JSON -> Validated A)
    (loc : list LocItem) (i : nat) (items : list JSON) : Validated (list A) :=
  match items with
  | [] => Valid []
  | x :: rest =>
      Valid cons <*> validate_item (loc ++ [LIndex i])%list x
                 <*> validate_items validate_item loc (S i) rest
  end.

Definition validate_list {A : Type}
    (validate_item : list LocItem -> JSON -> Validated A)
    (loc : list LocItem) (v : JSON) : Validated (list A) :=
  match v with
  | JArr items => validate_items validate_item loc 0 items
  | _ => Invalid [line_error "list_type" loc v]
  end.

(** Errors of a nested model are reported under the field that holds it. *)
Definition relocate {A : Type} (loc : list LocItem) (v : Validated A)
    : Validated A :=
  match v with
  | Valid a => Valid a
  | Invalid errs =>
      Invalid (map (fun e => mkErrorDetails (ed_type e) (loc ++ ed_loc e)%list
                                            (ed_input e)) errs)
  end.

(** The outcome of instantiating a model class. *)
Definition instantiate {A : Type} (model : string) (v : Validated A)
    : Result A :=
  match v with
  | Valid a => Return a
  | Invalid errs => Raise (Pydantic model errs)
  end.

(** *** SubTask ([models/subtask.py]) *)

Module SubTask.

Record t : Type := mk {
  id : string;
  parent_id : string;
  title : string;
  description : option string;
  status : string;
  created_at : datetime;
  updated_at : datetime;
  metadata : option dict
}.

Definition is_completed (st : t) : bool :=
  String.eqb (status st) "done".

Definition is_active (st : t) : bool :=
  existsb (String.eqb (status st)) ["pending"; "in-progress"].

Section Parsing.
  Variable parse_datetime : JSON -> option datetime.

(** The field declarations of the class, in order. *)
Definition validate (d : dict) : Validated t :=
  Valid mk
    <*> required d "id" validate_str
    <*> required d "parent_id" validate_str
    <*> required d "title" (validate_str_len 1 255)
    <*> with_default d "description" None validate_optional_str
    <*> with_default d "status" "pending" validate_str
    <*> required d "created_at" (validate_datetime parse_datetime)
    <*> required d "updated_at" (validate_datetime parse_datetime)
    <*> with_default d "metadata" None validate_optional_dict.

(** [BaseModel.from_api_response] at [cls = SubTask]: unpacking a
    value that is not a mapping is a [TypeError]. *)
Definition from_api_response (data : JSON) : Result t :=
  match data with
  | JObj d => instantiate "SubTask" (validate d)
  | _ => Raise (Builtin TypeError "argument after ** must be a mapping")
  end.

(** A [SubTask] nested in another model's field. *)
Definition validate_nested (loc : list LocItem) (v : JSON) : Validated t :=
  match v with
  | JObj d => relocate loc (validate d)
  | _ => Invalid [line_error "model_type" loc v]
  end.
End Parsing.

(** [BaseModel.to_api_request]:
    [model_dump(by_alias=True, exclude_none=True)]; no field declares an
    alias, so the keys are the field names. *)
Definition to_api_request (st : t) : dump :=
  ([("id", VStr (id st)); ("parent_id", VStr (parent_id st));
    ("title", VStr (title st))]
   ++ dump_optional "description" VStr (description st)
   ++ [("status", VStr (status st));
       ("created_at", VDatetime (created_at st));
       ("updated_at", VDatetime (updated_at st))]
   ++ dump_optional "metadata" VDict (metadata st))%list.

End SubTask.

(** *** Task ([models/task.py]) *)

Module Task.

Record t : Type := mk {
  id : string;
  title : string;
  description : option string;
  status : TaskStatus;
  priority : TaskPriority;
  created_at : datetime;
  updated_at : datetime;
  subtasks : list SubTask.t;
  project_id : option string;
  account_id : option string;
  metadata : option dict
}.

Definition is_completed (task : t) : bool :=
  TaskStatus_eqb (status task) DONE.

Definition is_active (task : t) : bool :=
  existsb (TaskStatus_eqb (status task)) [PENDING; IN_PROGRESS].

Definition is_blocked (task : t) : bool :=
  TaskStatus_eqb (status task) BLOCKED.

Definition get_subtask_count (task : t) : nat :=
  List.length (subtasks task).

(** [sum(1 for st in self.subtasks if st.is_completed())] *)
Definition get_completed_subtask_count (task : t) : nat :=
  fold_right (fun st acc => if SubTask.is_completed st then 1 + acc else acc)
             0 (subtasks task).

(** The quotient [int / int] and the product with [100] are binary64
    operations; list lengths are far below [2^53], where the conversion
    of an [int] to a float is exact. *)
Definition float_of_nat (n : nat) : float :=
  PrimFloat.of_uint63 (Uint63.of_Z (Z.of_nat n)).

Definition get_completion_percentage (task : t) : float :=
  match subtasks task with
  | [] => if is_completed task then 100%float else 0%float
  | _ :: _ =>
      let completed := get_completed_subtask_count task in
      (float_of_nat completed / float_of_nat (List.length (subtasks task))
       * 100)%float
  end.

Section Parsing.
  Variable parse_datetime : JSON -> option datetime.

Definition validate (d : dict) : Validated t :=
  Valid mk
    <*> required d "id" validate_str
    <*> required d "title" (validate_str_len 1 255)
    <*> with_default d "description" None validate_optional_str
    <*> with_default d "status" PENDING
          (validate_enum TaskStatus_value TaskStatus_members)
    <*> with_default d "priority" MEDIUM
          (validate_enum TaskPriority_value TaskPriority_members)
    <*> required d "created_at" (validate_datetime parse_datetime)
    <*> required d "updated_at" (validate_datetime parse_datetime)
    <*> with_default d "subtasks" []
          (validate_list (SubTask.validate_nested parse_datetime))
    <*> with_default d "project_id" None validate_optional_str
    <*> with_default d "account_id" None validate_optional_str
    <*> with_default d "metadata" None validate_optional_dict.

Definition from_api_response (data : JSON) : Result t :=
  match data with
  | JObj d => instantiate "Task" (validate d)
  | _ => Raise (Builtin TypeError "argument after ** must be a mapping")
  end.
End Parsing.

Definition to_api_request (task : t) : dump :=
  ([("id", VStr (id task)); ("title", VStr (title task))]
   ++ dump_optional "description" VStr (description task)
   ++ [("status", VStatus (status task));
       ("priority", VPriority (priority task));
       ("created_at", VDatetime (created_at task));
       ("updated_at", VDatetime (updated_at task));
       ("subtasks",
        VList (map (fun st => VModel (SubTask.to_api_request st))
                   (subtasks task)))]
   ++ dump_optional "project_id" VStr (project_id task)
   ++ dump_optional "account_id" VStr (account_id task)
   ++ dump_optional "metadata" VDict (metadata task))%list.

End Task.

(* ===================================================================== *)
(** ** HTTP transport ([requests.Session] with the retrying adapter) *)
(* ===================================================================== *)

(** A [requests.Response], as far as the client and the retry policy read
    it.  [retry_after] is the response's [Retry-After] header, if it has
    one.  [json] is the outcome of [response.json()]: any JSON value (an
    object, but also an array, a string, a number or null), or the
    exception raised when the body is absent or is not JSON. *)
Module Response.
Record t : Type := mk {
  status_code : Z;
  reason : string;
  retry_after : option string;
  json : Result JSON
}.

(** [bool(response.headers.get("Retry-After"))] *)
Definition has_retry_after (resp : t) : bool :=
  match retry_after resp with
  | Some (String _ _) => true
  | _ => false
  end.
End Response.

(** The keyword arguments of [session.request]. *)
Record Request : Type := mkRequest {
  req_method : string;
  req_url : string;
  req_json : option dict;
  req_params : option dict;
  req_headers : list (string * string);
  req_timeout : Z
}.

(** What one attempt on the wire produces: a response, or a failure of
    the connection (refused, reset, DNS, timed out) reported by an
    exception of [requests.exceptions]. *)
Inductive Attempt : Type :=
| Sent (r : Response.t)
| Failed (c : RequestsClass) (msg : string).

(** [urllib3.util.retry.Retry], with the settings that decide whether an
    attempt is followed by another one. *)
Record Retry : Type := mkRetry {
  total : nat;
  backoff_factor : float;
  status_forcelist : list Z;
  allowed_methods : list string;
  raise_on_status : bool;
  respect_retry_after_header : bool
}.

(** [Retry(total=..., backoff_factor=..., status_forcelist=...,
    allowed_methods=...)]: the settings that are not passed keep the
    defaults of the library, [raise_on_status=True] and
    [respect_retry_after_header=True]. *)
Definition Retry_init (total : nat) (backoff_factor : float)
    (status_forcelist : list Z) (allowed_methods : list string) : Retry :=
  mkRetry total backoff_factor status_forcelist allowed_methods true true.

(** [Retry.RETRY_AFTER_STATUS_CODES] *)
Definition RETRY_AFTER_STATUS_CODES : list Z := [413; 429; 503]%Z.

Definition upper_char (c : ascii) : ascii :=
  let n := nat_of_ascii c in
  if (97 <=? n)%nat && (n <=? 122)%nat then ascii_of_nat (n - 32) else c.

(** [s.upper()], on ASCII letters. *)
Fixpoint upper (s : string) : string :=
  match s with
  | EmptyString => EmptyString
  | String c s' => String (upper_char c) (upper s')
  end.

(** [Retry._is_method_retryable]: an empty [allowed_methods] allows every
    method. *)
Definition is_method_retryable (r : Retry) (method : string) : bool :=
  match allowed_methods r with
  | [] => true
  | methods => existsb (String.eqb (upper method)) methods
  end.

(** [Retry.is_retry(method, status_code, has_retry_after)]: a response is
    retried when its method is allowed and either its status is in the
    force list or, while the budget [total] is not zero, it carries a
    [Retry-After] header and its status is one of
    [RETRY_AFTER_STATUS_CODES]. *)
Definition is_retry (r : Retry) (method : string) (status : Z)
    (has_retry_after : bool) : bool :=
  if negb (is_method_retryable r method) then false
  else if existsb (Z.eqb status) (status_forcelist r) then true
  else negb (Nat.eqb (total r) 0)
       && respect_retry_after_header r
       && has_retry_after
       && existsb (Z.eqb status) RETRY_AFTER_STATUS_CODES.

(** The policy after [Retry.increment]: the same settings with what is
    left of the budget. *)
Definition with_total (r : Retry) (remaining : nat) : Retry :=
  mkRetry remaining (backoff_factor r) (status_forcelist r)
          (allowed_methods r) (raise_on_status r)
          (respect_retry_after_header r).

(** An attempt after which the adapter tries again, budget permitting. *)
Definition retryable (r : Retry) (method : string) (a : Attempt) : bool :=
  match a with
  | Failed _ _ => true
  | Sent resp => is_retry r method (Response.status_code resp)
                          (Response.has_retry_after resp)
  end.

Section Adapter.
(** [Retry.parse_retry_after]: the seconds to wait that a [Retry-After]
    value stands for, [None] when the value is neither a number of seconds
    nor a date. *)
Variable parse_retry_after : string -> option Z.
(** The text of the [RetryError] raised for a request whose last response
    [resp] still had a forced status when the budget was spent. *)
Variable retry_error_text : Request -> Response.t -> string.

(** [Retry.sleep(response)] before the next attempt, as far as it can
    fail: a [Retry-After] header that does not parse is an
    [InvalidHeader]. *)
Definition sleep (r : Retry) (resp : Response.t) : Result unit :=
  if respect_retry_after_header r then
    match Response.retry_after resp with
    | None => Return tt
    | Some v =>
        match parse_retry_after v with
        | Some _ => Return tt
        | None =>
            Raise (Requests InvalidHeader
                            ("Invalid Retry-After header: " ++ v))
        end
    end
  else Return tt.

(** The adapter's loop for one [session.request] call.  [wire n] is the
    outcome of the [n]-th attempt (from 0); [remaining] is the retry
    budget left, [total] at the start.  A response that is not retried is
    returned.  A response that is retried costs one unit of the budget;
    when none is left, the response is replaced by a [RetryError] if
    [raise_on_status] is set and handed back otherwise.  A failed
    connection costs one unit too, and is raised as the transport
    exception when none is left.  The second component counts the attempts
    made. *)
Fixpoint send (r : Retry) (req : Request) (wire : nat -> Attempt)
    (remaining : nat) (n : nat) : Result Response.t * nat :=
  match wire n with
  | Sent resp =>
      if retryable (with_total r remaining) (req_method req) (Sent resp) then
        match remaining with
        | O =>
            (if raise_on_status r
             then Raise (Requests RetryError (retry_error_text req resp))
             else Return resp,
             S n)
        | S remaining' =>
            match sleep r resp with
            | Raise e => (Raise e, S n)
            | Return _ => send r req wire remaining' (S n)
            end
        end
      else (Return resp, S n)
  | Failed c msg =>
      match remaining with
      | O => (Raise (Requests c msg), S n)
      | S remaining' => send r req wire remaining' (S n)
      end
  end.

(** A session whose adapter carries the retry policy [r], in front of a
    service [net] that decides the outcome of each attempt at a request. *)
Definition adapter (net : Request -> nat -> Attempt) (r : Retry)
    (req : Request) : Result Response.t :=
  fst (send r req (net req) (total r) 0).

(** The number of attempts that one call through the adapter makes. *)
Definition attempts (net : Request -> nat -> Attempt) (r : Retry)
    (req : Request) : nat :=
  snd (send r req (net req) (total r) 0).
End Adapter.

(* ===================================================================== *)
(** ** The client ([client.py]) *)
(* ===================================================================== *)

(** [s.rstrip("/")] *)
Fixpoint rstrip_slash (s : string) : string :=
  match s with
  | EmptyString => EmptyString
  | String c s' =>
      match rstrip_slash s' with
      | EmptyString => if Ascii.eqb c "/"%char then EmptyString
                       else String c EmptyString
      | rest => String c rest
      end
  end.

(** Truthiness of an optional string argument: [None] and [""] are
    false. *)
Definition truthy (s : option string) : bool :=
  match s with
  | Some (String _ _) => true
  | _ => false
  end.

(** The values the operations return. *)
Inductive Value : Type :=
| Tasks (l : list Task.t)
| OneTask (t : Task.t)
| SubTasks (l : list SubTask.t)
| OneSubTask (t : SubTask.t)
| Boolean (b : bool).

Module TaskMasterClient.

Record t : Type := mk {
  api_url : string;
  token : option string;
  timeout : Z;
  max_retries : nat;
  retry_backoff : float
}.

(** [__init__]: an empty [api_url] is a [ValueError]; the trailing
    slashes are stripped. *)
Definition init (api_url : string) (token : option string) (timeout : Z)
    (max_retries : nat) (retry_backoff : float) : Result t :=
  match api_url with
  | EmptyString => Raise (Builtin ValueError "api_url is required")
  | _ => Return (mk (rstrip_slash api_url) token timeout max_retries
                    retry_backoff)
  end.

(** The retry strategy mounted by [_setup_session]. *)
Definition _setup_session (self : t) : Retry :=
  Retry_init (max_retries self) (retry_backoff self)
             [429; 500; 502; 503; 504]%Z
             ["GET"; "POST"; "PUT"; "PATCH"; "DELETE"].

Definition _get_headers (self : t) : list (string * string) :=
  ([("Content-Type", "application/json")]
   ++ match token self with
      | Some tok => if truthy (Some tok)
                    then [("Authorization", ("Bearer " ++ tok)%string)]
                    else []
      | None => []
      end)%list.

(** [_handle_response_status].  A body that does not parse counts as
    the empty dict; [error_data.get] is then called on whatever was
    parsed, and only a dict has that method. *)
Definition _handle_response_status (response : Response.t) : Result unit :=
  let status := Response.status_code response in
  if (status <? 400)%Z then Return tt
  else
    let parsed :=
      match Response.json response with
      | Return v => v
      | Raise _ => JObj []
      end in
    match parsed with
    | JObj error_data =>
        let message :=
          dict_get_default "message" (JStr (Response.reason response))
                           error_data in
        let code := dict_get_default "code" (JStr "UNKNOWN") error_data in
        if (status =? 400)%Z then
          Raise (Sdk (BadRequestError message (Some error_data)))
        else if (status =? 401)%Z then
          Raise (Sdk (AuthenticationError message))
        else if (status =? 404)%Z then
          Raise (Sdk (NotFoundError message (Some error_data)))
        else if (status =? 409)%Z then
          Raise (Sdk (ConflictError message (Some error_data)))
        else if (status =? 429)%Z then
          Raise (Sdk (RateLimitError message (Some error_data)))
        else if (500 <=? status)%Z then
          if (status =? 503)%Z then
            Raise (Sdk (ServiceUnavailableError message (Some error_data)))
          else Raise (Sdk (ServerError message (Some error_data)))
        else
          Raise (Sdk (APIError message status code (Some error_data)))
    | _ => Raise (no_attribute parsed "get")
    end.

Section Calls.
  (** The mounted session: [transport r req] is the outcome of
      [self.session.request(...)] on a session whose adapters carry the
      retry policy [r]. *)
  Variable transport : Retry -> Request -> Result Response.t.
  Variable parse_datetime : JSON -> option datetime.

Definition build_request (self : t) (method endpoint : string)
    (data params : option dict) : Request :=
  mkRequest method (api_url self ++ endpoint) data params
            (_get_headers self) (timeout self).

(** [self.session.request(...)] *)
Definition session_request (self : t) (req : Request) : Result Response.t :=
  transport (_setup_session self) req.

(** [_make_request] *)
Definition _make_request (self : t) (method endpoint : string)
    (data params : option dict) : Result JSON :=
  let req := build_request self method endpoint data params in
  try_except
    (response <- session_request self req ;;
     _handle_response_status response ;;;
     Response.json response)%result
    is_RequestException
    (fun e => Raise (Sdk (TaskMasterError
                           (JStr ("Request failed: " ++ Exc_str e))))).

Definition list_tasks_params (status priority : option string)
    (limit offset : Z) : dict :=
  ([("limit", JNum limit); ("offset", JNum offset)]
   ++ match status with
      | Some s => if truthy status then [("status", JStr s)] else []
      | None => []
      end
   ++ match priority with
      | Some p => if truthy priority then [("priority", JStr p)] else []
      | None => []
      end)%list.

Definition list_tasks (self : t) (status priority : option string)
    (limit offset : Z) : Result (list Task.t) :=
  (response <- _make_request self "GET" "/tasks" None
                 (Some (list_tasks_params status priority limit offset)) ;;
   data <- py_get "data" (JArr []) response ;;
   match data with
   | JArr items => mapM (Task.from_api_response parse_datetime) items
   | _ => Return []
   end)%result.

Definition get_task (self : t) (task_id : string) : Result Task.t :=
  (response <- _make_request self "GET" ("/tasks/" ++ task_id) None None ;;
   data <- py_get "data" (JObj []) response ;;
   Task.from_api_response parse_datetime data)%result.

Definition create_task (self : t) (task_data : dict) : Result Task.t :=
  (response <- _make_request self "POST" "/tasks" (Some task_data) None ;;
   data <- py_get "data" (JObj []) response ;;
   Task.from_api_response parse_datetime data)%result.

Definition update_task (self : t) (task_id : string) (task_data : dict)
    : Result Task.t :=
  (response <- _make_request self "PATCH" ("/tasks/" ++ task_id)
                 (Some task_data) None ;;
   data <- py_get "data" (JObj []) response ;;
   Task.from_api_response parse_datetime data)%result.

Definition delete_task (self : t) (task_id : string) : Result bool :=
  (_make_request self "DELETE" ("/tasks/" ++ task_id) None None ;;;
   Return true)%result.

Definition list_subtasks (self : t) (task_id : string)
    : Result (list SubTask.t) :=
  (response <- _make_request self "GET"
                 ("/tasks/" ++ task_id ++ "/subtasks") None None ;;
   data <- py_get "data" (JArr []) response ;;
   match data with
   | JArr items => mapM (SubTask.from_api_response parse_datetime) items
   | _ => Return []
   end)%result.

Definition get_subtask (self : t) (task_id subtask_id : string)
    : Result SubTask.t :=
  (response <- _make_request self "GET"
                 ("/tasks/" ++ task_id ++ "/subtasks/" ++ subtask_id)
                 None None ;;
   data <- py_get "data" (JObj []) response ;;
   SubTask.from_api_response parse_datetime data)%result.

Definition create_subtask (self : t) (task_id : string)
    (subtask_data : dict) : Result SubTask.t :=
  (response <- _make_request self "POST"
                 ("/tasks/" ++ task_id ++ "/subtasks")
                 (Some subtask_data) None ;;
   data <- py_get "data" (JObj []) response ;;
   SubTask.from_api_response parse_datetime data)%result.

Definition update_subtask (self : t) (task_id subtask_id : string)
    (subtask_data : dict) : Result SubTask.t :=
  (response <- _make_request self "PATCH"
                 ("/tasks/" ++ task_id ++ "/subtasks/" ++ subtask_id)
                 (Some subtask_data) None ;;
   data <- py_get "data" (JObj []) response ;;
   SubTask.from_api_response parse_datetime data)%result.

Definition delete_subtask (self : t) (task_id subtask_id : string)
    : Result bool :=
  (_make_request self "DELETE"
     ("/tasks/" ++ task_id ++ "/subtasks/" ++ subtask_id) None None ;;;
   Return true)%result.
End Calls.

End TaskMasterClient.

(** *** The ten operations, as one type

    Every public operation of the client is [_make_request] on a method,
    an endpoint, a body and query parameters, followed by the unwrapping of
    the reply. *)
Inductive Operation : Type :=
| ListTasks (status priority : option string) (limit offset : Z)
| GetTask (task_id : string)
| CreateTask (task_data : dict)
| UpdateTask (task_id : string) (task_data : dict)
| DeleteTask (task_id : string)
| ListSubtasks (task_id : string)
| GetSubtask (task_id subtask_id : string)
| CreateSubtask (task_id : string) (subtask_data : dict)
| UpdateSubtask (task_id subtask_id : string) (subtask_data : dict)
| DeleteSubtask (task_id subtask_id : string).

Definition is_delete (op : Operation) : bool :=
  match op with
  | DeleteTask _ | DeleteSubtask _ _ => true
  | _ => false
  end.

Section Dispatch.
Variable transport : Retry -> Request -> Result Response.t.
Variable parse_datetime : JSON -> option datetime.

Import TaskMasterClient.

Definition call (self : TaskMasterClient.t) (op : Operation)
    : Result Value :=
  match op with
  | ListTasks status priority limit offset =>
      bind (list_tasks transport parse_datetime self status priority limit offset)
           (fun l => Return (Tasks l))
  | GetTask task_id =>
      bind (get_task transport parse_datetime self task_id)
           (fun t => Return (OneTask t))
  | CreateTask task_data =>
      bind (create_task transport parse_datetime self task_data)
           (fun t => Return (OneTask t))
  | UpdateTask task_id task_data =>
      bind (update_task transport parse_datetime self task_id task_data)
           (fun t => Return (OneTask t))
  | DeleteTask task_id =>
      bind (delete_task transport self task_id) (fun b => Return (Boolean b))
  | ListSubtasks task_id =>
      bind (list_subtasks transport parse_datetime self task_id)
           (fun l => Return (SubTasks l))
  | GetSubtask task_id subtask_id =>
      bind (get_subtask transport parse_datetime self task_id subtask_id)
           (fun t => Return (OneSubTask t))
  | CreateSubtask task_id subtask_data =>
      bind (create_subtask transport parse_datetime self task_id subtask_data)
           (fun t => Return (OneSubTask t))
  | UpdateSubtask task_id subtask_id subtask_data =>
      bind (update_subtask transport parse_datetime self task_id subtask_id
                           subtask_data)
           (fun t => Return (OneSubTask t))
  | DeleteSubtask task_id subtask_id =>
      bind (delete_subtask transport self task_id subtask_id)
           (fun b => Return (Boolean b))
  end.

(** The request an operation sends. *)
Definition op_method (op : Operation) : string :=
  match op with
  | ListTasks _ _ _ _ | GetTask _ | ListSubtasks _ | GetSubtask _ _ => "GET"
  | CreateTask _ | CreateSubtask _ _ => "POST"
  | UpdateTask _ _ | UpdateSubtask _ _ _ => "PATCH"
  | DeleteTask _ | DeleteSubtask _ _ => "DELETE"
  end.

Definition op_endpoint (op : Operation) : string :=
  match op with
  | ListTasks _ _ _ _ | CreateTask _ => "/tasks"
  | GetTask task_id | UpdateTask task_id _ | DeleteTask task_id =>
      "/tasks/" ++ task_id
  | ListSubtasks task_id | CreateSubtask task_id _ =>
      "/tasks/" ++ task_id ++ "/subtasks"
  | GetSubtask task_id subtask_id | UpdateSubtask task_id subtask_id _
  | DeleteSubtask task_id subtask_id =>
      "/tasks/" ++ task_id ++ "/subtasks/" ++ subtask_id
  end.

Definition op_data (op : Operation) : option dict :=
  match op with
  | CreateTask d | UpdateTask _ d | CreateSubtask _ d
  | UpdateSubtask _ _ d => Some d
  | _ => None
  end.

Definition op_params (op : Operation) : option dict :=
  match op with
  | ListTasks status priority limit offset =>
      Some (list_tasks_params status priority limit offset)
  | _ => None
  end.

Definition op_request (self : TaskMasterClient.t) (op : Operation)
    : Request :=
  build_request self (op_method op) (op_endpoint op) (op_data op)
                (op_params op).

(** What an operation does with the parsed reply. *)
Definition op_unwrap (op : Operation) (response : JSON) : Result Value :=
  match op with
  | ListTasks _ _ _ _ =>
      (data <- py_get "data" (JArr []) response ;;
       match data with
       | JArr items =>
           l <- mapM (Task.from_api_response parse_datetime) items ;;
           Return (Tasks l)
       | _ => Return (Tasks [])
       end)%result
  | GetTask _ | CreateTask _ | UpdateTask _ _ =>
      (data <- py_get "data" (JObj []) response ;;
       t <- Task.from_api_response parse_datetime data ;;
       Return (OneTask t))%result
  | ListSubtasks _ =>
      (data <- py_get "data" (JArr []) response ;;
       match data with
       | JArr items =>
           l <- mapM (SubTask.from_api_response parse_datetime) items ;;
           Return (SubTasks l)
       | _ => Return (SubTasks [])
       end)%result
  | GetSubtask _ _ | CreateSubtask _ _ | UpdateSubtask _ _ _ =>
      (data <- py_get "data" (JObj []) response ;;
       t <- SubTask.from_api_response parse_datetime data ;;
       Return (OneSubTask t))%result
  | DeleteTask _ | DeleteSubtask _ _ => Return (Boolean true)
  end.
End Dispatch.

(* ===================================================================== *)
(** ** Token inspection ([auth/jwt_handler.py]) *)
(* ===================================================================== *)

Module JWTHandler.

Record t : Type := mk {
  secret : string;
  algorithms : list string;
  verify : bool
}.

(** [__init__]: [self.algorithms = algorithms or ["HS256"]]. *)
Definition init (secret : string) (algorithms : option (list string))
    (verify : bool) : t :=
  mk secret
     (match algorithms with
      | Some (a :: l) => a :: l
      | _ => ["HS256"]
      end)
     verify.

Section WithLibrary.
  (** PyJWT's [jwt.decode(token, key, algorithms=..., options=
      {"verify_signature": b})], the collaborator that checks signatures
      and decodes claims. *)
  Variable jwt_decode : string -> string -> list string -> bool
                        -> Result dict.

Definition is_ExpiredSignatureError (e : Exc) : bool :=
  match e with
  | Jwt c _ => is_jwt_ExpiredSignatureError c
  | _ => false
  end.

Definition is_InvalidTokenError (e : Exc) : bool :=
  match e with
  | Jwt c _ => is_jwt_InvalidTokenError c
  | _ => false
  end.

(** [decode]: the two [except] clauses are tried in order. *)
Definition decode (self : t) (token : string) : Result dict :=
  match jwt_decode token (secret self) (algorithms self) (verify self) with
  | Return payload => Return payload
  | Raise e =>
      if is_ExpiredSignatureError e then
        Raise (Sdk (TokenExpiredError (JStr "Token has expired")))
      else if is_InvalidTokenError e then
        Raise (Sdk (InvalidTokenError
                      (JStr ("Invalid token: " ++ Exc_str e))))
      else Raise e
  end.

(** [is_expired]: the library is called without [options], so the
    signature is verified whatever [self.verify] says. *)
Definition is_expired (self : t) (token : string) : Result bool :=
  match jwt_decode token (secret self) (algorithms self) true with
  | Return _ => Return false
  | Raise e =>
      if is_ExpiredSignatureError e then Return true
      else if is_InvalidTokenError e then Return true
      else Raise e
  end.
End WithLibrary.

(** Truthiness of a claim value, as [if value:] tests it. *)
Definition json_truthy (v : JSON) : bool :=
  match v with
  | JNull => false
  | JBool b => b
  | JNum z => negb (Z.eqb z 0)
  | JStr s => negb (String.eqb s "")
  | JArr items => match items with [] => false | _ => true end
  | JObj fields => match fields with [] => false | _ => true end
  end.

(** A value of a payload given to [encode]: what JSON holds, or a
    [datetime] object, which the library turns into a timestamp. *)
Inductive ClaimValue : Type :=
| Plain (v : JSON)
| Date (t : datetime).

Definition claims : Type := list (string * ClaimValue).

Fixpoint claims_get (k : string) (d : claims) : option ClaimValue :=
  match d with
  | [] => None
  | (k', v) :: d' => if String.eqb k k' then Some v else claims_get k d'
  end.

(** [d[k] = v] on a copy: the value of an existing key is replaced in
    place, a new key goes to the end. *)
Fixpoint claims_set (k : string) (v : ClaimValue) (d : claims) : claims :=
  match d with
  | [] => [(k, v)]
  | (k', v') :: d' =>
      if String.eqb k k' then (k, v) :: d' else (k', v') :: claims_set k v d'
  end.

(** A [timedelta], in microseconds. *)
Definition timedelta : Type := Z.

Section WithClock.
(** [jwt.decode(token, options={"verify_signature": False})]: the
    library decoding a token with no key and no check. *)
Variable jwt_decode_unverified : string -> Result dict.
(** [jwt.encode(payload, key, algorithm=...)] *)
Variable jwt_encode : claims -> string -> string -> Result string.
(** [datetime.utcnow()] *)
Variable utcnow : datetime.
(** [datetime.utcfromtimestamp(value)] on a claim value: a [TypeError]
    for a value that is no number, an error for a number out of the range
    of dates. *)
Variable utcfromtimestamp : JSON -> Result datetime.
(** [datetime.utcnow() + timedelta(seconds=n)], an [OverflowError] for
    [n] out of the range of durations or of dates. *)
Variable utcnow_plus_seconds : Z -> Result datetime.

(** [encode]: every exception of the body is replaced by an
    [InvalidTokenError]. *)
Definition encode (self : t) (payload : claims) (algorithm : string)
    (expires_in : option Z) : Result string :=
  try_except
    (payload' <- match expires_in with
                 | Some n =>
                     if negb (Z.eqb n 0)
                     then (exp <- utcnow_plus_seconds n ;;
                           Return (claims_set "exp" (Date exp) payload))%result
                     else Return payload
                 | None => Return payload
                 end ;;
     jwt_encode payload' (secret self) algorithm)%result
    (fun _ => true)
    (fun e => Raise (Sdk (InvalidTokenError
                            (JStr ("Failed to encode token: " ++ Exc_str e))))).

(** [get_payload_without_verification] *)
Definition get_payload_without_verification (self : t) (token : string)
    : Result dict :=
  try_except
    (jwt_decode_unverified token)
    (fun _ => true)
    (fun e => Raise (Sdk (InvalidTokenError
                            (JStr ("Failed to decode token: " ++ Exc_str e))))).

(** [get_expiration_time] *)
Definition get_expiration_time (self : t) (token : string)
    : Result (option datetime) :=
  (payload <- get_payload_without_verification self token ;;
   match dict_get "exp" payload with
   | Some exp_timestamp =>
       if json_truthy exp_timestamp
       then (d <- utcfromtimestamp exp_timestamp ;; Return (Some d))
       else Return None
   | None => Return None
   end)%result.

(** [get_time_to_expiration] *)
Definition get_time_to_expiration (self : t) (token : string)
    : Result (option timedelta) :=
  (expiration <- get_expiration_time self token ;;
   match expiration with
   | Some d => Return (Some (d - utcnow)%Z)
   | None => Return None
   end)%result.
End WithClock.

End JWTHandler.

(* ===================================================================== *)
(** * Properties *)
(* ===================================================================== *)

Unset Implicit Arguments.

(** ** Status predicates of a task *)

Lemma TaskStatus_eqb_eq (a b : TaskStatus) :
  TaskStatus_eqb a b = true <-> a = b.
Proof.
  destruct a, b; split; intro H; try reflexivity; try discriminate H.
Qed.

(** C8. For every task: [is_active] holds exactly for the statuses pending
    and in-progress, [is_completed] exactly for done, [is_blocked] exactly
    for blocked; [is_active] and [is_completed] never hold together, and
    neither holds for deferred, cancelled or blocked. *)
Theorem status_predicates (task : Task.t) :
  (Task.is_active task = true <->
     Task.status task = PENDING \/ Task.status task = IN_PROGRESS) /\
  (Task.is_completed task = true <-> Task.status task = DONE) /\
  (Task.is_blocked task = true <-> Task.status task = BLOCKED) /\
  ~ (Task.is_active task = true /\ Task.is_completed task = true) /\
  (In (Task.status task) [DEFERRED; CANCELLED; BLOCKED] ->
     Task.is_active task = false /\ Task.is_completed task = false).
Proof.
  unfold Task.is_active, Task.is_completed, Task.is_blocked.
  destruct (Task.status task); cbn;
    repeat split; intros; intuition (try discriminate; try reflexivity).
Qed.

(** 2024-01-01T00:00:00Z *)
Definition new_year_2024 : datetime := 1704067200000000%Z.

Definition sample_subtask (id status : string) : SubTask.t :=
  SubTask.mk id "1" "Create JWT token generator" None status
             new_year_2024 new_year_2024 None.

Definition sample_task (status : TaskStatus) (subtasks : list SubTask.t)
    : Task.t :=
  Task.mk "1" "Implement user authentication" None status HIGH
          new_year_2024 new_year_2024 subtasks (Some "proj-1")
          (Some "acc-1") None.

Lemma status_predicates_witness :
  In (Task.status (sample_task BLOCKED [])) [DEFERRED; CANCELLED; BLOCKED] /\
  Task.is_active (sample_task BLOCKED []) = false /\
  Task.is_completed (sample_task BLOCKED []) = false.
Proof.
  assert (H : In (Task.status (sample_task BLOCKED []))
                 [DEFERRED; CANCELLED; BLOCKED]) by (cbn; auto).
  split; [exact H|].
  exact (proj2 (proj2 (proj2 (proj2
           (status_predicates (sample_task BLOCKED []))))) H).
Defined.

(** ** Completion percentage *)

Definition count_status (s : string) (l : list SubTask.t) : nat :=
  List.length (filter (fun st => String.eqb (SubTask.status st) s) l).

Lemma completed_count_filter (task : Task.t) :
  Task.get_completed_subtask_count task =
  count_status "done" (Task.subtasks task).
Proof.
  unfold Task.get_completed_subtask_count, count_status, SubTask.is_completed.
  induction (Task.subtasks task) as [|st l IH]; cbn; [reflexivity|].
  destruct (String.eqb (SubTask.status st) "done"); cbn;
    [f_equal|]; exact IH.
Qed.

(** C5, amended.  With no subtasks the percentage is exactly 100.0 for a
    done task and exactly 0.0 otherwise; with subtasks it is the quotient
    of the number of subtasks whose status is "done" by the number of
    subtasks, times 100, the quotient taken first and each of the two
    operations rounded to double precision, with no further rounding; a
    task with 2 done and 3 pending subtasks gets exactly 40.0. *)
Theorem completion_percentage (task : Task.t) :
  (Task.subtasks task = [] -> Task.status task = DONE ->
     Task.get_completion_percentage task = 100%float) /\
  (Task.subtasks task = [] -> Task.status task <> DONE ->
     Task.get_completion_percentage task = 0%float) /\
  (Task.subtasks task <> [] ->
     Task.get_completion_percentage task =
     (Task.float_of_nat (count_status "done" (Task.subtasks task))
      / Task.float_of_nat (List.length (Task.subtasks task)) * 100)%float) /\
  (count_status "done" (Task.subtasks task) = 2 ->
   count_status "pending" (Task.subtasks task) = 3 ->
   List.length (Task.subtasks task) = 5 ->
     Task.get_completion_percentage task = 40%float).
Proof.
  assert (Hne : forall st l, Task.subtasks task = st :: l ->
            Task.get_completion_percentage task =
            (Task.float_of_nat (count_status "done" (Task.subtasks task))
             / Task.float_of_nat (List.length (Task.subtasks task))
             * 100)%float).
  { intros st l E. unfold Task.get_completion_percentage.
    rewrite completed_count_filter. rewrite E. reflexivity. }
  repeat split.
  - intros E Hd. unfold Task.get_completion_percentage, Task.is_completed.
    rewrite E, Hd. reflexivity.
  - intros E Hd. unfold Task.get_completion_percentage, Task.is_completed.
    rewrite E.
    destruct (TaskStatus_eqb (Task.status task) DONE) eqn:Eq;
      [apply TaskStatus_eqb_eq in Eq; contradiction | reflexivity].
  - intros Hn. destruct (Task.subtasks task) as [|st l] eqn:E;
      [contradiction | ].
    rewrite (Hne st l eq_refl). reflexivity.
  - intros Hd _ Hl. destruct (Task.subtasks task) as [|st l] eqn:E;
      [discriminate Hl | ].
    rewrite (Hne st l eq_refl), Hd, Hl. reflexivity.
Qed.

Definition two_done_three_pending : Task.t :=
  sample_task IN_PROGRESS
    [sample_subtask "1.1" "done"; sample_subtask "1.2" "done";
     sample_subtask "1.3" "pending"; sample_subtask "1.4" "pending";
     sample_subtask "1.5" "pending"].

Lemma completion_percentage_witness :
  Task.get_completion_percentage two_done_three_pending = 40%float.
Proof.
  apply (proj2 (proj2 (proj2 (completion_percentage two_done_three_pending))));
    reflexivity.
Defined.

(** The formula as the claim words it, [100 * done / total]: the product
    is taken first, on integers, and divided once. *)
Definition percentage_as_stated (done total : nat) : float :=
  (Task.float_of_nat (100 * done) / Task.float_of_nat total)%float.

Definition done_29_of_100 : Task.t :=
  sample_task IN_PROGRESS
    (repeat (sample_subtask "1.1" "done") 29
     ++ repeat (sample_subtask "1.2" "pending") 71)%list.

(** C5, as stated, fails: for 29 done subtasks of 100 the formula of the
    claim gives exactly 29.0, and the code gives the double just below
    it (28.999999999999996), since 29/100 is rounded before it is
    multiplied by 100. *)
Lemma percentage_29_of_100 :
  count_status "done" (Task.subtasks done_29_of_100) = 29 /\
  List.length (Task.subtasks done_29_of_100) = 100 /\
  percentage_as_stated 29 100 = 29%float /\
  Task.get_completion_percentage done_29_of_100 = PrimFloat.next_down 29 /\
  Task.get_completion_percentage done_29_of_100 <> percentage_as_stated 29 100.
Proof.
  split; [reflexivity|]. split; [reflexivity|].
  split; [vm_compute; reflexivity|]. split; [vm_compute; reflexivity|].
  intros H.
  apply (f_equal (fun x => PrimFloat.ltb x 29)) in H.
  vm_compute in H. discriminate H.
Qed.

(** ** Sample data *)

(** The configuration used by the test fixtures. *)
Definition sample_client : TaskMasterClient.t :=
  TaskMasterClient.mk "http://localhost:3000/api/v1" (Some "test-jwt-token")
                      30 3 1%float.

(** A timestamp parser that accepts integer epochs only, a fragment of
    what pydantic accepts. *)
Definition unix_timestamp (v : JSON) : option datetime :=
  match v with
  | JNum z => Some z
  | _ => None
  end.

(** A service that answers every attempt the same way. *)
Definition always (a : Attempt) : Request -> nat -> Attempt :=
  fun _ _ => a.

(** A session whose [request] method has a fixed outcome, as the tests
    patch it. *)
Definition patched (outcome : Result Response.t)
    : Retry -> Request -> Result Response.t :=
  fun _ _ => outcome.

(** ** The adapter's loop *)

(** An attempt after which the loop goes on while budget is left: a failed
    connection, or a response that the policy retries with [remaining]
    retries left and whose [Retry-After] header, if it has one, can be
    read. *)
Definition proceeds (parse_retry_after : string -> option Z) (r : Retry)
    (remaining : nat) (method : string) (a : Attempt) : bool :=
  match a with
  | Failed _ _ => true
  | Sent resp =>
      retryable (with_total r remaining) method a &&
      match sleep parse_retry_after r resp with
      | Return _ => true
      | Raise _ => false
      end
  end.

Section SendFacts.
Variable parse_retry_after : string -> option Z.
Variable retry_error_text : Request -> Response.t -> string.
Variable r : Retry.
Variable req : Request.
Variable wire : nat -> Attempt.

Let run := send parse_retry_after retry_error_text r req wire.
Let goes_on := fun remaining a =>
  proceeds parse_retry_after r remaining (req_method req) a.

Lemma send_terminal (remaining n : nat) (resp : Response.t) :
  wire n = Sent resp ->
  retryable (with_total r remaining) (req_method req) (Sent resp) = false ->
  run remaining n = (Return resp, S n).
Proof.
  intros Hw Hr. unfold run.
  destruct remaining; cbn [send]; rewrite Hw, Hr; reflexivity.
Qed.

Lemma send_again (remaining n : nat) :
  goes_on (S remaining) (wire n) = true ->
  run (S remaining) n = run remaining (S n).
Proof.
  unfold goes_on, proceeds, run. intros Hp. cbn [send].
  destruct (wire n) as [resp|c msg]; [|reflexivity].
  apply andb_prop in Hp. destruct Hp as [Hr Hs]. rewrite Hr.
  destruct (sleep parse_retry_after r resp); [reflexivity | discriminate Hs].
Qed.

(** The loop ends at an attempt after which it does not go on. *)
Lemma send_stops (remaining n : nat) :
  goes_on remaining (wire n) = false ->
  snd (run remaining n) = S n.
Proof.
  unfold goes_on, proceeds, run. intros Hp.
  destruct remaining; cbn [send];
    destruct (wire n) as [resp|c msg]; try discriminate Hp;
    destruct (retryable _ (req_method req) (Sent resp)); try reflexivity.
  cbn [andb] in Hp.
  destruct (sleep parse_retry_after r resp); [discriminate Hp | reflexivity].
Qed.

Lemma send_attempts_bounds (remaining n : nat) :
  n < snd (run remaining n) <= n + remaining + 1.
Proof.
  unfold run. revert n. induction remaining as [|rem IH]; intro n.
  - cbn [send]. destruct (wire n) as [resp|c msg];
      [destruct (retryable _ (req_method req) (Sent resp))|]; cbn; lia.
  - cbn [send]. destruct (wire n) as [resp|c msg];
      [destruct (retryable _ (req_method req) (Sent resp));
       [destruct (sleep parse_retry_after r resp)|]|];
      cbn [snd]; try lia; specialize (IH (S n)); lia.
Qed.

(** Every attempt that is followed by another one was one after which
    the loop goes on, with the budget left at that attempt. *)
Lemma send_only_proceeds (remaining n i : nat) :
  n <= i -> S i < snd (run remaining n) ->
  goes_on (remaining - (i - n)) (wire i) = true.
Proof.
  revert n. induction remaining as [|rem IH]; intros n Hn Hi.
  - pose proof (send_attempts_bounds 0 n). lia.
  - destruct (goes_on (S rem) (wire n)) eqn:Hp.
    + rewrite (send_again rem n Hp) in Hi.
      destruct (Nat.eq_dec i n) as [->|Hne].
      * rewrite Nat.sub_diag, Nat.sub_0_r. exact Hp.
      * replace (S rem - (i - n)) with (rem - (i - S n)) by lia.
        apply (IH (S n)); [lia | exact Hi].
    + rewrite (send_stops (S rem) n Hp) in Hi. lia.
Qed.

(** A run of such attempts within the budget is skipped: the response
    that ends it is what the session returns. *)
Lemma send_skips (k remaining n : nat) (resp : Response.t) :
  k <= remaining ->
  (forall i, i < k -> goes_on (remaining - i) (wire (n + i)) = true) ->
  wire (n + k) = Sent resp ->
  retryable (with_total r (remaining - k)) (req_method req) (Sent resp)
    = false ->
  run remaining n = (Return resp, S (n + k)).
Proof.
  revert remaining n.
  induction k as [|k IH]; intros remaining n Hk Hgo Hw Hr.
  - rewrite Nat.add_0_r, ?Nat.sub_0_r in *. apply send_terminal; assumption.
  - destruct remaining as [|rem]; [lia|].
    rewrite send_again.
    + rewrite (IH rem (S n)).
      * f_equal. f_equal. lia.
      * lia.
      * intros i Hi. replace (S n + i) with (n + S i) by lia.
        replace (rem - i) with (S rem - S i) by lia.
        apply Hgo. lia.
      * replace (S n + k) with (n + S k) by lia. exact Hw.
      * replace (rem - k) with (S rem - S k) by lia. exact Hr.
    + specialize (Hgo 0). rewrite Nat.add_0_r, Nat.sub_0_r in Hgo.
      apply Hgo. lia.
Qed.

(** When the loop goes on after every attempt that has budget left, it
    reaches the attempt that has none. *)
Lemma send_spent (remaining n : nat) :
  (forall i, i < remaining ->
             goes_on (remaining - i) (wire (n + i)) = true) ->
  run remaining n = run 0 (n + remaining).
Proof.
  revert n. induction remaining as [|rem IH]; intros n Hgo.
  - rewrite Nat.add_0_r. reflexivity.
  - rewrite send_again.
    + rewrite (IH (S n)); [f_equal; lia|].
      intros i Hi. replace (S n + i) with (n + S i) by lia.
      replace (rem - i) with (S rem - S i) by lia. apply Hgo. lia.
    + specialize (Hgo 0). rewrite Nat.add_0_r, Nat.sub_0_r in Hgo.
      apply Hgo. lia.
Qed.

(** The attempt that finds the budget spent ends the loop: a failed
    connection is raised as it is, a response that would be retried is
    replaced by a [RetryError] or handed back, as [raise_on_status]
    says. *)
Lemma send_last (n : nat) :
  run 0 n =
  (match wire n with
   | Failed c msg => Raise (Requests c msg)
   | Sent resp =>
       if retryable (with_total r 0) (req_method req) (Sent resp)
       then if raise_on_status r
            then Raise (Requests RetryError (retry_error_text req resp))
            else Return resp
       else Return resp
   end, S n).
Proof.
  unfold run. cbn [send]. destruct (wire n) as [resp|c msg]; [|reflexivity].
  destruct (retryable _ (req_method req) (Sent resp)); reflexivity.
Qed.

End SendFacts.

(** When no attempt obtains a response, the transport exception comes out
    once the budget is spent. *)
Lemma send_unreachable (parse_retry_after : string -> option Z)
    (retry_error_text : Request -> Response.t -> string)
    (r : Retry) (req : Request) (c : RequestsClass) (msg : string)
    (remaining n : nat) :
  fst (send parse_retry_after retry_error_text r req
            (fun _ => Failed c msg) remaining n)
  = Raise (Requests c msg).
Proof.
  revert n. induction remaining as [|rem IH]; intro n; cbn;
    [reflexivity | apply IH].
Qed.

(** ** The request pipeline *)

Import TaskMasterClient.

Section PipelineFacts.
Variable transport : Retry -> Request -> Result Response.t.
Variable parse_datetime : JSON -> option datetime.

(** Every operation is [_make_request] followed by its unwrapping. *)
Lemma call_make_request (self : TaskMasterClient.t) (op : Operation) :
  call transport parse_datetime self op =
  bind (_make_request transport self (op_method op) (op_endpoint op)
                      (op_data op) (op_params op))
       (op_unwrap parse_datetime op).
Proof.
  destruct op; cbn [call op_method op_endpoint op_data op_params op_unwrap];
    unfold list_tasks, get_task, create_task, update_task, delete_task,
           list_subtasks, get_subtask, create_subtask, update_subtask,
           delete_subtask;
    match goal with
    | |- context [_make_request ?n ?s ?m ?e ?d ?p] =>
        destruct (_make_request n s m e d p) as [response|e0]
    end; cbn [bind op_unwrap]; try reflexivity;
    (destruct (py_get "data" _ response) as [data|e1];
     cbn [bind]; [|reflexivity]);
    try reflexivity; destruct data; reflexivity.
Qed.

(** A transport exception out of the session is replaced by a
    [TaskMasterError]. *)
Lemma make_request_transport_failure (self : TaskMasterClient.t)
    (method endpoint : string) (data params : option dict)
    (c : RequestsClass) (msg : string) :
  session_request transport self
    (build_request self method endpoint data params)
    = Raise (Requests c msg) ->
  _make_request transport self method endpoint data params
    = Raise (Sdk (TaskMasterError (JStr ("Request failed: " ++ msg)))).
Proof.
  intros H. unfold _make_request. rewrite H. reflexivity.
Qed.

(** What the status check raises is what [_make_request] raises, unless
    it is an exception of [requests], which the check never raises. *)
Lemma make_request_status_failure (self : TaskMasterClient.t)
    (method endpoint : string) (data params : option dict)
    (resp : Response.t) (e : Exc) :
  session_request transport self
    (build_request self method endpoint data params)
    = Return resp ->
  _handle_response_status resp = Raise e ->
  is_RequestException e = false ->
  _make_request transport self method endpoint data params = Raise e.
Proof.
  intros H He Hn. unfold _make_request. rewrite H. cbn [bind].
  rewrite He. cbn. rewrite Hn. reflexivity.
Qed.

(** An error status never reaches the JSON parsing of the success path,
    and a taxonomy error passes through the [except] clause. *)
Lemma make_request_error_status (self : TaskMasterClient.t)
    (method endpoint : string) (data params : option dict)
    (resp : Response.t) (e : SdkError) :
  session_request transport self
    (build_request self method endpoint data params)
    = Return resp ->
  _handle_response_status resp = Raise (Sdk e) ->
  _make_request transport self method endpoint data params = Raise (Sdk e).
Proof.
  intros H He.
  apply (make_request_status_failure self _ _ _ _ resp (Sdk e) H He).
  reflexivity.
Qed.

Lemma make_request_success (self : TaskMasterClient.t)
    (method endpoint : string) (data params : option dict)
    (resp : Response.t) :
  session_request transport self
    (build_request self method endpoint data params)
    = Return resp ->
  (Response.status_code resp < 400)%Z ->
  _make_request transport self method endpoint data params =
  try_except (Response.json resp) is_RequestException
    (fun e => Raise (Sdk (TaskMasterError
                            (JStr ("Request failed: " ++ Exc_str e))))).
Proof.
  intros H Hs. unfold _make_request. rewrite H. cbn [bind].
  unfold _handle_response_status.
  apply Z.ltb_lt in Hs. rewrite Hs. reflexivity.
Qed.

(** A transport exception is replaced in every operation. *)
Lemma call_transport_failure (self : TaskMasterClient.t) (op : Operation)
    (c : RequestsClass) (msg : string) :
  session_request transport self (op_request self op)
    = Raise (Requests c msg) ->
  call transport parse_datetime self op
    = Raise (Sdk (TaskMasterError (JStr ("Request failed: " ++ msg)))).
Proof.
  intros H. rewrite call_make_request. unfold op_request in H.
  rewrite (make_request_transport_failure self _ _ _ _ c msg H).
  reflexivity.
Qed.

(** What the status check raises is what the operation raises. *)
Lemma call_status_failure (self : TaskMasterClient.t) (op : Operation)
    (resp : Response.t) (e : Exc) :
  session_request transport self (op_request self op) = Return resp ->
  _handle_response_status resp = Raise e ->
  is_RequestException e = false ->
  call transport parse_datetime self op = Raise e.
Proof.
  intros Hresp He Hn. rewrite call_make_request.
  unfold op_request in Hresp.
  rewrite (make_request_status_failure self _ _ _ _ resp e Hresp He Hn).
  reflexivity.
Qed.

Lemma call_status_error (self : TaskMasterClient.t) (op : Operation)
    (resp : Response.t) (e : SdkError) :
  session_request transport self (op_request self op) = Return resp ->
  _handle_response_status resp = Raise (Sdk e) ->
  call transport parse_datetime self op = Raise (Sdk e).
Proof.
  intros Hresp He.
  apply (call_status_failure self op resp (Sdk e) Hresp He). reflexivity.
Qed.

End PipelineFacts.

(** Every operation sees the session through one request only. *)
Lemma call_same_response
    (transport transport' : Retry -> Request -> Result Response.t)
    (parse_datetime : JSON -> option datetime)
    (self : TaskMasterClient.t) (op : Operation) :
  session_request transport self (op_request self op)
  = session_request transport' self (op_request self op) ->
  call transport parse_datetime self op
  = call transport' parse_datetime self op.
Proof.
  intros H. rewrite !call_make_request. f_equal.
  unfold _make_request.
  change (build_request self (op_method op) (op_endpoint op) (op_data op)
                        (op_params op))
    with (op_request self op).
  rewrite H. reflexivity.
Qed.

(** ** Status mapping *)

(** The body of an error response as the status check reads it: the
    parsed object, the empty dict when the body does not parse, and
    nothing when the body is JSON of another kind. *)
Definition error_body (resp : Response.t) : option dict :=
  match Response.json resp with
  | Return (JObj d) => Some d
  | Return _ => None
  | Raise _ => Some []
  end.

(** What [_handle_response_status] raises, status by status. *)
Lemma handle_response_status_error (resp : Response.t) (body : dict) :
  (400 <= Response.status_code resp)%Z ->
  error_body resp = Some body ->
  let status := Response.status_code resp in
  let msg := dict_get_default "message" (JStr (Response.reason resp))
                              body in
  let cd := dict_get_default "code" (JStr "UNKNOWN") body in
  exists e : SdkError,
    _handle_response_status resp = Raise (Sdk e) /\
    message e = msg /\
    (status = 400%Z -> e = BadRequestError msg (Some body)) /\
    (status = 401%Z -> e = AuthenticationError msg) /\
    (status = 404%Z -> e = NotFoundError msg (Some body)) /\
    (status = 409%Z -> e = ConflictError msg (Some body)) /\
    (status = 429%Z -> e = RateLimitError msg (Some body)) /\
    (status = 503%Z -> e = ServiceUnavailableError msg (Some body)) /\
    ((500 <= status)%Z -> status <> 503%Z ->
       e = ServerError msg (Some body)) /\
    ((status < 500)%Z -> ~ In status [400; 401; 404; 409; 429]%Z ->
       e = APIError msg status cd (Some body)).
Proof.
  intros Hs Hbody status msg cd.
  assert (Hparsed : match Response.json resp with
                    | Return v => v
                    | Raise _ => JObj []
                    end = JObj body).
  { unfold error_body in Hbody.
    destruct (Response.json resp) as [[]|]; try discriminate Hbody;
      injection Hbody as <-; reflexivity. }
  unfold _handle_response_status. rewrite Hparsed.
  fold status. fold msg. fold cd.
  destruct (status <? 400)%Z eqn:E0; [apply Z.ltb_lt in E0; lia|].
  destruct (status =? 400)%Z eqn:E1;
    [apply Z.eqb_eq in E1; eexists; split; [reflexivity|];
     cbn; repeat split; intros; try reflexivity; try lia;
     exfalso; cbn in *; intuition lia |].
  destruct (status =? 401)%Z eqn:E2;
    [apply Z.eqb_eq in E2; eexists; split; [reflexivity|];
     cbn; repeat split; intros; try reflexivity; try lia;
     exfalso; cbn in *; intuition lia |].
  destruct (status =? 404)%Z eqn:E3;
    [apply Z.eqb_eq in E3; eexists; split; [reflexivity|];
     cbn; repeat split; intros; try reflexivity; try lia;
     exfalso; cbn in *; intuition lia |].
  destruct (status =? 409)%Z eqn:E4;
    [apply Z.eqb_eq in E4; eexists; split; [reflexivity|];
     cbn; repeat split; intros; try reflexivity; try lia;
     exfalso; cbn in *; intuition lia |].
  destruct (status =? 429)%Z eqn:E5;
    [apply Z.eqb_eq in E5; eexists; split; [reflexivity|];
     cbn; repeat split; intros; try reflexivity; try lia;
     exfalso; cbn in *; intuition lia |].
  apply Z.eqb_neq in E1, E2, E3, E4, E5.
  destruct (500 <=? status)%Z eqn:E6.
  - apply Z.leb_le in E6.
    destruct (status =? 503)%Z eqn:E7.
    + apply Z.eqb_eq in E7. eexists; split; [reflexivity|].
      cbn; repeat split; intros; try reflexivity; try lia.
    + apply Z.eqb_neq in E7. eexists; split; [reflexivity|].
      cbn; repeat split; intros; try reflexivity; try lia.
  - apply Z.leb_gt in E6. eexists; split; [reflexivity|].
    cbn; repeat split; intros; try reflexivity; try lia.
Qed.







(** The six statuses of the edge-case test, on [list_tasks]. *)
Definition error_reply (status : Z) (reason : string) : Response.t :=
  Response.mk status reason None
    (Return (JObj [("status", JStr "error"); ("message", JStr reason);
                   ("code", JNum status)])).

Example six_statuses :
  map (fun resp =>
         match call (patched (Return resp)) unix_timestamp sample_client
                    (ListTasks None None 50 0) with
         | Raise (Sdk e) => Some (err_class e)
         | _ => None
         end)
      [error_reply 400 "Error 400"; error_reply 404 "Error 404";
       error_reply 409 "Error 409"; error_reply 429 "Error 429";
       error_reply 500 "Error 500"; error_reply 503 "Error 503"]
  = [Some Cls.BadRequestError; Some Cls.NotFoundError;
     Some Cls.ConflictError; Some Cls.RateLimitError;
     Some Cls.ServerError; Some Cls.ServiceUnavailableError].
Proof. reflexivity. Qed.

(** ** Transport failures *)

(** C1 (what the code does).  When the session raises a transport
    exception, either at once or, behind the retrying adapter, after every
    attempt has failed, each operation of the client raises a
    [TaskMasterError] whose message is "Request failed: " followed by the
    text of that exception: the except clause of [_make_request] catches
    [RequestException] and replaces it, so the transport exception itself
    does not reach the caller. *)
Theorem transport_failure_is_wrapped
    (parse_datetime : JSON -> option datetime) (self : TaskMasterClient.t)
    (op : Operation) (c : RequestsClass) (msg : string) :
  let wrapped := Sdk (TaskMasterError (JStr ("Request failed: " ++ msg))) in
  call (patched (Raise (Requests c msg))) parse_datetime self op
    = Raise wrapped /\
  (forall parse_retry_after retry_error_text,
     call (adapter parse_retry_after retry_error_text
                   (always (Failed c msg))) parse_datetime self op
     = Raise wrapped) /\
  isinstance_sdk wrapped Cls.TaskMasterError = true /\
  wrapped <> Requests c msg.
Proof.
  intros wrapped. split; [|split; [|split; [reflexivity | discriminate]]].
  - apply (call_transport_failure _ parse_datetime self op c msg).
    reflexivity.
  - intros parse_retry_after retry_error_text.
    apply (call_transport_failure _ parse_datetime self op c msg).
    unfold session_request, adapter, always. apply send_unreachable.
Qed.

(** The two cases of the edge-case tests: a refused connection and a
    timeout, on [list_tasks]. *)
Example connection_error_on_list_tasks :
  call (patched (Raise (Requests ConnectionError "Connection failed")))
       unix_timestamp sample_client (ListTasks None None 50 0)
  = Raise (Sdk (TaskMasterError (JStr "Request failed: Connection failed"))).
Proof. reflexivity. Qed.

Example timeout_on_list_tasks :
  call (patched (Raise (Requests Timeout "Connection timeout")))
       unix_timestamp sample_client (ListTasks None None 50 0)
  = Raise (Sdk (TaskMasterError (JStr "Request failed: Connection timeout"))).
Proof. reflexivity. Qed.

(** ** Retry policy *)

Lemma existsb_Zeqb_In (z : Z) (l : list Z) :
  existsb (Z.eqb z) l = true <-> In z l.
Proof.
  rewrite existsb_exists. split.
  - intros (x & Hin & Heq). apply Z.eqb_eq in Heq. subst. exact Hin.
  - intros Hin. exists z. split; [exact Hin | apply Z.eqb_refl].
Qed.

(** Every method the client issues is in [allowed_methods], so whether a
    response is retried depends on its status, on its [Retry-After]
    header and on the budget that is left. *)
Lemma client_is_retry (self : TaskMasterClient.t) (op : Operation)
    (budget : nat) (status : Z) (has_retry_after : bool) :
  is_retry (with_total (_setup_session self) budget) (op_method op) status
           has_retry_after
  = existsb (Z.eqb status) [429; 500; 502; 503; 504]%Z
    || (negb (Nat.eqb budget 0) && has_retry_after
        && existsb (Z.eqb status) [413; 429; 503]%Z).
Proof.
  assert (Hm : is_method_retryable (with_total (_setup_session self) budget)
                                   (op_method op) = true)
    by (destruct op; reflexivity).
  unfold is_retry. rewrite Hm.
  cbn [negb with_total _setup_session Retry_init status_forcelist total
       respect_retry_after_header].
  unfold RETRY_AFTER_STATUS_CODES.
  destruct (existsb (Z.eqb status) [429; 500; 502; 503; 504]%Z);
    [reflexivity|].
  rewrite andb_true_r. reflexivity.
Qed.

(** A transient attempt, for a policy with [budget] retries left: a
    failed connection, a response whose status is 429, 500, 502, 503 or
    504, or, while the budget is not zero, a response with status 413
    that carries a [Retry-After] header. *)
Definition transient (budget : nat) (a : Attempt) : Prop :=
  match a with
  | Failed _ _ => True
  | Sent resp =>
      In (Response.status_code resp) [429; 500; 502; 503; 504]%Z \/
      (0 < budget /\ Response.has_retry_after resp = true /\
       Response.status_code resp = 413%Z)
  end.

(** The [Retry-After] header of a response, when it has one, can be
    read. *)
Definition waits (parse_retry_after : string -> option Z) (a : Attempt)
    : Prop :=
  match a with
  | Failed _ _ => True
  | Sent resp =>
      forall v, Response.retry_after resp = Some v ->
                parse_retry_after v <> None
  end.

Lemma client_retryable_transient (self : TaskMasterClient.t) (op : Operation)
    (budget : nat) (a : Attempt) :
  retryable (with_total (_setup_session self) budget) (op_method op) a = true
  <-> transient budget a.
Proof.
  destruct a as [resp|c msg]; cbn [retryable transient]; [|split; auto].
  rewrite client_is_retry, orb_true_iff, !andb_true_iff, negb_true_iff,
    Nat.eqb_neq, !existsb_Zeqb_In.
  split.
  - intros [H|[[Hb Hh] Hin]]; [left; exact H|].
    cbn in Hin. destruct Hin as [E|[E|[E|[]]]].
    + right. repeat split; [lia | exact Hh | symmetry; exact E].
    + left. rewrite <- E. cbn. auto.
    + left. rewrite <- E. cbn. auto 6.
  - intros [H|(Hb & Hh & E)]; [left; exact H|].
    right. repeat split; [lia | exact Hh | rewrite E; cbn; auto].
Qed.

Lemma client_proceeds (parse_retry_after : string -> option Z)
    (self : TaskMasterClient.t) (op : Operation) (budget : nat)
    (a : Attempt) :
  proceeds parse_retry_after (_setup_session self) budget (op_method op) a
    = true
  <-> transient budget a /\ waits parse_retry_after a.
Proof.
  destruct a as [resp|c msg]; [|cbn; tauto].
  unfold proceeds. rewrite andb_true_iff, client_retryable_transient.
  apply and_iff_compat_l.
  unfold sleep, waits.
  cbn [_setup_session Retry_init respect_retry_after_header].
  destruct (Response.retry_after resp) as [v|].
  - destruct (parse_retry_after v) eqn:E; split.
    + intros _ v' Hv. injection Hv as <-. rewrite E. discriminate.
    + reflexivity.
    + discriminate.
    + intros H. exfalso. exact (H v eq_refl E).
  - split; [intros _ v Hv; discriminate Hv | reflexivity].
Qed.

Lemma terminal_statuses_not_transient (budget : nat) (resp : Response.t) :
  In (Response.status_code resp) [400; 401; 404; 409]%Z ->
  ~ transient budget (Sent resp).
Proof.
  cbn. intros Hin [H|(_ & _ & H)];
    destruct Hin as [E|[E|[E|[E|[]]]]]; rewrite <- E in H;
    [repeat destruct H as [H|H]; try discriminate H; exact H ..
    | discriminate H | discriminate H | discriminate H | discriminate H].
Qed.

Section ThroughTheAdapter.
Variable parse_retry_after : string -> option Z.
Variable retry_error_text : Request -> Response.t -> string.
Variable net : Request -> nat -> Attempt.
Variable self : TaskMasterClient.t.
Variable op : Operation.

Let req := op_request self op.
Let loop := send parse_retry_after retry_error_text (_setup_session self)
                 req (net req) (max_retries self) 0.

(** What the loop gives is what the session returns and how many
    attempts it makes. *)
Lemma session_through_adapter :
  session_request (adapter parse_retry_after retry_error_text net) self req
    = fst loop /\
  attempts parse_retry_after retry_error_text net (_setup_session self) req
    = snd loop.
Proof. split; reflexivity. Qed.

(** Transient attempts within the budget are skipped. *)
Lemma adapter_skips (k : nat) (resp : Response.t) :
  k <= max_retries self ->
  (forall i, i < k -> transient (max_retries self - i) (net req i) /\
                      waits parse_retry_after (net req i)) ->
  net req k = Sent resp ->
  ~ transient (max_retries self - k) (Sent resp) ->
  loop = (Return resp, S k).
Proof.
  intros Hk Htr Hw Hnt.
  apply (send_skips parse_retry_after retry_error_text (_setup_session self)
           req (net req) k (max_retries self) 0 resp Hk).
  - intros i Hi. apply (client_proceeds parse_retry_after self op).
    apply Htr. exact Hi.
  - exact Hw.
  - change (req_method req) with (op_method op).
    destruct (retryable (with_total (_setup_session self)
                                    (max_retries self - k))
                        (op_method op) (Sent resp)) eqn:E; [|reflexivity].
    apply client_retryable_transient in E. contradiction.
Qed.

(** When every attempt is transient, the budget is spent and a transport
    exception comes out: the one of the last attempt when that was a
    failed connection, a [RetryError] when it was a response. *)
Lemma adapter_spent :
  (forall i, i <= max_retries self ->
             transient (max_retries self - i) (net req i)) ->
  (forall i, i < max_retries self -> waits parse_retry_after (net req i)) ->
  loop = (match net req (max_retries self) with
          | Failed c msg => Raise (Requests c msg)
          | Sent resp =>
              Raise (Requests RetryError (retry_error_text req resp))
          end, S (max_retries self)).
Proof.
  intros Htr Hwt. unfold loop.
  rewrite send_spent.
  - rewrite send_last. cbn [Nat.add].
    specialize (Htr (max_retries self) (Nat.le_refl _)).
    rewrite Nat.sub_diag in Htr.
    destruct (net req (max_retries self)) as [resp|c msg] eqn:E;
      [|reflexivity].
    change (req_method req) with (op_method op).
    apply (proj2 (client_retryable_transient self op 0 (Sent resp)))
      in Htr.
    rewrite Htr. reflexivity.
  - intros i Hi. apply (client_proceeds parse_retry_after self op).
    cbn [Nat.add]. split; [apply Htr; lia | apply Hwt; exact Hi].
Qed.


End ThroughTheAdapter.

(** A fragment of the library's reading of [Retry-After]: a number of
    seconds in decimal digits. *)
Definition digit_value (c : ascii) : option Z :=
  let n := nat_of_ascii c in
  if (48 <=? n)%nat && (n <=? 57)%nat then Some (Z.of_nat (n - 48))
  else None.

Fixpoint decimal (acc : Z) (s : string) : option Z :=
  match s with
  | EmptyString => Some acc
  | String c s' =>
      match digit_value c with
      | Some d => decimal (10 * acc + d) s'
      | None => None
      end
  end.

Definition seconds_only (v : string) : option Z :=
  match v with
  | EmptyString => None
  | _ => decimal 0 v
  end.

Definition too_many (req : Request) (resp : Response.t) : string :=
  "Max retries exceeded with url: " ++ req_url req.

Definition payload_too_large : Response.t :=
  Response.mk 413 "Payload Too Large" (Some "1")
    (Return (JObj [("status", JStr "error");
                   ("message", JStr "Payload too large")])).

Definition empty_list_reply : Response.t :=
  Response.mk 200 "OK" None
    (Return (JObj [("status", JStr "success"); ("data", JArr [])])).

Definition too_large_once : Request -> nat -> Attempt :=
  fun _ n => match n with
             | O => Sent payload_too_large
             | S _ => Sent empty_list_reply
             end.

(** C4, as stated, fails: a response with status 413 that carries a
    [Retry-After] header is followed by a second attempt, although 413 is
    none of 429, 500, 502, 503, 504 and the attempt was no connection
    failure. *)
Lemma retry_after_413_is_retried :
  too_large_once (op_request sample_client (ListTasks None None 50 0)) 0
    = Sent payload_too_large /\
  ~ In (Response.status_code payload_too_large) [429; 500; 502; 503; 504]%Z /\
  attempts seconds_only too_many too_large_once (_setup_session sample_client)
           (op_request sample_client (ListTasks None None 50 0)) = 2 /\
  call (adapter seconds_only too_many too_large_once) unix_timestamp
       sample_client (ListTasks None None 50 0)
    = Return (Tasks []).
Proof.
  split; [reflexivity|]. split; [|split; reflexivity].
  cbn. intros H. repeat destruct H as [H|H]; try discriminate H; exact H.
Qed.

(** C4, amended.  For every operation sent through the retrying adapter:
    at most [max_retries] retries are made; an attempt is followed by
    another one only if it was transient, that is a failed connection, a
    response with status 429, 500, 502, 503 or 504, or, while budget is
    left, a response with status 413 that carries a [Retry-After] header;
    transient attempts whose [Retry-After] header, if they have one, can
    be read are retried while the budget lasts, so that the call gives
    what the first response that is not transient gives; a
    response with status 400, 401, 404 or 409 is never transient and ends
    the call at the attempt that obtains it, the first one included, with
    the mapped error (for 401, AuthenticationError) when its body is a
    JSON object or does not parse; and when every attempt is transient the
    call fails after [max_retries + 1] attempts. *)
Theorem retry_policy
    (parse_retry_after : string -> option Z)
    (retry_error_text : Request -> Response.t -> string)
    (net : Request -> nat -> Attempt) (parse_datetime : JSON -> option datetime)
    (self : TaskMasterClient.t) (op : Operation) :
  let req := op_request self op in
  let session := adapter parse_retry_after retry_error_text net in
  let tries := attempts parse_retry_after retry_error_text net
                        (_setup_session self) req in
  let budget := fun i => max_retries self - i in
  (1 <= tries <= 1 + max_retries self) /\
  (forall i, S i < tries ->
     transient (budget i) (net req i) /\
     waits parse_retry_after (net req i)) /\
  (forall k resp,
     k <= max_retries self ->
     (forall i, i < k -> transient (budget i) (net req i) /\
                         waits parse_retry_after (net req i)) ->
     net req k = Sent resp ->
     (~ transient (budget k) (Sent resp) ->
        tries = S k /\
        call session parse_datetime self op
        = call (patched (Return resp)) parse_datetime self op) /\
     (In (Response.status_code resp) [400; 401; 404; 409]%Z ->
        ~ transient (budget k) (Sent resp) /\
        tries = S k /\
        forall body, error_body resp = Some body ->
        exists e : SdkError,
          call session parse_datetime self op = Raise (Sdk e) /\
          (Response.status_code resp = 400%Z ->
             err_class e = Cls.BadRequestError) /\
          (Response.status_code resp = 401%Z ->
             err_class e = Cls.AuthenticationError) /\
          (Response.status_code resp = 404%Z ->
             err_class e = Cls.NotFoundError) /\
          (Response.status_code resp = 409%Z ->
             err_class e = Cls.ConflictError))) /\
  ((forall i, i <= max_retries self -> transient (budget i) (net req i)) ->
   (forall i, i < max_retries self -> waits parse_retry_after (net req i)) ->
   tries = S (max_retries self) /\
   exists msg,
     call session parse_datetime self op
     = Raise (Sdk (TaskMasterError (JStr ("Request failed: " ++ msg))))).
Proof.
  intros req session tries budget.
  destruct (session_through_adapter parse_retry_after retry_error_text net
              self op) as [Hsession Htries].
  fold req in Hsession, Htries. fold session in Hsession.
  fold tries in Htries.
  assert (Hskip : forall k resp,
            k <= max_retries self ->
            (forall i, i < k -> transient (budget i) (net req i) /\
                                waits parse_retry_after (net req i)) ->
            net req k = Sent resp ->
            ~ transient (budget k) (Sent resp) ->
            tries = S k /\
            session_request session self req = Return resp).
  { intros k resp Hk Htr Hw Hnt.
    pose proof (adapter_skips parse_retry_after retry_error_text net self op
                  k resp Hk Htr Hw Hnt) as Hloop.
    fold req in Hloop. rewrite Hloop in Hsession, Htries.
    split; [exact Htries | exact Hsession]. }
  split; [|split; [|split]].
  - rewrite Htries.
    pose proof (send_attempts_bounds parse_retry_after retry_error_text
                  (_setup_session self) req (net req) (max_retries self) 0).
    lia.
  - intros i Hi. rewrite Htries in Hi.
    pose proof (send_only_proceeds parse_retry_after retry_error_text
                  (_setup_session self) req (net req) (max_retries self) 0 i
                  (Nat.le_0_l i) Hi) as Hp.
    rewrite Nat.sub_0_r in Hp.
    apply (client_proceeds parse_retry_after self op) in Hp. exact Hp.
  - intros k resp Hk Htr Hw. split.
    + intros Hnt. destruct (Hskip k resp Hk Htr Hw Hnt) as [Ht Hs].
      split; [exact Ht|]. apply call_same_response. exact Hs.
    + intros Hin.
      pose proof (terminal_statuses_not_transient (budget k) resp Hin) as Hnt.
      destruct (Hskip k resp Hk Htr Hw Hnt) as [Ht Hs].
      split; [exact Hnt|]. split; [exact Ht|].
      intros body Hbody.
      assert (Hst : (400 <= Response.status_code resp)%Z).
      { cbn in Hin. destruct Hin as [E|[E|[E|[E|[]]]]]; rewrite <- E; lia. }
      destruct (handle_response_status_error resp body Hst Hbody)
        as (e & He & _ & H400 & H401 & H404 & H409 & _).
      exists e. split.
      * exact (call_status_error session parse_datetime self op resp e Hs He).
      * repeat split; intros E;
          [rewrite (H400 E) | rewrite (H401 E) | rewrite (H404 E)
           | rewrite (H409 E)]; reflexivity.
  - intros Htr Hwt.
    pose proof (adapter_spent parse_retry_after retry_error_text net self op
                  Htr Hwt) as Hloop.
    fold req in Hloop. rewrite Hloop in Hsession, Htries.
    split; [exact Htries|]. cbn [fst] in Hsession.
    destruct (net req (max_retries self)) as [resp|c msg]; eexists;
      exact (call_transport_failure session parse_datetime self op _ _
                                    Hsession).
Qed.

Definition server_error : Response.t :=
  Response.mk 500 "Internal Server Error" None
    (Return (JObj [("status", JStr "error");
                   ("message", JStr "Server error")])).

Definition unauthorized : Response.t :=
  Response.mk 401 "Unauthorized" None
    (Return (JObj [("status", JStr "error");
                   ("message", JStr "Authentication failed");
                   ("code", JNum 401)])).

(** A server error, then a refusal. *)
Definition fails_then_refuses : Request -> nat -> Attempt :=
  fun _ n => match n with
             | O => Sent server_error
             | S _ => Sent unauthorized
             end.

Lemma retry_policy_witness :
  attempts seconds_only too_many fails_then_refuses
           (_setup_session sample_client)
           (op_request sample_client (ListTasks None None 50 0)) = 2 /\
  exists e : SdkError,
    call (adapter seconds_only too_many fails_then_refuses)
         unix_timestamp sample_client (ListTasks None None 50 0)
      = Raise (Sdk e) /\
    err_class e = Cls.AuthenticationError.
Proof.
  assert (Hk : 1 <= max_retries sample_client) by (cbn; lia).
  assert (Htr : forall i, i < 1 ->
            transient (max_retries sample_client - i)
              (fails_then_refuses
                 (op_request sample_client (ListTasks None None 50 0)) i) /\
            waits seconds_only
              (fails_then_refuses
                 (op_request sample_client (ListTasks None None 50 0)) i)).
  { intros i Hi. assert (i = 0) as -> by lia. split.
    - cbn. left. auto.
    - cbn. intros v Hv. discriminate Hv. }
  destruct (proj1 (proj2 (proj2
              (retry_policy seconds_only too_many fails_then_refuses
                            unix_timestamp sample_client
                            (ListTasks None None 50 0))))
              1 unauthorized Hk Htr eq_refl)
    as [_ H].
  destruct H as (_ & Ha & He); [cbn; auto|].
  split; [exact Ha|].
  destruct (He _ eq_refl) as (e & Hcall & _ & H401 & _).
  exists e. split; [exact Hcall | apply H401; reflexivity].
Defined.

(** A transient failure followed by a success: the call is retried and
    returns the success result. *)
Definition fails_once : Request -> nat -> Attempt :=
  fun _ n => match n with
             | O => Sent server_error
             | S _ => Sent empty_list_reply
             end.

Example retry_then_success :
  call (adapter seconds_only too_many fails_once) unix_timestamp sample_client
       (ListTasks None None 50 0)
    = Return (Tasks []) /\
  attempts seconds_only too_many fails_once (_setup_session sample_client)
           (op_request sample_client (ListTasks None None 50 0)) = 2.
Proof. split; reflexivity. Qed.

(** A server that answers 500 every time: once the budget is spent the
    session raises a [RetryError], and the caller sees the
    [TaskMasterError] that replaces it, not a [ServerError]. *)
Example budget_spent :
  call (adapter seconds_only too_many (always (Sent server_error)))
       unix_timestamp sample_client (ListTasks None None 50 0)
    = Raise (Sdk (TaskMasterError
        (JStr ("Request failed: Max retries exceeded with url: "
               ++ "http://localhost:3000/api/v1/tasks")))) /\
  attempts seconds_only too_many (always (Sent server_error))
           (_setup_session sample_client)
           (op_request sample_client (ListTasks None None 50 0)) = 4.
Proof. split; reflexivity. Qed.

(** ** Delete operations *)

Definition no_content : Response.t :=
  Response.mk 204 "No Content" None
    (Raise (Requests JSONDecodeError
              "Expecting value: line 1 column 1 (char 0)")).

(** C7 (what the code does).  A delete operation whose response has
    status < 400 does not return [True] when the body is absent or is not
    JSON: [_make_request] parses the body of every response, the parse
    raises, and the operation raises, a [TaskMasterError] when the parse
    error is an exception of [requests] and the parse error itself
    otherwise. *)
Theorem delete_raises_without_json_body
    (transport : Retry -> Request -> Result Response.t)
    (parse_datetime : JSON -> option datetime)
    (self : TaskMasterClient.t) (op : Operation) (resp : Response.t)
    (e : Exc) :
  is_delete op = true ->
  session_request transport self (op_request self op) = Return resp ->
  (Response.status_code resp < 400)%Z ->
  Response.json resp = Raise e ->
  call transport parse_datetime self op
  = Raise (if is_RequestException e
           then Sdk (TaskMasterError (JStr ("Request failed: " ++ Exc_str e)))
           else e) /\
  call transport parse_datetime self op <> Return (Boolean true).
Proof.
  intros Hd Hresp Hs He.
  assert (Hcall : call transport parse_datetime self op
                  = Raise (if is_RequestException e
                           then Sdk (TaskMasterError
                                       (JStr ("Request failed: "
                                              ++ Exc_str e)))
                           else e)).
  { rewrite call_make_request. unfold op_request in Hresp.
    rewrite (make_request_success transport self _ _ _ _ resp Hresp Hs).
    rewrite He. cbn. destruct (is_RequestException e); reflexivity. }
  split; [exact Hcall|]. rewrite Hcall. discriminate.
Qed.

Lemma delete_raises_without_json_body_witness :
  call (patched (Return no_content)) unix_timestamp sample_client
       (DeleteTask "1")
  = Raise (Sdk (TaskMasterError
      (JStr "Request failed: Expecting value: line 1 column 1 (char 0)"))).
Proof.
  refine (proj1 (delete_raises_without_json_body
                   (patched (Return no_content)) unix_timestamp sample_client
                   (DeleteTask "1") no_content _ eq_refl eq_refl _ eq_refl)).
  cbn. lia.
Defined.

(** A delete operation whose response has status < 400 returns [True]
    whenever the body parses as JSON, whatever it holds, an object or
    not; and a delete operation never returns [False]. *)
Lemma delete_returns_true
    (transport : Retry -> Request -> Result Response.t)
    (parse_datetime : JSON -> option datetime)
    (self : TaskMasterClient.t) (op : Operation) :
  is_delete op = true ->
  (forall resp body,
     session_request transport self (op_request self op) = Return resp ->
     (Response.status_code resp < 400)%Z ->
     Response.json resp = Return body ->
     call transport parse_datetime self op = Return (Boolean true)) /\
  call transport parse_datetime self op <> Return (Boolean false).
Proof.
  intros Hd. rewrite call_make_request. split.
  - intros resp body Hresp Hs Hb. unfold op_request in Hresp.
    rewrite (make_request_success transport self _ _ _ _ resp Hresp Hs).
    rewrite Hb. cbn. destruct op; try discriminate Hd; reflexivity.
  - destruct (_make_request transport self (op_method op) (op_endpoint op)
                            (op_data op) (op_params op)) as [body|e];
      cbn; [|discriminate].
    destruct op; try discriminate Hd; cbn; discriminate.
Qed.

(** ** Parsing entities *)

Lemma errors_of_ap {A B : Type} (f : Validated (A -> B)) (x : Validated A) :
  errors_of (f <*> x) = (errors_of f ++ errors_of x)%list.
Proof. destruct f, x; reflexivity. Qed.

Lemma instantiate_invalid {A : Type} (model : string) (v : Validated A)
    (e : ErrorDetails) :
  In e (errors_of v) ->
  instantiate model v = Raise (Pydantic model (errors_of v)).
Proof. destruct v; cbn; [contradiction | reflexivity]. Qed.

Lemma instantiate_not_sdk {A : Type} (model : string) (v : Validated A)
    (e : Exc) (c : Cls.t) :
  instantiate model v = Raise e -> isinstance_sdk e c = false.
Proof.
  destruct v; cbn; intros H; [discriminate H|].
  injection H as <-. reflexivity.
Qed.

Lemma required_missing {A : Type} (d : dict) (name : string)
    (validate : list LocItem -> JSON -> Validated A) :
  dict_get name d = None ->
  errors_of (required d name validate)
  = [line_error "missing" [LKey name] (JObj d)].
Proof. intros H. unfold required. rewrite H. reflexivity. Qed.

Lemma required_present {A : Type} (d : dict) (name : string)
    (validate : list LocItem -> JSON -> Validated A) (v : JSON) :
  dict_get name d = Some v ->
  required d name validate = validate [LKey name] v.
Proof. intros H. unfold required. rewrite H. reflexivity. Qed.

Lemma with_default_present {A : Type} (d : dict) (name : string) (default : A)
    (validate : list LocItem -> JSON -> Validated A) (v : JSON) :
  dict_get name d = Some v ->
  with_default d name default validate = validate [LKey name] v.
Proof. intros H. unfold with_default. rewrite H. reflexivity. Qed.

(** A title that is empty or longer than 255 characters is an error of
    the title field. *)
Lemma title_out_of_range (loc : list LocItem) (s : string) :
  String.length s = 0 \/ 255 < String.length s ->
  exists ty, errors_of (validate_str_len 1 255 loc (JStr s))
             = [line_error ty loc (JStr s)].
Proof.
  intros H. unfold validate_str_len.
  destruct (Nat.ltb (String.length s) 1) eqn:E1.
  - eexists. reflexivity.
  - destruct (Nat.ltb 255 (String.length s)) eqn:E2.
    + eexists. reflexivity.
    + apply Nat.ltb_ge in E1, E2. lia.
Qed.

(** A string that is the value of no member is an error of an enum
    field. *)
Lemma enum_unknown {E : Type} (value : E -> string) (members : list E)
    (loc : list LocItem) (s : string) :
  (forall m, In m members -> value m <> s) ->
  errors_of (validate_enum value members loc (JStr s))
  = [line_error "enum" loc (JStr s)].
Proof.
  intros H. unfold validate_enum, enum_lookup.
  destruct (find (fun m => String.eqb (value m) s) members) as [m|] eqn:Ef;
    [|reflexivity].
  apply find_some in Ef. destruct Ef as [Hin Heq].
  apply String.eqb_eq in Heq. exfalso. exact (H m Hin Heq).
Qed.

(** Two validation outcomes that succeed together, with the same value. *)
Definition same_outcome {A : Type} (v v' : Validated A) : Prop :=
  match v, v' with
  | Valid a, Valid a' => a = a'
  | Invalid _, Invalid _ => True
  | _, _ => False
  end.

Lemma same_outcome_refl {A : Type} (v : Validated A) : same_outcome v v.
Proof. destruct v; cbn; auto. Qed.

Lemma same_outcome_ap {A B : Type} (f f' : Validated (A -> B))
    (x x' : Validated A) :
  same_outcome f f' -> same_outcome x x' ->
  same_outcome (f <*> x) (f' <*> x').
Proof.
  destruct f, f', x, x'; cbn; intros Hf Hx; try contradiction; auto.
  subst. reflexivity.
Qed.

Lemma same_outcome_required {A : Type} (d d' : dict) (name : string)
    (validate : list LocItem -> JSON -> Validated A) :
  dict_get name d = dict_get name d' ->
  same_outcome (required d name validate) (required d' name validate).
Proof.
  intros H. unfold required. rewrite <- H.
  destruct (dict_get name d); [apply same_outcome_refl | exact I].
Qed.

Lemma same_outcome_with_default {A : Type} (d d' : dict) (name : string)
    (default : A) (validate : list LocItem -> JSON -> Validated A) :
  dict_get name d = dict_get name d' ->
  same_outcome (with_default d name default validate)
               (with_default d' name default validate).
Proof.
  intros H. unfold with_default. rewrite <- H. apply same_outcome_refl.
Qed.

Lemma same_outcome_instantiate {A : Type} (model : string)
    (v v' : Validated A) (a : A) :
  same_outcome v v' ->
  instantiate model v = Return a -> instantiate model v' = Return a.
Proof.
  destruct v, v'; cbn; intros H E; try contradiction; try discriminate E.
  subst. exact E.
Qed.

(** Two mappings that hold the same values under the given names. *)
Definition dict_agree (names : list string) (d d' : dict) : Prop :=
  forall name, In name names -> dict_get name d = dict_get name d'.

Lemma dict_agree_extra (names : list string) (d : dict) (k : string)
    (v : JSON) :
  ~ In k names -> dict_agree names d ((k, v) :: d).
Proof.
  intros Hk name Hin. cbn.
  destruct (String.eqb name k) eqn:E; [|reflexivity].
  apply String.eqb_eq in E. subst. contradiction.
Qed.

Definition SubTask_fields : list string :=
  ["id"; "parent_id"; "title"; "description"; "status"; "created_at";
   "updated_at"; "metadata"].

Definition Task_fields : list string :=
  ["id"; "title"; "description"; "status"; "priority"; "created_at";
   "updated_at"; "subtasks"; "project_id"; "account_id"; "metadata"].

Ltac in_errors :=
  repeat rewrite errors_of_ap; repeat rewrite in_app_iff;
  match goal with
  | H : errors_of _ = _ |- _ => rewrite H; cbn; tauto
  end.

Section ParsingFacts.
Variable parse_datetime : JSON -> option datetime.

Lemma Task_extra_fields_ignored (d d' : dict) (task : Task.t) :
  dict_agree Task_fields d d' ->
  Task.from_api_response parse_datetime (JObj d) = Return task ->
  Task.from_api_response parse_datetime (JObj d') = Return task.
Proof.
  intros Hag. cbn [Task.from_api_response].
  apply same_outcome_instantiate. unfold Task.validate.
  repeat apply same_outcome_ap; try exact (eq_refl);
    first [apply same_outcome_required | apply same_outcome_with_default];
    apply Hag; cbn; tauto.
Qed.

Lemma SubTask_extra_fields_ignored (d d' : dict) (st : SubTask.t) :
  dict_agree SubTask_fields d d' ->
  SubTask.from_api_response parse_datetime (JObj d) = Return st ->
  SubTask.from_api_response parse_datetime (JObj d') = Return st.
Proof.
  intros Hag. cbn [SubTask.from_api_response].
  apply same_outcome_instantiate. unfold SubTask.validate.
  repeat apply same_outcome_ap; try exact (eq_refl);
    first [apply same_outcome_required | apply same_outcome_with_default];
    apply Hag; cbn; tauto.
Qed.

Lemma Task_field_error (d : dict) (e : ErrorDetails) :
  In e (errors_of (Task.validate parse_datetime d)) ->
  exists errs,
    Task.from_api_response parse_datetime (JObj d)
      = Raise (Pydantic "Task" errs) /\ In e errs.
Proof.
  intros H. exists (errors_of (Task.validate parse_datetime d)).
  split; [|exact H]. cbn [Task.from_api_response].
  exact (instantiate_invalid "Task" _ e H).
Qed.

Lemma SubTask_field_error (d : dict) (e : ErrorDetails) :
  In e (errors_of (SubTask.validate parse_datetime d)) ->
  exists errs,
    SubTask.from_api_response parse_datetime (JObj d)
      = Raise (Pydantic "SubTask" errs) /\ In e errs.
Proof.
  intros H. exists (errors_of (SubTask.validate parse_datetime d)).
  split; [|exact H]. cbn [SubTask.from_api_response].
  exact (instantiate_invalid "SubTask" _ e H).
Qed.

Lemma Task_missing_required (d : dict) (name : string) :
  In name ["id"; "title"; "created_at"; "updated_at"] ->
  dict_get name d = None ->
  In (line_error "missing" [LKey name] (JObj d))
     (errors_of (Task.validate parse_datetime d)).
Proof.
  intros Hin Hnone. unfold Task.validate.
  cbn in Hin. destruct Hin as [<-|[<-|[<-|[<-|[]]]]];
    match goal with
    | |- context [required d ?n ?v] =>
        pose proof (required_missing d n v Hnone) as Hreq
    end; in_errors.
Qed.

Lemma SubTask_missing_required (d : dict) (name : string) :
  In name ["id"; "parent_id"; "title"; "created_at"; "updated_at"] ->
  dict_get name d = None ->
  In (line_error "missing" [LKey name] (JObj d))
     (errors_of (SubTask.validate parse_datetime d)).
Proof.
  intros Hin Hnone. unfold SubTask.validate.
  cbn in Hin. destruct Hin as [<-|[<-|[<-|[<-|[<-|[]]]]]];
    match goal with
    | |- context [required d ?n ?v] =>
        pose proof (required_missing d n v Hnone) as Hreq
    end; in_errors.
Qed.

End ParsingFacts.

Definition payload_without_title : dict :=
  [("id", JStr "1"); ("created_at", JNum 1704067200);
   ("updated_at", JNum 1704067200)].

(** C3, as stated, fails: a payload without a title is refused with
    pydantic's [ValidationError]; the exception is not an instance of the
    SDK's [ValidationError] and carries no [ValidationErrorDetail]. *)
Lemma missing_title_is_not_sdk_validation_error :
  exists e : Exc,
    Task.from_api_response unix_timestamp (JObj payload_without_title)
      = Raise e /\
    e = Pydantic "Task"
          [line_error "missing" [LKey "title"] (JObj payload_without_title)] /\
    isinstance_sdk e Cls.ValidationError = false /\
    (forall msg errs, e <> Sdk (ValidationError msg errs)).
Proof.
  eexists. split; [reflexivity|]. split; [reflexivity|].
  split; [reflexivity|]. intros msg errs. discriminate.
Qed.

(** C3, amended.  A payload in which a required field is missing, the
    title is empty or longer than 255 characters, or (for a task) the
    status or priority string names no member, is refused by
    [from_api_response] with pydantic's [ValidationError], whose entries
    (error type, location, offending input) include one for that field;
    no failure of [from_api_response] is an SDK [ValidationError]; and
    fields that the model does not declare are ignored: a payload parses
    to the same entity whatever else it holds. *)
Theorem parsing_contract (parse_datetime : JSON -> option datetime)
    (d : dict) :
  (forall name,
     In name ["id"; "title"; "created_at"; "updated_at"] ->
     dict_get name d = None ->
     exists errs,
       Task.from_api_response parse_datetime (JObj d)
         = Raise (Pydantic "Task" errs) /\
       In (line_error "missing" [LKey name] (JObj d)) errs) /\
  (forall s,
     dict_get "title" d = Some (JStr s) ->
     String.length s = 0 \/ 255 < String.length s ->
     exists errs ty,
       Task.from_api_response parse_datetime (JObj d)
         = Raise (Pydantic "Task" errs) /\
       In (line_error ty [LKey "title"] (JStr s)) errs) /\
  (forall s,
     dict_get "status" d = Some (JStr s) ->
     (forall m, TaskStatus_value m <> s) ->
     exists errs,
       Task.from_api_response parse_datetime (JObj d)
         = Raise (Pydantic "Task" errs) /\
       In (line_error "enum" [LKey "status"] (JStr s)) errs) /\
  (forall s,
     dict_get "priority" d = Some (JStr s) ->
     (forall m, TaskPriority_value m <> s) ->
     exists errs,
       Task.from_api_response parse_datetime (JObj d)
         = Raise (Pydantic "Task" errs) /\
       In (line_error "enum" [LKey "priority"] (JStr s)) errs) /\
  (forall name,
     In name ["id"; "parent_id"; "title"; "created_at"; "updated_at"] ->
     dict_get name d = None ->
     exists errs,
       SubTask.from_api_response parse_datetime (JObj d)
         = Raise (Pydantic "SubTask" errs) /\
       In (line_error "missing" [LKey name] (JObj d)) errs) /\
  (forall s,
     dict_get "title" d = Some (JStr s) ->
     String.length s = 0 \/ 255 < String.length s ->
     exists errs ty,
       SubTask.from_api_response parse_datetime (JObj d)
         = Raise (Pydantic "SubTask" errs) /\
       In (line_error ty [LKey "title"] (JStr s)) errs) /\
  (forall data e,
     Task.from_api_response parse_datetime data = Raise e ->
     isinstance_sdk e Cls.ValidationError = false) /\
  (forall data e,
     SubTask.from_api_response parse_datetime data = Raise e ->
     isinstance_sdk e Cls.ValidationError = false) /\
  (forall d' task,
     dict_agree Task_fields d d' ->
     Task.from_api_response parse_datetime (JObj d) = Return task ->
     Task.from_api_response parse_datetime (JObj d') = Return task) /\
  (forall d' st,
     dict_agree SubTask_fields d d' ->
     SubTask.from_api_response parse_datetime (JObj d) = Return st ->
     SubTask.from_api_response parse_datetime (JObj d') = Return st).
Proof.
  repeat match goal with |- _ /\ _ => split end.
  - intros name Hin Hnone. apply Task_field_error.
    apply Task_missing_required; assumption.
  - intros s Hget Hlen.
    destruct (title_out_of_range [LKey "title"] s Hlen) as [ty Hty].
    rewrite <- (required_present d "title" (validate_str_len 1 255)
                                 (JStr s) Hget) in Hty.
    destruct (Task_field_error parse_datetime d
                (line_error ty [LKey "title"] (JStr s))) as (errs & He & Hin).
    + unfold Task.validate. in_errors.
    + exists errs, ty. split; assumption.
  - intros s Hget Hno.
    pose proof (enum_unknown TaskStatus_value TaskStatus_members
                  [LKey "status"] s (fun m _ => Hno m)) as Hen.
    rewrite <- (with_default_present d "status" PENDING
                  (validate_enum TaskStatus_value TaskStatus_members)
                  (JStr s) Hget) in Hen.
    apply Task_field_error. unfold Task.validate. in_errors.
  - intros s Hget Hno.
    pose proof (enum_unknown TaskPriority_value TaskPriority_members
                  [LKey "priority"] s (fun m _ => Hno m)) as Hen.
    rewrite <- (with_default_present d "priority" MEDIUM
                  (validate_enum TaskPriority_value TaskPriority_members)
                  (JStr s) Hget) in Hen.
    apply Task_field_error. unfold Task.validate. in_errors.
  - intros name Hin Hnone. apply SubTask_field_error.
    apply SubTask_missing_required; assumption.
  - intros s Hget Hlen.
    destruct (title_out_of_range [LKey "title"] s Hlen) as [ty Hty].
    rewrite <- (required_present d "title" (validate_str_len 1 255)
                                 (JStr s) Hget) in Hty.
    destruct (SubTask_field_error parse_datetime d
                (line_error ty [LKey "title"] (JStr s))) as (errs & He & Hin).
    + unfold SubTask.validate. in_errors.
    + exists errs, ty. split; assumption.
  - intros data e. destruct data; cbn [Task.from_api_response];
      try (intros H; injection H as <-; reflexivity).
    apply instantiate_not_sdk.
  - intros data e. destruct data; cbn [SubTask.from_api_response];
      try (intros H; injection H as <-; reflexivity).
    apply instantiate_not_sdk.
  - intros d' task. apply Task_extra_fields_ignored.
  - intros d' st. apply SubTask_extra_fields_ignored.
Qed.

(** The task of the test fixtures, with integer timestamps. *)
Definition sample_task_data : dict :=
  [("id", JStr "1");
   ("title", JStr "Implement user authentication");
   ("description", JStr "Set up JWT-based auth system");
   ("status", JStr "pending");
   ("priority", JStr "high");
   ("created_at", JNum 1704067200);
   ("updated_at", JNum 1704067200);
   ("subtasks", JArr []);
   ("project_id", JStr "proj-1");
   ("account_id", JStr "acc-1");
   ("metadata", JObj [("tags", JArr [JStr "auth"; JStr "backend"])])].

Lemma parsing_contract_witness :
  exists task,
    Task.from_api_response unix_timestamp
      (JObj (("extra_field", JStr "ignored") :: sample_task_data))
    = Return task /\ Task.id task = "1".
Proof.
  eexists. split.
  - refine (proj1 (proj2 (proj2 (proj2 (proj2 (proj2 (proj2 (proj2 (proj2
              (parsing_contract unix_timestamp sample_task_data)))))))))
              _ _ _ eq_refl).
    apply dict_agree_extra. cbn.
    intros H; repeat destruct H as [H|H]; try discriminate H; exact H.
  - reflexivity.
Defined.

(** ** Round trip through [to_api_request] *)

Lemma ap_valid_inv {A B : Type} (f : Validated (A -> B)) (x : Validated A)
    (b : B) :
  f <*> x = Valid b -> exists g a, f = Valid g /\ x = Valid a /\ b = g a.
Proof.
  destruct f as [g|], x as [a|]; cbn; intros H; try discriminate H.
  injection H as <-. exists g, a. auto.
Qed.

Lemma required_str_valid (d : dict) (name s : string) :
  required d name validate_str = Valid s -> dict_get name d = Some (JStr s).
Proof.
  unfold required. destruct (dict_get name d) as [v|]; [|discriminate].
  destruct v; cbn; intros H; try discriminate H. injection H as <-.
  reflexivity.
Qed.

Lemma required_str_len_valid (d : dict) (name s : string) (lo hi : nat) :
  required d name (validate_str_len lo hi) = Valid s ->
  dict_get name d = Some (JStr s) /\ lo <= String.length s <= hi.
Proof.
  unfold required. destruct (dict_get name d) as [v|]; [|discriminate].
  destruct v; unfold validate_str_len; intros H; try discriminate H.
  destruct (Nat.ltb (String.length s0) lo) eqn:E1; [discriminate H|].
  destruct (Nat.ltb hi (String.length s0)) eqn:E2; [discriminate H|].
  injection H as <-. apply Nat.ltb_ge in E1, E2. auto.
Qed.

Lemma optional_str_valid (d : dict) (name : string) (o : option string) :
  with_default d name None validate_optional_str = Valid o ->
  match o with
  | None => dict_get name d = None \/ dict_get name d = Some JNull
  | Some s => dict_get name d = Some (JStr s)
  end.
Proof.
  unfold with_default. destruct (dict_get name d) as [v|].
  - destruct v; cbn; intros H; try discriminate H; injection H as <-; auto.
  - intros H. injection H as <-. auto.
Qed.

Lemma optional_dict_valid (d : dict) (name : string) (o : option dict) :
  with_default d name None validate_optional_dict = Valid o ->
  match o with
  | None => dict_get name d = None \/ dict_get name d = Some JNull
  | Some m => dict_get name d = Some (JObj m)
  end.
Proof.
  unfold with_default. destruct (dict_get name d) as [v|].
  - destruct v; cbn; intros H; try discriminate H; injection H as <-; auto.
  - intros H. injection H as <-. auto.
Qed.


Lemma required_datetime_valid (parse_datetime : JSON -> option datetime)
    (d : dict) (name : string) (t : datetime) :
  required d name (validate_datetime parse_datetime) = Valid t ->
  exists v, dict_get name d = Some v /\ parse_datetime v = Some t.
Proof.
  unfold required, validate_datetime.
  destruct (dict_get name d) as [v|]; [|discriminate].
  destruct (parse_datetime v) as [t'|] eqn:Ep; intros H; [|discriminate H].
  injection H as <-. exists v. auto.
Qed.











(** ** Token inspection *)

(** A library behaviour on three tokens, for examples: a token signed with
    "secret1", an expired token signed with the same key, and anything
    else, which is malformed.  Without signature verification the expiry
    is not checked either. *)
Definition sample_jwt_decode (token key : string) (algorithms : list string)
    (verify_signature : bool) : Result dict :=
  if String.eqb token "signed-with-secret1" then
    if verify_signature && negb (String.eqb key "secret1")
    then Raise (Jwt InvalidSignatureError "Signature verification failed")
    else Return [("sub", JStr "user-123")]
  else if String.eqb token "expired-signed-with-secret1" then
    if verify_signature then
      if String.eqb key "secret1"
      then Raise (Jwt ExpiredSignatureError "Signature has expired")
      else Raise (Jwt InvalidSignatureError "Signature verification failed")
    else Return [("sub", JStr "user-123"); ("exp", JNum 1704067200)]
  else Raise (Jwt DecodeError "Not enough segments").

(** A failure of the library that concerns the token: an exception of a
    class derived from [jwt.InvalidTokenError] (expired signature, invalid
    signature, decode error, ...). *)
Definition token_failure (e : Exc) : Prop :=
  exists c msg, e = Jwt c msg /\ is_jwt_InvalidTokenError c = true.

(** A library that refuses a public key as an HMAC secret, as PyJWT
    does for a secret in PEM or SSH format, and otherwise behaves as the
    one above. *)
Definition ssh_public_key : string :=
  "ssh-rsa AAAAB3NzaC1yc2EAAAADAQABAAABAQC7 user@host".

Definition refuses_public_key (token key : string) (algorithms : list string)
    (verify_signature : bool) : Result dict :=
  if verify_signature && String.eqb key ssh_public_key
  then Raise (Jwt InvalidKeyError
                "The specified key is an asymmetric key or x509 certificate and should not be used as an HMAC secret.")
  else sample_jwt_decode token key algorithms verify_signature.

(** C9 (what the code does).  [is_expired] returns True when the library
    fails with a token error and False when the library decodes, but it
    raises when the library fails with an exception that is no token error
    (one outside the family of [jwt.InvalidTokenError], such as the
    [InvalidKeyError] for a secret that the algorithm refuses as a key):
    neither of its two [except] clauses catches it, so it reaches the
    caller. *)
Theorem is_expired_can_raise
    (jwt_decode : string -> string -> list string -> bool -> Result dict)
    (self : JWTHandler.t) (token : string) :
  let verified := jwt_decode token (JWTHandler.secret self)
                             (JWTHandler.algorithms self) true in
  (forall e, verified = Raise e -> ~ token_failure e ->
     JWTHandler.is_expired jwt_decode self token = Raise e) /\
  (forall e, verified = Raise e -> token_failure e ->
     JWTHandler.is_expired jwt_decode self token = Return true) /\
  (forall payload, verified = Return payload ->
     JWTHandler.is_expired jwt_decode self token = Return false).
Proof.
  intros verified. unfold JWTHandler.is_expired. fold verified.
  split; [|split].
  - intros e -> Hn.
    assert (Hc : JWTHandler.is_InvalidTokenError e = false).
    { destruct e; try reflexivity. cbn.
      destruct (is_jwt_InvalidTokenError c) eqn:E; [|reflexivity].
      exfalso. apply Hn. exists c, msg. auto. }
    assert (Hx : JWTHandler.is_ExpiredSignatureError e = false).
    { destruct e; try reflexivity. cbn. cbn in Hc.
      destruct c; try reflexivity; discriminate Hc. }
    rewrite Hx, Hc. reflexivity.
  - intros e -> (c & msg & -> & Hc).
    cbn [JWTHandler.is_ExpiredSignatureError JWTHandler.is_InvalidTokenError].
    rewrite Hc. destruct (is_jwt_ExpiredSignatureError c); reflexivity.
  - intros payload ->. reflexivity.
Qed.

Lemma is_expired_can_raise_witness :
  JWTHandler.is_expired refuses_public_key
    (JWTHandler.init ssh_public_key None true) "signed-with-secret1"
  = Raise (Jwt InvalidKeyError
             "The specified key is an asymmetric key or x509 certificate and should not be used as an HMAC secret.").
Proof.
  apply (proj1 (is_expired_can_raise refuses_public_key
                  (JWTHandler.init ssh_public_key None true)
                  "signed-with-secret1")).
  - reflexivity.
  - intros (c & msg & H & Hc). injection H as <- _. discriminate Hc.
Defined.

(** C10. [is_expired] does not read [self.verify]: it has the library
    verify the signature also in a handler built with verify=False, while
    [decode] of such a handler has it skip the verification.  For such a
    handler, [decode] returns the claims whenever the unverified decoding
    does; [is_expired] is decided by the verified decoding, returning
    False when it succeeds and True when it fails with a token error, and
    is the answer of the same handler built with verify=True.  So for a
    token that decodes when the signature is not checked but whose
    signature does not match the handler's secret, [decode] returns the
    claims while [is_expired] returns True. *)
Theorem is_expired_ignores_verify
    (jwt_decode : string -> string -> list string -> bool -> Result dict)
    (secret : string) (algorithms : option (list string)) (token : string) :
  let self := JWTHandler.init secret algorithms false in
  let unverified := jwt_decode token (JWTHandler.secret self)
                               (JWTHandler.algorithms self) false in
  let verified := jwt_decode token (JWTHandler.secret self)
                             (JWTHandler.algorithms self) true in
  (forall claims, unverified = Return claims ->
     JWTHandler.decode jwt_decode self token = Return claims) /\
  (forall claims, verified = Return claims ->
     JWTHandler.is_expired jwt_decode self token = Return false) /\
  (forall e, verified = Raise e -> token_failure e ->
     JWTHandler.is_expired jwt_decode self token = Return true) /\
  JWTHandler.is_expired jwt_decode self token
    = JWTHandler.is_expired jwt_decode
        (JWTHandler.init secret algorithms true) token /\
  (forall claims msg,
     unverified = Return claims ->
     verified = Raise (Jwt InvalidSignatureError msg) ->
     JWTHandler.decode jwt_decode self token = Return claims /\
     JWTHandler.is_expired jwt_decode self token = Return true).
Proof.
  intros self unverified verified.
  assert (Hdecode : forall claims, unverified = Return claims ->
            JWTHandler.decode jwt_decode self token = Return claims).
  { intros claims H. unfold JWTHandler.decode.
    replace (JWTHandler.verify self) with false by reflexivity.
    fold unverified. rewrite H. reflexivity. }
  assert (Htrue : forall e, verified = Raise e -> token_failure e ->
            JWTHandler.is_expired jwt_decode self token = Return true).
  { intros e H (c & msg & -> & Hc). unfold JWTHandler.is_expired.
    fold verified. rewrite H.
    cbn [JWTHandler.is_ExpiredSignatureError JWTHandler.is_InvalidTokenError].
    rewrite Hc. destruct (is_jwt_ExpiredSignatureError c); reflexivity. }
  split; [exact Hdecode|]. split; [|split; [exact Htrue|split]].
  - intros claims H. unfold JWTHandler.is_expired. fold verified.
    rewrite H. reflexivity.
  - reflexivity.
  - intros claims msg Hu Hv. split; [exact (Hdecode claims Hu)|].
    apply (Htrue _ Hv). exists InvalidSignatureError, msg. auto.
Qed.

Lemma is_expired_ignores_verify_witness :
  JWTHandler.decode sample_jwt_decode
    (JWTHandler.init "secret2" None false) "signed-with-secret1"
    = Return [("sub", JStr "user-123")] /\
  JWTHandler.is_expired sample_jwt_decode
    (JWTHandler.init "secret2" None false) "signed-with-secret1"
    = Return true /\
  JWTHandler.is_expired sample_jwt_decode
    (JWTHandler.init "secret1" None false) "signed-with-secret1"
    = Return false.
Proof.
  destruct (is_expired_ignores_verify sample_jwt_decode "secret2" None
              "signed-with-secret1")
    as (_ & _ & _ & _ & H).
  destruct (H [("sub", JStr "user-123")] "Signature verification failed"
              eq_refl eq_refl) as [Hd He].
  split; [exact Hd|]. split; [exact He|].
  exact (proj1 (proj2 (is_expired_ignores_verify sample_jwt_decode "secret1"
                         None "signed-with-secret1"))
           [("sub", JStr "user-123")] eq_refl).
Defined.

(* ===================================================================== *)
(** * Further properties of the client *)
(* ===================================================================== *)

(** ** Construction *)

(** [k] slashes in a row. *)
Fixpoint slashes (k : nat) : string :=
  match k with
  | O => ""
  | S k' => String "/" (slashes k')
  end.

Definition ends_with_slash (s : string) : Prop :=
  exists p, s = p ++ "/".

Lemma rstrip_slash_decompose (s : string) :
  exists k, s = rstrip_slash s ++ slashes k.
Proof.
  induction s as [|c s' [k IH]]; [exists 0; reflexivity|].
  cbn [rstrip_slash]. destruct (rstrip_slash s') as [|a b] eqn:E.
  - cbn in IH. destruct (Ascii.eqb c "/") eqn:Ec.
    + apply Ascii.eqb_eq in Ec. subst c. exists (S k). cbn. now rewrite IH.
    + exists k. cbn. now rewrite IH.
  - exists k. cbn. now rewrite IH at 1.
Qed.

Lemma rstrip_slash_no_trailing (s : string) : ~ ends_with_slash (rstrip_slash s).
Proof.
  induction s as [|c s' IH]; intros [p Hp].
  - destruct p; discriminate Hp.
  - cbn [rstrip_slash] in Hp. destruct (rstrip_slash s') as [|a b] eqn:E.
    + destruct (Ascii.eqb c "/") eqn:Ec.
      * destruct p; discriminate Hp.
      * destruct p as [|c' p']; cbn in Hp.
        -- injection Hp as ->. discriminate Ec.
        -- injection Hp as _ Hp. destruct p'; discriminate Hp.
    + destruct p as [|c' p']; cbn in Hp.
      * discriminate Hp.
      * injection Hp as _ Hp. apply IH. exists p'. exact Hp.
Qed.

Lemma rstrip_slash_app_slash (s : string) :
  rstrip_slash (s ++ "/") = rstrip_slash s.
Proof.
  induction s as [|c s' IH]; [reflexivity|].
  cbn [append rstrip_slash]. rewrite IH. reflexivity.
Qed.

Lemma rstrip_slash_slashes (k : nat) : rstrip_slash (slashes k) = "".
Proof.
  induction k as [|k IH]; [reflexivity|].
  cbn [slashes rstrip_slash]. rewrite IH. reflexivity.
Qed.

(** X1. The constructor refuses exactly the empty URL; for any other URL
    the client keeps it with all its trailing slashes removed, and nothing
    else changed.  A URL made of slashes only passes the check and leaves
    the client with an empty base URL. *)
Theorem init_strips_trailing_slashes (api_url : string)
    (token : option string) (timeout : Z) (max_retries : nat)
    (retry_backoff : float) :
  (api_url = "" ->
     TaskMasterClient.init api_url token timeout max_retries retry_backoff
     = Raise (Builtin ValueError "api_url is required")) /\
  (api_url <> "" ->
     exists base k,
       TaskMasterClient.init api_url token timeout max_retries retry_backoff
       = Return (TaskMasterClient.mk base token timeout max_retries
                                     retry_backoff) /\
       api_url = base ++ slashes k /\
       ~ ends_with_slash base) /\
  (forall k, 0 < k ->
     TaskMasterClient.init (slashes k) token timeout max_retries retry_backoff
     = Return (TaskMasterClient.mk "" token timeout max_retries
                                   retry_backoff)).
Proof.
  split; [|split].
  - intros ->. reflexivity.
  - intros Hne. destruct (rstrip_slash_decompose api_url) as [k Hk].
    exists (rstrip_slash api_url), k. split; [|split].
    + destruct api_url; [contradiction | reflexivity].
    + exact Hk.
    + apply rstrip_slash_no_trailing.
  - intros k Hk. destruct k as [|k]; [lia|].
    unfold TaskMasterClient.init.
    rewrite rstrip_slash_slashes. reflexivity.
Qed.

Lemma init_strips_trailing_slashes_witness :
  exists base k,
    TaskMasterClient.init "http://localhost:3000/api/v1/" None 30 3 1%float
    = Return (TaskMasterClient.mk base None 30 3 1%float) /\
    "http://localhost:3000/api/v1/" = base ++ slashes k /\
    ~ ends_with_slash base.
Proof.
  apply (proj1 (proj2 (init_strips_trailing_slashes
                         "http://localhost:3000/api/v1/" None 30 3 1%float))).
  discriminate.
Defined.

(** X2. A trailing slash makes no difference: a URL and the same URL
    followed by a slash build the same client. *)
Theorem init_trailing_slash_insensitive (api_url : string)
    (token : option string) (timeout : Z) (max_retries : nat)
    (retry_backoff : float) :
  api_url <> "" ->
  TaskMasterClient.init (api_url ++ "/") token timeout max_retries
                        retry_backoff
  = TaskMasterClient.init api_url token timeout max_retries retry_backoff.
Proof.
  intros Hne. unfold TaskMasterClient.init.
  destruct api_url as [|c s]; [contradiction|].
  cbn [append]. change (String c (s ++ "/")) with (String c s ++ "/").
  rewrite rstrip_slash_app_slash. reflexivity.
Qed.

Lemma init_trailing_slash_insensitive_witness :
  TaskMasterClient.init "http://localhost:3000/api/v1/" (Some "test") 30 3
                        1%float
  = TaskMasterClient.init "http://localhost:3000/api/v1" (Some "test") 30 3
                          1%float.
Proof.
  apply (init_trailing_slash_insensitive "http://localhost:3000/api/v1").
  discriminate.
Defined.

(** ** Headers *)

Fixpoint header (name : string) (hs : list (string * string))
    : option string :=
  match hs with
  | [] => None
  | (n, v) :: hs' => if String.eqb name n then Some v else header name hs'
  end.

(** X3. The headers always carry the JSON content type; they carry
    "Bearer <token>" as authorization exactly when a non-empty token is
    configured: no token and the empty token both give no authorization
    header. *)
Theorem get_headers_authorization (self : TaskMasterClient.t) :
  header "Content-Type" (_get_headers self) = Some "application/json" /\
  (forall tok, token self = Some tok -> tok <> "" ->
     header "Authorization" (_get_headers self) = Some ("Bearer " ++ tok)) /\
  (token self = None \/ token self = Some "" ->
     header "Authorization" (_get_headers self) = None).
Proof.
  unfold _get_headers. split; [reflexivity|]. split.
  - intros tok -> Hne. destruct tok; [contradiction | reflexivity].
  - intros [-> | ->]; reflexivity.
Qed.

Lemma get_headers_authorization_witness :
  header "Authorization" (_get_headers sample_client)
  = Some "Bearer test-jwt-token".
Proof.
  apply (proj1 (proj2 (get_headers_authorization sample_client))
           "test-jwt-token" eq_refl).
  discriminate.
Defined.

(** ** What an operation can raise *)

Lemma issubclass_root (c : Cls.t) :
  Cls.issubclass c Cls.TaskMasterError = true.
Proof. destruct c; reflexivity. Qed.

(** The [AttributeError] of calling [get] on a parsed body that is no
    object. *)
Definition no_get (body : JSON) (e : Exc) : Prop :=
  (forall d, body <> JObj d) /\ e = no_attribute body "get".

(** The status check raises an error of the taxonomy, or fails on a body
    that is JSON but no object. *)
Lemma handle_response_status_raises (resp : Response.t) (e : Exc) :
  _handle_response_status resp = Raise e ->
  (400 <= Response.status_code resp)%Z /\
  ((exists s, e = Sdk s) \/
   (exists body, Response.json resp = Return body /\ no_get body e)).
Proof.
  unfold _handle_response_status, no_get.
  destruct (Response.status_code resp <? 400)%Z eqn:E0; [discriminate|].
  apply Z.ltb_ge in E0. intros H. split; [exact E0|].
  destruct (Response.json resp) as [[]|e0];
    try (injection H as <-; right; eexists;
         split; [reflexivity | split; [discriminate | reflexivity]]);
    left;
    repeat match type of H with
           | context [if ?b then _ else _] => destruct b
           end; injection H as <-; eauto.
Qed.

(** An exception raised while parsing an entity: pydantic's validation
    error, or the [TypeError] of unpacking a value that is no mapping. *)
Definition parse_failure (e : Exc) : Prop :=
  (exists model errs, e = Pydantic model errs) \/
  (exists msg, e = Builtin TypeError msg).

Lemma mapM_raise {A B : Type} (f : A -> Result B) (xs : list A) (e : Exc) :
  mapM f xs = Raise e -> exists x, In x xs /\ f x = Raise e.
Proof.
  induction xs as [|x xs IH]; cbn; [discriminate|].
  destruct (f x) as [y|e'] eqn:Ef; cbn.
  - destruct (mapM f xs) as [ys|e'']; cbn; intros H; [discriminate H|].
    injection H as <-. destruct (IH eq_refl) as (x' & Hin & Hx').
    exists x'. auto.
  - intros H. injection H as <-. exists x. auto.
Qed.

Lemma mapM_return {A B : Type} (f : A -> Result B) (xs : list A)
    (ys : list B) :
  mapM f xs = Return ys <-> Forall2 (fun x y => f x = Return y) xs ys.
Proof.
  revert ys. induction xs as [|x xs IH]; intros ys; cbn.
  - split.
    + intros H. injection H as <-. constructor.
    + intros H. inversion H. reflexivity.
  - split.
    + destruct (f x) as [y|e] eqn:Ef; cbn; [|discriminate].
      destruct (mapM f xs) as [ys'|e] eqn:Em; cbn; intros H;
        [|discriminate H].
      injection H as <-. constructor; [exact Ef|]. apply IH. reflexivity.
    + intros H. inversion H as [|x' y l l' Hx Hl]; subst.
      rewrite Hx. cbn. apply IH in Hl. rewrite Hl. reflexivity.
Qed.

Lemma py_get_object (k : string) (default : JSON) (d : dict) :
  py_get k default (JObj d) = Return (dict_get_default k default d).
Proof. reflexivity. Qed.

Lemma py_get_no_object (k : string) (default : JSON) (v : JSON) :
  (forall d, v <> JObj d) ->
  py_get k default v = Raise (no_attribute v "get").
Proof.
  intros Hn. destruct v; try reflexivity. exfalso. exact (Hn fields eq_refl).
Qed.

Lemma object_or_not (v : JSON) :
  (exists d, v = JObj d) \/ (forall d, v <> JObj d).
Proof. destruct v; try (right; discriminate). left. eauto. Qed.

Section FailureFacts.
Variable transport : Retry -> Request -> Result Response.t.
Variable parse_datetime : JSON -> option datetime.

Lemma Task_from_api_response_failure (data : JSON) (e : Exc) :
  Task.from_api_response parse_datetime data = Raise e -> parse_failure e.
Proof.
  unfold parse_failure.
  destruct data; cbn [Task.from_api_response]; intros H;
    try (injection H as <-; right; eauto).
  unfold instantiate in H.
  destruct (Task.validate parse_datetime fields); [discriminate H|].
  injection H as <-. left. eauto.
Qed.

Lemma SubTask_from_api_response_failure (data : JSON) (e : Exc) :
  SubTask.from_api_response parse_datetime data = Raise e -> parse_failure e.
Proof.
  unfold parse_failure.
  destruct data; cbn [SubTask.from_api_response]; intros H;
    try (injection H as <-; right; eauto).
  unfold instantiate in H.
  destruct (SubTask.validate parse_datetime fields); [discriminate H|].
  injection H as <-. left. eauto.
Qed.

(** Unwrapping an object fails on the entity only. *)
Lemma op_unwrap_object_failure (op : Operation) (body : dict) (e : Exc) :
  op_unwrap parse_datetime op (JObj body) = Raise e -> parse_failure e.
Proof.
  destruct op; cbn [op_unwrap py_get bind];
    try discriminate;
    try (destruct (Task.from_api_response parse_datetime
                     (dict_get_default "data" (JObj []) body)) eqn:E;
         cbn; intros H; [discriminate H | injection H as <-];
         exact (Task_from_api_response_failure _ _ E));
    try (destruct (SubTask.from_api_response parse_datetime
                     (dict_get_default "data" (JObj []) body)) eqn:E;
         cbn; intros H; [discriminate H | injection H as <-];
         exact (SubTask_from_api_response_failure _ _ E)).
  - destruct (dict_get_default "data" (JArr []) body); try discriminate.
    destruct (mapM (Task.from_api_response parse_datetime) items) eqn:E;
      cbn; intros H; [discriminate H | injection H as <-].
    apply mapM_raise in E. destruct E as (x & _ & Hx).
    exact (Task_from_api_response_failure _ _ Hx).
  - destruct (dict_get_default "data" (JArr []) body); try discriminate.
    destruct (mapM (SubTask.from_api_response parse_datetime) items) eqn:E;
      cbn; intros H; [discriminate H | injection H as <-].
    apply mapM_raise in E. destruct E as (x & _ & Hx).
    exact (SubTask_from_api_response_failure _ _ Hx).
Qed.

(** Unwrapping a reply that is no object: a delete operation does not
    look at the reply, every other operation fails on [response.get]. *)
Lemma op_unwrap_no_object (op : Operation) (body : JSON) :
  (forall d, body <> JObj d) ->
  op_unwrap parse_datetime op body
  = if is_delete op then Return (Boolean true)
    else Raise (no_attribute body "get").
Proof.
  intros Hn. destruct op; cbn [op_unwrap is_delete]; try reflexivity;
    rewrite (py_get_no_object _ _ body Hn); reflexivity.
Qed.

Lemma op_unwrap_failure (op : Operation) (body : JSON) (e : Exc) :
  op_unwrap parse_datetime op body = Raise e ->
  is_delete op = false /\ (parse_failure e \/ no_get body e).
Proof.
  intros H. split; [destruct op; try reflexivity; discriminate H|].
  destruct (object_or_not body) as [[d ->]|Hn].
  - left. exact (op_unwrap_object_failure op d e H).
  - right. rewrite (op_unwrap_no_object op body Hn) in H.
    destruct (is_delete op); [discriminate H|].
    injection H as <-. split; [exact Hn | reflexivity].
Qed.

(** Where a failure of [_make_request] comes from. *)
Lemma make_request_failure (self : TaskMasterClient.t)
    (method endpoint : string) (data params : option dict) (e : Exc) :
  _make_request transport self method endpoint data params = Raise e ->
  let req := build_request self method endpoint data params in
  isinstance_sdk e Cls.TaskMasterError = true \/
  (exists resp body,
     session_request transport self req = Return resp /\
     (400 <= Response.status_code resp)%Z /\
     Response.json resp = Return body /\ no_get body e) \/
  (is_RequestException e = false /\
   (session_request transport self req = Raise e \/
    exists resp,
      session_request transport self req = Return resp /\
      (Response.status_code resp < 400)%Z /\
      Response.json resp = Raise e)).
Proof.
  intros Hm req. revert Hm. unfold _make_request, try_except. fold req.
  destruct (session_request transport self req) as [resp|e0] eqn:Es;
    cbn [bind].
  - destruct (_handle_response_status resp) as [[]|e1] eqn:Eh; cbn [bind].
    + assert (Hs : (Response.status_code resp < 400)%Z).
      { unfold _handle_response_status in Eh.
        destruct (Response.status_code resp <? 400)%Z eqn:E0;
          [apply Z.ltb_lt in E0; exact E0|].
        destruct (Response.json resp) as [[]|];
          repeat match type of Eh with
                 | context [if ?b then _ else _] => destruct b
                 end; discriminate Eh. }
      destruct (Response.json resp) as [body|e2] eqn:Ej; [discriminate|].
      destruct (is_RequestException e2) eqn:Er; intros H; injection H as <-.
      * left. reflexivity.
      * right. right. split; [exact Er|]. right. exists resp. auto.
    + destruct (handle_response_status_raises resp e1 Eh)
        as [Hs [[s ->] | (body & Hb & Hn)]].
      * cbn. intros H. injection H as <-. left. cbn. apply issubclass_root.
      * pose proof Hn as [_ ->]. cbn. intros H. injection H as <-.
        right. left. exists resp, body. auto.
  - destruct (is_RequestException e0) eqn:Er; intros H; injection H as <-.
    + left. reflexivity.
    + right. right. split; [exact Er|]. left. reflexivity.
Qed.

End FailureFacts.

(** X4. No operation lets an exception of [requests] out: whatever the
    session does, a failure of an operation is never a
    [RequestException]. *)
Theorem no_requests_exception_escapes
    (transport : Retry -> Request -> Result Response.t)
    (parse_datetime : JSON -> option datetime)
    (self : TaskMasterClient.t) (op : Operation) (e : Exc) :
  call transport parse_datetime self op = Raise e ->
  is_RequestException e = false.
Proof.
  rewrite call_make_request.
  destruct (_make_request transport self (op_method op) (op_endpoint op)
                          (op_data op) (op_params op)) as [body|e0] eqn:Em;
    cbn [bind].
  - intros H. apply op_unwrap_failure in H.
    destruct H as [_ [[(model & errs & ->) | (msg & ->)] | [_ ->]]];
      reflexivity.
  - intros H. injection H as <-.
    apply make_request_failure in Em.
    destruct Em as [Hs | [(resp & body & _ & _ & _ & _ & ->) | [Hr _]]];
      [|reflexivity | exact Hr].
    destruct e0; try discriminate Hs; reflexivity.
Qed.

Lemma no_requests_exception_escapes_witness :
  is_RequestException
    (Sdk (TaskMasterError (JStr "Request failed: Connection failed")))
  = false.
Proof.
  exact (no_requests_exception_escapes
           (patched (Raise (Requests ConnectionError "Connection failed")))
           unix_timestamp sample_client (GetTask "1") _ eq_refl).
Defined.

(** X5. Every failure of an operation is of one of four kinds: an error
    of the SDK taxonomy; a failure of entity parsing (pydantic's
    validation error or a TypeError); the AttributeError of calling [get]
    on a response body that is JSON but not an object, raised by the
    status check when the status is 400 or more and by the unwrapping of
    the reply otherwise; or an exception that is not a [requests]
    exception and was raised by the session or, on a status below 400, by
    [response.json()], which passes through unchanged.  A delete operation
    does not read the reply, so it has no failure of the second kind, and
    of the third kind only on a status of 400 or more. *)
Theorem operation_failures
    (transport : Retry -> Request -> Result Response.t)
    (parse_datetime : JSON -> option datetime)
    (self : TaskMasterClient.t) (op : Operation) (e : Exc) :
  call transport parse_datetime self op = Raise e ->
  let req := op_request self op in
  isinstance_sdk e Cls.TaskMasterError = true \/
  (is_delete op = false /\ parse_failure e) \/
  (exists resp body,
     session_request transport self req = Return resp /\
     Response.json resp = Return body /\ no_get body e /\
     (is_delete op = true -> (400 <= Response.status_code resp)%Z)) \/
  (is_RequestException e = false /\
   (session_request transport self req = Raise e \/
    exists resp,
      session_request transport self req = Return resp /\
      (Response.status_code resp < 400)%Z /\
      Response.json resp = Raise e)).
Proof.
  intros Hcall req. revert Hcall.
  rewrite call_make_request.
  destruct (_make_request transport self (op_method op) (op_endpoint op)
                          (op_data op) (op_params op)) as [body|e0] eqn:Em;
    cbn [bind].
  - intros H. destruct (op_unwrap_failure parse_datetime op body e H)
      as [Hd [Hp | Hn]].
    + right. left. split; [exact Hd | exact Hp].
    + right. right. left.
      unfold _make_request, try_except in Em. fold (op_request self op) in Em.
      fold req in Em.
      destruct (session_request transport self req) as [resp|e0] eqn:Es;
        cbn [bind] in Em;
        [|destruct (is_RequestException e0); discriminate Em].
      destruct (_handle_response_status resp) as [[]|e1]; cbn [bind] in Em;
        [|destruct (is_RequestException e1); discriminate Em].
      destruct (Response.json resp) as [body'|e2] eqn:Ej;
        [|destruct (is_RequestException e2); discriminate Em].
      injection Em as ->.
      exists resp, body. repeat split; try assumption; try apply Hn.
      rewrite Hd. discriminate.
  - intros H. injection H as <-.
    apply make_request_failure in Em. fold (op_request self op) in Em.
    fold req in Em.
    destruct Em as [Hs | [(resp & body & Hr & Hst & Hb & Hn) | Hp]].
    + left. exact Hs.
    + right. right. left. exists resp, body. auto.
    + right. right. right. exact Hp.
Qed.

Definition not_json : Response.t :=
  Response.mk 200 "OK" None (Raise (Builtin ValueError "Invalid JSON")).

Lemma operation_failures_witness :
  is_RequestException (Builtin ValueError "Invalid JSON") = false /\
  Response.json not_json = Raise (Builtin ValueError "Invalid JSON").
Proof.
  destruct (operation_failures (patched (Return not_json)) unix_timestamp
              sample_client (ListTasks None None 50 0)
              (Builtin ValueError "Invalid JSON") eq_refl)
    as [Hs | [[_ Hp] | [(resp & body & _ & _ & [_ Hn] & _) | [Hr _]]]].
  - discriminate Hs.
  - destruct Hp as [(model & errs & H) | (msg & H)]; discriminate H.
  - destruct body; discriminate Hn.
  - split; [exact Hr | reflexivity].
Defined.

(** ** Unwrapping the reply *)

Section ReplyFacts.
Variable transport : Retry -> Request -> Result Response.t.
Variable parse_datetime : JSON -> option datetime.

(** On a response with status < 400 whose body parses, an operation is
    the unwrapping of the body. *)
Lemma call_success (self : TaskMasterClient.t) (op : Operation)
    (resp : Response.t) (body : JSON) :
  session_request transport self (op_request self op) = Return resp ->
  (Response.status_code resp < 400)%Z ->
  Response.json resp = Return body ->
  call transport parse_datetime self op = op_unwrap parse_datetime op body.
Proof.
  intros Hresp Hs Hb. rewrite call_make_request. unfold op_request in Hresp.
  rewrite (make_request_success transport self _ _ _ _ resp Hresp Hs).
  rewrite Hb. reflexivity.
Qed.

Lemma op_unwrap_data (op : Operation) (body body' : dict) :
  dict_get "data" body = dict_get "data" body' ->
  op_unwrap parse_datetime op (JObj body)
  = op_unwrap parse_datetime op (JObj body').
Proof.
  intros H. destruct op; cbn [op_unwrap py_get]; unfold dict_get_default;
    try rewrite H; reflexivity.
Qed.

End ReplyFacts.

(** X6. When [response.json()] raises on a response with status < 400,
    the operation raises: the parse error itself when it is not an
    exception of [requests], and a [TaskMasterError] carrying its text when
    it is. *)
Theorem body_parse_failure
    (transport : Retry -> Request -> Result Response.t)
    (parse_datetime : JSON -> option datetime)
    (self : TaskMasterClient.t) (op : Operation) (resp : Response.t)
    (e : Exc) :
  session_request transport self (op_request self op) = Return resp ->
  (Response.status_code resp < 400)%Z ->
  Response.json resp = Raise e ->
  call transport parse_datetime self op
  = Raise (if is_RequestException e
           then Sdk (TaskMasterError (JStr ("Request failed: " ++ Exc_str e)))
           else e).
Proof.
  intros Hresp Hs He. rewrite call_make_request. unfold op_request in Hresp.
  rewrite (make_request_success transport self _ _ _ _ resp Hresp Hs).
  rewrite He. unfold try_except.
  destruct (is_RequestException e); reflexivity.
Qed.

Lemma body_parse_failure_witness :
  call (patched (Return not_json)) unix_timestamp sample_client
       (ListTasks None None 50 0)
  = Raise (Builtin ValueError "Invalid JSON").
Proof.
  refine (body_parse_failure (patched (Return not_json)) unix_timestamp
            sample_client (ListTasks None None 50 0) not_json
            (Builtin ValueError "Invalid JSON") eq_refl _ eq_refl).
  cbn. lia.
Defined.

(** X7. A reply with status < 400 is unwrapped by its [data] field alone:
    two replies whose bodies hold the same [data] give the same result,
    whatever their HTTP status below 400 and whatever else the envelope
    says (its own status, error or message are never read). *)
Theorem reply_unwrapped_by_data_alone
    (transport transport' : Retry -> Request -> Result Response.t)
    (parse_datetime : JSON -> option datetime)
    (self : TaskMasterClient.t) (op : Operation)
    (resp resp' : Response.t) (body body' : dict) :
  session_request transport self (op_request self op) = Return resp ->
  session_request transport' self (op_request self op) = Return resp' ->
  (Response.status_code resp < 400)%Z ->
  (Response.status_code resp' < 400)%Z ->
  Response.json resp = Return (JObj body) ->
  Response.json resp' = Return (JObj body') ->
  dict_get "data" body = dict_get "data" body' ->
  call transport parse_datetime self op
  = call transport' parse_datetime self op.
Proof.
  intros H1 H2 Hs1 Hs2 Hb1 Hb2 Hd.
  rewrite (call_success transport parse_datetime self op resp (JObj body)
             H1 Hs1 Hb1).
  rewrite (call_success transport' parse_datetime self op resp' (JObj body')
             H2 Hs2 Hb2).
  apply op_unwrap_data. exact Hd.
Qed.

Definition ok_reply (data : JSON) : Response.t :=
  Response.mk 200 "OK" None
    (Return (JObj [("status", JStr "ok"); ("data", data)])).

Definition odd_reply (data : JSON) : Response.t :=
  Response.mk 302 "Found" None
    (Return (JObj [("status", JStr "error");
                   ("error", JObj [("code", JStr "E");
                                   ("message", JStr "m")]);
                   ("data", data)])).

Lemma reply_unwrapped_by_data_alone_witness :
  call (patched (Return (ok_reply (JObj sample_task_data)))) unix_timestamp
       sample_client (GetTask "1")
  = call (patched (Return (odd_reply (JObj sample_task_data))))
         unix_timestamp sample_client (GetTask "1").
Proof.
  refine (reply_unwrapped_by_data_alone
            (patched (Return (ok_reply (JObj sample_task_data))))
            (patched (Return (odd_reply (JObj sample_task_data))))
            unix_timestamp sample_client (GetTask "1") _ _ _ _
            eq_refl eq_refl _ _ eq_refl eq_refl eq_refl); cbn; lia.
Defined.

(** X8. On a reply with status < 400, a list operation returns the empty
    list, and raises nothing, when the body is a JSON object that has no
    [data] or whose [data] is not an array; when the body is JSON but not
    an object (null, a bare array, a string, a number) it raises the
    AttributeError of calling [get] on it. *)
Theorem list_reply_without_array
    (transport : Retry -> Request -> Result Response.t)
    (parse_datetime : JSON -> option datetime)
    (self : TaskMasterClient.t) (op : Operation)
    (resp : Response.t) (reply : JSON) :
  session_request transport self (op_request self op) = Return resp ->
  (Response.status_code resp < 400)%Z ->
  Response.json resp = Return reply ->
  let empty := match op with
               | ListSubtasks _ => SubTasks []
               | _ => Tasks []
               end in
  match op with
  | ListTasks _ _ _ _ | ListSubtasks _ =>
      (forall body,
         reply = JObj body ->
         (forall items, dict_get "data" body <> Some (JArr items)) ->
         call transport parse_datetime self op = Return empty) /\
      ((forall body, reply <> JObj body) ->
       call transport parse_datetime self op
       = Raise (no_attribute reply "get"))
  | _ => True
  end.
Proof.
  intros Hresp Hs Hb empty.
  pose proof (call_success transport parse_datetime self op resp reply
                Hresp Hs Hb) as Hc.
  destruct op; try exact I; rewrite Hc; (split; [intros body -> Hd | intros Hn]);
    try (rewrite (op_unwrap_no_object parse_datetime _ reply Hn);
         reflexivity);
    cbn [op_unwrap py_get bind]; unfold dict_get_default;
    (destruct (dict_get "data" body) as [v|] eqn:E; [|reflexivity]);
    destruct v; try reflexivity; exfalso; exact (Hd items eq_refl).
Qed.

Definition reply_with_null_data : Response.t :=
  Response.mk 200 "OK" None
    (Return (JObj [("status", JStr "success"); ("data", JNull)])).

Lemma list_reply_without_array_witness :
  call (patched (Return reply_with_null_data)) unix_timestamp sample_client
       (ListSubtasks "1") = Return (SubTasks []).
Proof.
  refine (proj1 (list_reply_without_array
                   (patched (Return reply_with_null_data))
                   unix_timestamp sample_client (ListSubtasks "1")
                   reply_with_null_data _ eq_refl _ eq_refl) _ eq_refl _).
  - cbn. lia.
  - intros items H. discriminate H.
Defined.

(** A reply whose body is the bare array, with no envelope. *)
Example list_reply_bare_array :
  call (patched (Return (Response.mk 200 "OK" None (Return (JArr [])))))
       unix_timestamp sample_client (ListTasks None None 50 0)
  = Raise (Builtin AttributeError "'list' object has no attribute 'get'").
Proof. reflexivity. Qed.

(** X9. When the reply's [data] is an array, a list operation parses its
    items in order: it returns a list exactly when every item parses, the
    results item by item, and otherwise it raises the parse error of one
    of the items; nothing is skipped. *)
Theorem list_reply_parses_each
    (transport : Retry -> Request -> Result Response.t)
    (parse_datetime : JSON -> option datetime)
    (self : TaskMasterClient.t) (op : Operation)
    (resp : Response.t) (body : dict) (items : list JSON) :
  session_request transport self (op_request self op) = Return resp ->
  (Response.status_code resp < 400)%Z ->
  Response.json resp = Return (JObj body) ->
  dict_get "data" body = Some (JArr items) ->
  match op with
  | ListTasks _ _ _ _ =>
      (forall l,
         call transport parse_datetime self op = Return (Tasks l) <->
         Forall2 (fun item t =>
                    Task.from_api_response parse_datetime item = Return t)
                 items l) /\
      (forall e,
         call transport parse_datetime self op = Raise e ->
         exists item, In item items /\
                      Task.from_api_response parse_datetime item = Raise e)
  | ListSubtasks _ =>
      (forall l,
         call transport parse_datetime self op = Return (SubTasks l) <->
         Forall2 (fun item t =>
                    SubTask.from_api_response parse_datetime item = Return t)
                 items l) /\
      (forall e,
         call transport parse_datetime self op = Raise e ->
         exists item, In item items /\
                      SubTask.from_api_response parse_datetime item = Raise e)
  | _ => True
  end.
Proof.
  intros Hresp Hs Hb Hd.
  pose proof (call_success transport parse_datetime self op resp (JObj body)
                Hresp Hs Hb) as Hc.
  destruct op; try exact I; rewrite Hc; cbn [op_unwrap py_get bind];
    unfold dict_get_default; rewrite Hd.
  - split.
    + intros l. rewrite <- mapM_return.
      destruct (mapM (Task.from_api_response parse_datetime) items);
        cbn; split; intros H; try discriminate H;
        injection H as <-; reflexivity.
    + intros e.
      destruct (mapM (Task.from_api_response parse_datetime) items) eqn:E;
        cbn; intros H; [discriminate H | injection H as <-].
      eapply mapM_raise. exact E.
  - split.
    + intros l. rewrite <- mapM_return.
      destruct (mapM (SubTask.from_api_response parse_datetime) items);
        cbn; split; intros H; try discriminate H;
        injection H as <-; reflexivity.
    + intros e.
      destruct (mapM (SubTask.from_api_response parse_datetime) items) eqn:E;
        cbn; intros H; [discriminate H | injection H as <-].
      eapply mapM_raise. exact E.
Qed.

Lemma list_reply_parses_each_witness :
  exists task,
    call (patched (Return (ok_reply (JArr [JObj sample_task_data]))))
         unix_timestamp sample_client (ListTasks None None 50 0)
    = Return (Tasks [task]) /\ Task.id task = "1".
Proof.
  eexists. split.
  - refine (proj2 (proj1 (list_reply_parses_each
              (patched (Return (ok_reply (JArr [JObj sample_task_data]))))
              unix_timestamp sample_client (ListTasks None None 50 0)
              (ok_reply (JArr [JObj sample_task_data])) _
              [JObj sample_task_data] eq_refl _ eq_refl eq_refl) _) _).
    + cbn. lia.
    + constructor; [reflexivity | constructor].
  - reflexivity.
Defined.

Definition missing_fields (names : list string) : list ErrorDetails :=
  map (fun name => line_error "missing" [LKey name] (JObj [])) names.

(** X10. A single-entity operation on a reply without [data] parses the
    empty mapping, and so raises pydantic's validation error listing every
    required field as missing; on a [data] that is not an object (null, an
    array, a string) it raises a TypeError.  Neither is an error of the
    SDK taxonomy. *)
Theorem entity_reply_without_object
    (transport : Retry -> Request -> Result Response.t)
    (parse_datetime : JSON -> option datetime)
    (self : TaskMasterClient.t) (op : Operation)
    (resp : Response.t) (body : dict) :
  session_request transport self (op_request self op) = Return resp ->
  (Response.status_code resp < 400)%Z ->
  Response.json resp = Return (JObj body) ->
  match op with
  | GetTask _ | CreateTask _ | UpdateTask _ _ =>
      (dict_get "data" body = None ->
       call transport parse_datetime self op
       = Raise (Pydantic "Task"
                  (missing_fields ["id"; "title"; "created_at";
                                   "updated_at"]))) /\
      (forall v, dict_get "data" body = Some v -> (forall d, v <> JObj d) ->
       call transport parse_datetime self op
       = Raise (Builtin TypeError "argument after ** must be a mapping"))
  | GetSubtask _ _ | CreateSubtask _ _ | UpdateSubtask _ _ _ =>
      (dict_get "data" body = None ->
       call transport parse_datetime self op
       = Raise (Pydantic "SubTask"
                  (missing_fields ["id"; "parent_id"; "title"; "created_at";
                                   "updated_at"]))) /\
      (forall v, dict_get "data" body = Some v -> (forall d, v <> JObj d) ->
       call transport parse_datetime self op
       = Raise (Builtin TypeError "argument after ** must be a mapping"))
  | _ => True
  end.
Proof.
  intros Hresp Hs Hb.
  pose proof (call_success transport parse_datetime self op resp (JObj body)
                Hresp Hs Hb) as Hc.
  destruct op; try exact I; rewrite Hc; cbn [op_unwrap py_get bind];
    unfold dict_get_default; (split; [intros -> | intros v -> Hv]);
    try reflexivity;
    destruct v; try reflexivity; exfalso; exact (Hv fields eq_refl).
Qed.

Definition deleted : Response.t :=
  Response.mk 200 "OK" None (Return (JObj [("status", JStr "success")])).

Lemma entity_reply_without_object_witness :
  call (patched (Return deleted)) unix_timestamp sample_client (GetTask "1")
  = Raise (Pydantic "Task"
             (missing_fields ["id"; "title"; "created_at"; "updated_at"])).
Proof.
  refine (proj1 (entity_reply_without_object (patched (Return deleted))
                   unix_timestamp sample_client (GetTask "1") deleted _
                   eq_refl _ eq_refl) eq_refl).
  cbn. lia.
Defined.

(** ** What the raised error carries *)




(** A 404 whose body is the JSON value null. *)
Example not_found_with_null_body :
  call (patched (Return (Response.mk 404 "Not Found" None (Return JNull))))
       unix_timestamp sample_client (GetTask "1")
  = Raise (Builtin AttributeError
             "'NoneType' object has no attribute 'get'").
Proof. reflexivity. Qed.



(* ===================================================================== *)
(** * Further properties of the domain model *)
(* ===================================================================== *)

Section ModelFacts.
Variable parse_datetime : JSON -> option datetime.

(** A task that validates was built from eleven valid fields. *)
Lemma Task_validate_fields (d : dict) (task : Task.t) :
  Task.validate parse_datetime d = Valid task ->
  required d "id" validate_str = Valid (Task.id task) /\
  required d "title" (validate_str_len 1 255) = Valid (Task.title task) /\
  with_default d "description" None validate_optional_str
    = Valid (Task.description task) /\
  with_default d "status" PENDING
    (validate_enum TaskStatus_value TaskStatus_members)
    = Valid (Task.status task) /\
  with_default d "priority" MEDIUM
    (validate_enum TaskPriority_value TaskPriority_members)
    = Valid (Task.priority task) /\
  required d "created_at" (validate_datetime parse_datetime)
    = Valid (Task.created_at task) /\
  required d "updated_at" (validate_datetime parse_datetime)
    = Valid (Task.updated_at task) /\
  with_default d "subtasks" []
    (validate_list (SubTask.validate_nested parse_datetime))
    = Valid (Task.subtasks task) /\
  with_default d "project_id" None validate_optional_str
    = Valid (Task.project_id task) /\
  with_default d "account_id" None validate_optional_str
    = Valid (Task.account_id task) /\
  with_default d "metadata" None validate_optional_dict
    = Valid (Task.metadata task).
Proof.
  unfold Task.validate. intros Ev.
  apply ap_valid_inv in Ev. destruct Ev as (g11 & me & Ev & Hme & ->).
  apply ap_valid_inv in Ev. destruct Ev as (g10 & ac & Ev & Hac & ->).
  apply ap_valid_inv in Ev. destruct Ev as (g9 & pj & Ev & Hpj & ->).
  apply ap_valid_inv in Ev. destruct Ev as (g8 & su & Ev & Hsu & ->).
  apply ap_valid_inv in Ev. destruct Ev as (g7 & ua & Ev & Hua & ->).
  apply ap_valid_inv in Ev. destruct Ev as (g6 & ca & Ev & Hca & ->).
  apply ap_valid_inv in Ev. destruct Ev as (g5 & pr & Ev & Hpr & ->).
  apply ap_valid_inv in Ev. destruct Ev as (g4 & st & Ev & Hst & ->).
  apply ap_valid_inv in Ev. destruct Ev as (g3 & de & Ev & Hde & ->).
  apply ap_valid_inv in Ev. destruct Ev as (g2 & ti & Ev & Hti & ->).
  apply ap_valid_inv in Ev. destruct Ev as (g1 & i & Ev & Hi & ->).
  injection Ev as <-. cbn.
  repeat split; assumption.
Qed.

Lemma SubTask_validate_fields (d : dict) (st : SubTask.t) :
  SubTask.validate parse_datetime d = Valid st ->
  required d "id" validate_str = Valid (SubTask.id st) /\
  required d "parent_id" validate_str = Valid (SubTask.parent_id st) /\
  required d "title" (validate_str_len 1 255) = Valid (SubTask.title st) /\
  with_default d "description" None validate_optional_str
    = Valid (SubTask.description st) /\
  with_default d "status" "pending" validate_str
    = Valid (SubTask.status st) /\
  required d "created_at" (validate_datetime parse_datetime)
    = Valid (SubTask.created_at st) /\
  required d "updated_at" (validate_datetime parse_datetime)
    = Valid (SubTask.updated_at st) /\
  with_default d "metadata" None validate_optional_dict
    = Valid (SubTask.metadata st).
Proof.
  unfold SubTask.validate. intros Ev.
  apply ap_valid_inv in Ev. destruct Ev as (g8 & me & Ev & Hme & ->).
  apply ap_valid_inv in Ev. destruct Ev as (g7 & ua & Ev & Hua & ->).
  apply ap_valid_inv in Ev. destruct Ev as (g6 & ca & Ev & Hca & ->).
  apply ap_valid_inv in Ev. destruct Ev as (g5 & s & Ev & Hs & ->).
  apply ap_valid_inv in Ev. destruct Ev as (g4 & de & Ev & Hde & ->).
  apply ap_valid_inv in Ev. destruct Ev as (g3 & ti & Ev & Hti & ->).
  apply ap_valid_inv in Ev. destruct Ev as (g2 & pa & Ev & Hpa & ->).
  apply ap_valid_inv in Ev. destruct Ev as (g1 & i & Ev & Hi & ->).
  injection Ev as <-. cbn.
  repeat split; assumption.
Qed.

Lemma instantiate_return {A : Type} (model : string) (v : Validated A)
    (a : A) :
  instantiate model v = Return a <-> v = Valid a.
Proof.
  destruct v; cbn; split; intros H; try discriminate H;
    injection H as <-; reflexivity.
Qed.

Lemma Task_from_api_response_return (d : dict) (task : Task.t) :
  Task.from_api_response parse_datetime (JObj d) = Return task <->
  Task.validate parse_datetime d = Valid task.
Proof. apply instantiate_return. Qed.

Lemma SubTask_from_api_response_return (d : dict) (st : SubTask.t) :
  SubTask.from_api_response parse_datetime (JObj d) = Return st <->
  SubTask.validate parse_datetime d = Valid st.
Proof. apply instantiate_return. Qed.

(** A nested subtask validates exactly as [SubTask.from_api_response]
    parses it. *)
Lemma validate_nested_return (loc : list LocItem) (v : JSON)
    (st : SubTask.t) :
  SubTask.validate_nested parse_datetime loc v = Valid st <->
  SubTask.from_api_response parse_datetime v = Return st.
Proof.
  destruct v; cbn [SubTask.validate_nested SubTask.from_api_response];
    try (split; discriminate).
  rewrite instantiate_return. unfold relocate.
  destruct (SubTask.validate parse_datetime fields); split; intros H;
    try discriminate H; exact H.
Qed.

Lemma validate_items_return (loc : list LocItem) (i : nat)
    (items : list JSON) (l : list SubTask.t) :
  validate_items (SubTask.validate_nested parse_datetime) loc i items
    = Valid l <->
  Forall2 (fun item st =>
             SubTask.from_api_response parse_datetime item = Return st)
          items l.
Proof.
  revert i l. induction items as [|x items IH]; intros i l;
    cbn [validate_items].
  - split.
    + intros H. injection H as <-. constructor.
    + intros H. inversion H. reflexivity.
  - split.
    + intros H. apply ap_valid_inv in H.
      destruct H as (g & tl & H & Htl & ->).
      apply ap_valid_inv in H. destruct H as (g' & hd & H & Hhd & ->).
      injection H as <-. constructor.
      * apply (validate_nested_return (loc ++ [LIndex i])%list x hd).
        exact Hhd.
      * apply (IH (S i)). exact Htl.
    + intros H. inversion H as [|x' st items' l' Hx Hl]; subst.
      apply (validate_nested_return (loc ++ [LIndex i])%list) in Hx.
      apply (IH (S i)) in Hl. rewrite Hx, Hl. reflexivity.
Qed.

End ModelFacts.

(** ** Parsing a task *)

(** X13. A task that parses takes the declared defaults for the fields
    its payload leaves out: status pending, priority medium, no subtasks,
    and None for description, project_id, account_id and metadata. *)
Theorem Task_defaults (parse_datetime : JSON -> option datetime) (d : dict)
    (task : Task.t) :
  Task.from_api_response parse_datetime (JObj d) = Return task ->
  (dict_get "status" d = None -> Task.status task = PENDING) /\
  (dict_get "priority" d = None -> Task.priority task = MEDIUM) /\
  (dict_get "subtasks" d = None -> Task.subtasks task = []) /\
  (dict_get "description" d = None -> Task.description task = None) /\
  (dict_get "project_id" d = None -> Task.project_id task = None) /\
  (dict_get "account_id" d = None -> Task.account_id task = None) /\
  (dict_get "metadata" d = None -> Task.metadata task = None).
Proof.
  intros H. apply Task_from_api_response_return in H.
  apply Task_validate_fields in H.
  destruct H as (_ & _ & Hde & Hst & Hpr & _ & _ & Hsu & Hpj & Hac & Hme).
  unfold with_default in *.
  repeat split; intros E; rewrite E in *; congruence.
Qed.

Definition minimal_payload : dict :=
  [("id", JStr "7"); ("title", JStr "Write report");
   ("created_at", JNum 1704067200); ("updated_at", JNum 1704070800)].

Lemma Task_defaults_witness :
  exists task,
    Task.from_api_response unix_timestamp (JObj minimal_payload)
      = Return task /\
    Task.status task = PENDING /\ Task.priority task = MEDIUM.
Proof.
  eexists. split; [reflexivity|].
  destruct (Task_defaults unix_timestamp minimal_payload _ eq_refl)
    as (Hs & Hp & _).
  split; [apply Hs | apply Hp]; reflexivity.
Defined.

(** X14. A payload with a string id, a title of 1 to 255 characters and
    two timestamps the parser accepts, and with no other declared field,
    parses; the task holds these four values and the defaults. *)
Theorem Task_minimal_payload_parses
    (parse_datetime : JSON -> option datetime) (d : dict)
    (i t : string) (vc vu : JSON) (ca ua : datetime) :
  dict_get "id" d = Some (JStr i) ->
  dict_get "title" d = Some (JStr t) ->
  1 <= String.length t <= 255 ->
  dict_get "created_at" d = Some vc -> parse_datetime vc = Some ca ->
  dict_get "updated_at" d = Some vu -> parse_datetime vu = Some ua ->
  (forall name,
     In name ["description"; "status"; "priority"; "subtasks"; "project_id";
              "account_id"; "metadata"] ->
     dict_get name d = None) ->
  Task.from_api_response parse_datetime (JObj d)
  = Return (Task.mk i t None PENDING MEDIUM ca ua [] None None None).
Proof.
  intros Hi Ht Hlen Hc Hpc Hu Hpu Hrest.
  cbn [Task.from_api_response].
  unfold Task.validate, required, with_default, validate_datetime,
         validate_str_len.
  rewrite Hi, Ht, Hc, Hu, Hpc, Hpu.
  rewrite !Hrest by (cbn; tauto).
  replace (Nat.ltb (String.length t) 1) with false
    by (symmetry; apply Nat.ltb_ge; lia).
  replace (Nat.ltb 255 (String.length t)) with false
    by (symmetry; apply Nat.ltb_ge; lia).
  reflexivity.
Qed.

Lemma Task_minimal_payload_parses_witness :
  Task.from_api_response unix_timestamp (JObj minimal_payload)
  = Return (Task.mk "7" "Write report" None PENDING MEDIUM 1704067200%Z
                    1704070800%Z [] None None None).
Proof.
  apply (Task_minimal_payload_parses unix_timestamp minimal_payload
           "7" "Write report" (JNum 1704067200) (JNum 1704070800));
    try reflexivity.
  - cbn. lia.
  - intros name H. cbn in H.
    repeat destruct H as [<-|H]; try reflexivity; contradiction.
Defined.

(** X15. The title bounds are an invariant of parsing: every task built
    by [from_api_response] has a title of 1 to 255 characters, and so has
    each of its subtasks. *)
Theorem parsed_titles_in_range (parse_datetime : JSON -> option datetime)
    (data : JSON) (task : Task.t) :
  Task.from_api_response parse_datetime data = Return task ->
  1 <= String.length (Task.title task) <= 255 /\
  Forall (fun st => 1 <= String.length (SubTask.title st) <= 255)
         (Task.subtasks task).
Proof.
  destruct data as [| | | | |d]; try discriminate.
  intros H. apply Task_from_api_response_return in H.
  apply Task_validate_fields in H.
  destruct H as (_ & Hti & _ & _ & _ & _ & _ & Hsu & _).
  split.
  - exact (proj2 (required_str_len_valid d "title" _ 1 255 Hti)).
  - unfold with_default in Hsu.
    destruct (dict_get "subtasks" d) as [v|];
      [|injection Hsu as <-; constructor].
    destruct v; try discriminate Hsu. cbn [validate_list] in Hsu.
    apply validate_items_return in Hsu.
    induction Hsu as [|item st items l Hitem _ IH]; constructor; [|exact IH].
    destruct item as [| | | | |d']; try discriminate Hitem.
    apply SubTask_from_api_response_return in Hitem.
    apply SubTask_validate_fields in Hitem.
    destruct Hitem as (_ & _ & Hst & _).
    exact (proj2 (required_str_len_valid d' "title" _ 1 255 Hst)).
Qed.

Lemma parsed_titles_in_range_witness :
  1 <= String.length "Write report" <= 255.
Proof.
  exact (proj1 (parsed_titles_in_range unix_timestamp (JObj minimal_payload)
                  (Task.mk "7" "Write report" None PENDING MEDIUM
                           1704067200%Z 1704070800%Z [] None None None)
                  eq_refl)).
Defined.

(** X16. The subtasks of a parsed task are the items of the payload's
    [subtasks] array, each parsed as [SubTask.from_api_response] parses
    it, in the same order and number; and when one item of the array does
    not parse as a subtask, the task as a whole is refused. *)
Theorem Task_subtasks_parsed (parse_datetime : JSON -> option datetime)
    (d : dict) :
  (forall task,
     Task.from_api_response parse_datetime (JObj d) = Return task ->
     match dict_get "subtasks" d with
     | None => Task.subtasks task = []
     | Some v =>
         exists items,
           v = JArr items /\
           Forall2 (fun item st =>
                      SubTask.from_api_response parse_datetime item
                      = Return st)
                   items (Task.subtasks task)
     end) /\
  (forall items item,
     dict_get "subtasks" d = Some (JArr items) ->
     In item items ->
     (forall st,
        SubTask.from_api_response parse_datetime item <> Return st) ->
     exists errs,
       Task.from_api_response parse_datetime (JObj d)
       = Raise (Pydantic "Task" errs)).
Proof.
  assert (Hfst : forall task,
     Task.from_api_response parse_datetime (JObj d) = Return task ->
     match dict_get "subtasks" d with
     | None => Task.subtasks task = []
     | Some v =>
         exists items,
           v = JArr items /\
           Forall2 (fun item st =>
                      SubTask.from_api_response parse_datetime item
                      = Return st)
                   items (Task.subtasks task)
     end).
  { intros task H. apply Task_from_api_response_return in H.
    apply Task_validate_fields in H.
    destruct H as (_ & _ & _ & _ & _ & _ & _ & Hsu & _).
    unfold with_default in Hsu.
    destruct (dict_get "subtasks" d) as [v|];
      [|injection Hsu as <-; reflexivity].
    destruct v; try discriminate Hsu. cbn [validate_list] in Hsu.
    apply validate_items_return in Hsu. exists items. auto. }
  split; [exact Hfst|].
  intros items item Hget Hin Hbad.
  cbn [Task.from_api_response]. unfold instantiate.
  destruct (Task.validate parse_datetime d) as [task|errs] eqn:Ev;
    [|exists errs; reflexivity].
  exfalso. apply Task_from_api_response_return in Ev.
  specialize (Hfst task Ev). rewrite Hget in Hfst.
  destruct Hfst as (items' & Heq & Hall). injection Heq as <-.
  clear Hget Ev. induction Hall as [|x st xs l Hx _ IH]; [contradiction|].
  destruct Hin as [<-|Hin]; [exact (Hbad st Hx) | exact (IH Hin)].
Qed.

Definition subtask_payload (id : string) : JSON :=
  JObj [("id", JStr id); ("parent_id", JStr "7");
        ("title", JStr "Collect figures");
        ("created_at", JNum 1704067200); ("updated_at", JNum 1704067200)].

Lemma Task_subtasks_parsed_witness :
  exists errs,
    Task.from_api_response unix_timestamp
      (JObj (("subtasks", JArr [subtask_payload "7.1"; JStr "7.2"])
             :: minimal_payload))
    = Raise (Pydantic "Task" errs).
Proof.
  apply (proj2 (Task_subtasks_parsed unix_timestamp
                  (("subtasks", JArr [subtask_payload "7.1"; JStr "7.2"])
                   :: minimal_payload))
           [subtask_payload "7.1"; JStr "7.2"] (JStr "7.2") eq_refl).
  - cbn. auto.
  - intros st H. discriminate H.
Defined.

Lemma enum_not_member {E : Type} (value : E -> string) (members : list E)
    (loc : list LocItem) (v : JSON) :
  (forall m, In m members -> v <> JStr (value m)) ->
  errors_of (validate_enum value members loc v) = [line_error "enum" loc v].
Proof.
  intros H. destruct v; try reflexivity.
  apply enum_unknown. intros m Hin Heq. apply (H m Hin). now rewrite Heq.
Qed.

(** X17. A status or priority that is present but is not the string of a
    member, null and numbers included, is refused; it is never replaced by
    the default, which stands for an absent key only. *)
Theorem Task_enum_not_coerced (parse_datetime : JSON -> option datetime)
    (d : dict) (v : JSON) :
  (dict_get "status" d = Some v ->
   (forall m, v <> JStr (TaskStatus_value m)) ->
   exists errs,
     Task.from_api_response parse_datetime (JObj d)
       = Raise (Pydantic "Task" errs) /\
     In (line_error "enum" [LKey "status"] v) errs) /\
  (dict_get "priority" d = Some v ->
   (forall m, v <> JStr (TaskPriority_value m)) ->
   exists errs,
     Task.from_api_response parse_datetime (JObj d)
       = Raise (Pydantic "Task" errs) /\
     In (line_error "enum" [LKey "priority"] v) errs).
Proof.
  split; intros Hget Hno.
  - pose proof (enum_not_member TaskStatus_value TaskStatus_members
                  [LKey "status"] v (fun m _ => Hno m)) as Hen.
    rewrite <- (with_default_present d "status" PENDING
                  (validate_enum TaskStatus_value TaskStatus_members)
                  v Hget) in Hen.
    apply Task_field_error. unfold Task.validate. in_errors.
  - pose proof (enum_not_member TaskPriority_value TaskPriority_members
                  [LKey "priority"] v (fun m _ => Hno m)) as Hen.
    rewrite <- (with_default_present d "priority" MEDIUM
                  (validate_enum TaskPriority_value TaskPriority_members)
                  v Hget) in Hen.
    apply Task_field_error. unfold Task.validate. in_errors.
Qed.

Lemma Task_enum_not_coerced_witness :
  exists errs,
    Task.from_api_response unix_timestamp
      (JObj (("status", JNull) :: minimal_payload))
      = Raise (Pydantic "Task" errs) /\
    In (line_error "enum" [LKey "status"] JNull) errs.
Proof.
  apply (proj1 (Task_enum_not_coerced unix_timestamp
                  (("status", JNull) :: minimal_payload) JNull) eq_refl).
  intros m H. discriminate H.
Defined.

(** ** Subtasks *)

Lemma same_outcome_valid {A : Type} (v v' : Validated A) (a : A) :
  v = Valid a -> same_outcome v v' -> v' = Valid a.
Proof.
  intros ->. destruct v'; cbn; intros H; [now subst | contradiction].
Qed.

(** X18. A subtask's status is an open string: if a payload parses, the
    same payload with its status set to any string whatever parses too,
    to the same subtask with that status. *)
Theorem SubTask_status_free_form (parse_datetime : JSON -> option datetime)
    (d : dict) (st : SubTask.t) (s : string) :
  SubTask.from_api_response parse_datetime (JObj d) = Return st ->
  SubTask.from_api_response parse_datetime (JObj (("status", JStr s) :: d))
  = Return (SubTask.mk (SubTask.id st) (SubTask.parent_id st)
                       (SubTask.title st) (SubTask.description st) s
                       (SubTask.created_at st) (SubTask.updated_at st)
                       (SubTask.metadata st)).
Proof.
  intros H. apply SubTask_from_api_response_return in H.
  apply SubTask_validate_fields in H.
  destruct H as (Hi & Hpa & Hti & Hde & _ & Hca & Hua & Hme).
  apply SubTask_from_api_response_return. unfold SubTask.validate.
  rewrite (same_outcome_valid _ _ _ Hi
             (same_outcome_required d (("status", JStr s) :: d) "id"
                                    validate_str eq_refl)).
  rewrite (same_outcome_valid _ _ _ Hpa
             (same_outcome_required d (("status", JStr s) :: d) "parent_id"
                                    validate_str eq_refl)).
  rewrite (same_outcome_valid _ _ _ Hti
             (same_outcome_required d (("status", JStr s) :: d) "title"
                                    (validate_str_len 1 255) eq_refl)).
  rewrite (same_outcome_valid _ _ _ Hca
             (same_outcome_required d (("status", JStr s) :: d) "created_at"
                                    (validate_datetime parse_datetime)
                                    eq_refl)).
  rewrite (same_outcome_valid _ _ _ Hua
             (same_outcome_required d (("status", JStr s) :: d) "updated_at"
                                    (validate_datetime parse_datetime)
                                    eq_refl)).
  change (with_default (("status", JStr s) :: d) "description" None
            validate_optional_str)
    with (with_default d "description" None validate_optional_str).
  change (with_default (("status", JStr s) :: d) "metadata" None
            validate_optional_dict)
    with (with_default d "metadata" None validate_optional_dict).
  rewrite Hde, Hme. reflexivity.
Qed.

Lemma SubTask_status_free_form_witness :
  exists st,
    SubTask.from_api_response unix_timestamp
      (JObj (("status", JStr "waiting-for-review")
             :: [("id", JStr "7.1"); ("parent_id", JStr "7");
                 ("title", JStr "Collect figures");
                 ("created_at", JNum 1704067200);
                 ("updated_at", JNum 1704067200)]))
    = Return st /\ SubTask.status st = "waiting-for-review".
Proof.
  eexists. split.
  - apply (SubTask_status_free_form unix_timestamp
             [("id", JStr "7.1"); ("parent_id", JStr "7");
              ("title", JStr "Collect figures");
              ("created_at", JNum 1704067200);
              ("updated_at", JNum 1704067200)]
             (SubTask.mk "7.1" "7" "Collect figures" None "pending"
                         1704067200%Z 1704067200%Z None)
             "waiting-for-review").
    reflexivity.
  - reflexivity.
Defined.

(** X19. For a subtask: active exactly for the statuses "pending" and
    "in-progress", completed exactly for "done", never both; any other
    status string is neither. *)
Theorem SubTask_status_predicates (st : SubTask.t) :
  (SubTask.is_active st = true <->
     SubTask.status st = "pending" \/ SubTask.status st = "in-progress") /\
  (SubTask.is_completed st = true <-> SubTask.status st = "done") /\
  ~ (SubTask.is_active st = true /\ SubTask.is_completed st = true).
Proof.
  unfold SubTask.is_active, SubTask.is_completed. cbn [existsb].
  assert (Ha : String.eqb (SubTask.status st) "pending"
               || (String.eqb (SubTask.status st) "in-progress" || false)
               = true <->
               SubTask.status st = "pending" \/
               SubTask.status st = "in-progress").
  { rewrite !orb_true_iff, !String.eqb_eq. intuition discriminate. }
  split; [exact Ha|]. split; [apply String.eqb_eq|].
  intros [H1 H2]. apply Ha in H1. apply String.eqb_eq in H2.
  destruct H1 as [H1|H1]; rewrite H1 in H2; discriminate H2.
Qed.

Lemma SubTask_to_api_request_get (st : SubTask.t) :
  let body := SubTask.to_api_request st in
  dump_get "id" body = Some (VStr (SubTask.id st)) /\
  dump_get "parent_id" body = Some (VStr (SubTask.parent_id st)) /\
  dump_get "title" body = Some (VStr (SubTask.title st)) /\
  dump_get "description" body = option_map VStr (SubTask.description st) /\
  dump_get "status" body = Some (VStr (SubTask.status st)) /\
  dump_get "created_at" body = Some (VDatetime (SubTask.created_at st)) /\
  dump_get "updated_at" body = Some (VDatetime (SubTask.updated_at st)) /\
  dump_get "metadata" body = option_map VDict (SubTask.metadata st).
Proof.
  destruct st as [i pa ti de s ca ua me].
  destruct de, me; cbn; repeat split; reflexivity.
Qed.

(** X20. Round trip of a subtask: the request body of a parsed subtask
    holds the payload's id, parent_id, title, description and status
    strings unchanged and the parsed timestamps, has no entry for a
    description or metadata that was absent or null, and holds the status
    "pending" when the payload had no status. *)
Theorem SubTask_roundtrip (parse_datetime : JSON -> option datetime)
    (d : dict) (st : SubTask.t) :
  SubTask.from_api_response parse_datetime (JObj d) = Return st ->
  let body := SubTask.to_api_request st in
  (forall f s,
     In f ["id"; "parent_id"; "title"; "description"; "status"] ->
     dict_get f d = Some (JStr s) -> dump_get f body = Some (VStr s)) /\
  (dict_get "status" d = None ->
     dump_get "status" body = Some (VStr "pending")) /\
  (forall f, In f ["description"; "metadata"] ->
     dict_get f d = None \/ dict_get f d = Some JNull ->
     dump_get f body = None) /\
  (forall f v, In f ["created_at"; "updated_at"] ->
     dict_get f d = Some v ->
     exists t, parse_datetime v = Some t /\
               dump_get f body = Some (VDatetime t)).
Proof.
  intros H body. apply SubTask_from_api_response_return in H.
  apply SubTask_validate_fields in H.
  destruct H as (Hi & Hpa & Hti & Hde & Hs & Hca & Hua & Hme).
  apply required_str_valid in Hi, Hpa.
  apply required_str_len_valid in Hti. destruct Hti as [Hti _].
  apply optional_str_valid in Hde. apply optional_dict_valid in Hme.
  apply required_datetime_valid in Hca, Hua.
  destruct Hca as (vc & Hvc & Hpc). destruct Hua as (vu & Hvu & Hpu).
  destruct (SubTask_to_api_request_get st)
    as (Gi & Gpa & Gti & Gde & Gs & Gca & Gua & Gme).
  fold body in Gi, Gpa, Gti, Gde, Gs, Gca, Gua, Gme.
  unfold with_default in Hs.
  repeat match goal with |- _ /\ _ => split end.
  - intros f s Hin Hget. cbn in Hin.
    destruct Hin as [<-|[<-|[<-|[<-|[<-|[]]]]]].
    + rewrite Gi. congruence.
    + rewrite Gpa. congruence.
    + rewrite Gti. congruence.
    + rewrite Gde. destruct (SubTask.description st); cbn;
        [congruence | destruct Hde; congruence].
    + rewrite Gs. rewrite Hget in Hs. cbn in Hs. congruence.
  - intros Hn. rewrite Gs. rewrite Hn in Hs. congruence.
  - intros f Hin Habs. cbn in Hin. destruct Hin as [<-|[<-|[]]].
    + rewrite Gde. destruct (SubTask.description st); [|reflexivity].
      destruct Habs; congruence.
    + rewrite Gme. destruct (SubTask.metadata st); [|reflexivity].
      destruct Habs; congruence.
  - intros f v Hin Hget. cbn in Hin. destruct Hin as [<-|[<-|[]]].
    + exists (SubTask.created_at st). split; [congruence | exact Gca].
    + exists (SubTask.updated_at st). split; [congruence | exact Gua].
Qed.

Lemma SubTask_roundtrip_witness :
  dump_get "status"
    (SubTask.to_api_request
       (SubTask.mk "7.1" "7" "Collect figures" None "pending"
                   1704067200%Z 1704067200%Z None))
  = Some (VStr "pending").
Proof.
  apply (proj1 (proj2 (SubTask_roundtrip unix_timestamp
           [("id", JStr "7.1"); ("parent_id", JStr "7");
            ("title", JStr "Collect figures");
            ("created_at", JNum 1704067200);
            ("updated_at", JNum 1704067200)]
           (SubTask.mk "7.1" "7" "Collect figures" None "pending"
                       1704067200%Z 1704067200%Z None) eq_refl))).
  reflexivity.
Defined.

(** ** Request bodies and counts *)

Definition is_some {A : Type} (o : option A) : bool :=
  match o with Some _ => true | None => false end.

(** Whether [to_api_request] keeps a field of a task. *)
Definition Task_field_set (task : Task.t) (name : string) : bool :=
  if String.eqb name "description" then is_some (Task.description task)
  else if String.eqb name "project_id" then is_some (Task.project_id task)
  else if String.eqb name "account_id" then is_some (Task.account_id task)
  else if String.eqb name "metadata" then is_some (Task.metadata task)
  else true.

(** X21. The keys of a task's request body are the declared fields whose
    value is not None, in declaration order: id, title, status, priority,
    both timestamps and subtasks are always there, defaults included, and
    the subtasks are dumped one by one in order. *)
Theorem Task_request_body_keys (task : Task.t) :
  map fst (Task.to_api_request task)
    = filter (Task_field_set task) Task_fields /\
  dump_get "subtasks" (Task.to_api_request task)
    = Some (VList (map (fun st => VModel (SubTask.to_api_request st))
                       (Task.subtasks task))).
Proof.
  destruct task as [i ti de st pr ca ua su pj ac me].
  destruct de, pj, ac, me; split; reflexivity.
Qed.

Lemma filter_length_facts {A : Type} (f : A -> bool) (l : list A) :
  List.length (filter f l) <= List.length l /\
  (List.length (filter f l) = List.length l <->
   Forall (fun x => f x = true) l) /\
  (List.length (filter f l) = 0 <-> Forall (fun x => f x = false) l).
Proof.
  induction l as [|x l (IHle & IHall & IHnone)].
  - cbn. repeat split; auto.
  - cbn [filter List.length]. destruct (f x) eqn:E; cbn [List.length].
    + split; [lia|]. split; split.
      * intros H. constructor; [exact E|]. apply IHall. lia.
      * intros H. inversion H; subst. f_equal. now apply IHall.
      * discriminate.
      * intros H. inversion H; subst. congruence.
    + split; [lia|]. split; split.
      * intros H. lia.
      * intros H. inversion H; subst. congruence.
      * intros H. constructor; [exact E|]. now apply IHnone.
      * intros H. inversion H; subst. now apply IHnone.
Qed.

(** X22. The number of completed subtasks never exceeds the number of
    subtasks; the two are equal exactly when every subtask is completed,
    and the former is zero exactly when none is. *)
Theorem completed_count_bounds (task : Task.t) :
  Task.get_completed_subtask_count task <= Task.get_subtask_count task /\
  (Task.get_completed_subtask_count task = Task.get_subtask_count task <->
   Forall (fun st => SubTask.is_completed st = true) (Task.subtasks task)) /\
  (Task.get_completed_subtask_count task = 0 <->
   Forall (fun st => SubTask.is_completed st = false) (Task.subtasks task)).
Proof.
  rewrite completed_count_filter.
  unfold count_status, Task.get_subtask_count.
  exact (filter_length_facts SubTask.is_completed (Task.subtasks task)).
Qed.

(* ===================================================================== *)
(** * Further properties of the token handler *)
(* ===================================================================== *)

(** X23. The handler always has a list of algorithms to offer: the one
    given when it is not empty, and ["HS256"] both when none is given and
    when the empty list is. *)
Theorem init_algorithms (secret : string) (algorithms : option (list string))
    (verify : bool) :
  JWTHandler.algorithms (JWTHandler.init secret algorithms verify) <> [] /\
  (algorithms = None \/ algorithms = Some [] ->
     JWTHandler.algorithms (JWTHandler.init secret algorithms verify)
     = ["HS256"]) /\
  (forall l, algorithms = Some l -> l <> [] ->
     JWTHandler.algorithms (JWTHandler.init secret algorithms verify) = l).
Proof.
  split; [|split].
  - destruct algorithms as [[|a l]|]; discriminate.
  - intros [-> | ->]; reflexivity.
  - intros l -> Hl. destruct l; [contradiction | reflexivity].
Qed.

Lemma init_algorithms_witness :
  JWTHandler.algorithms (JWTHandler.init "secret" (Some []) true) = ["HS256"].
Proof.
  apply (proj1 (proj2 (init_algorithms "secret" (Some []) true))).
  right. reflexivity.
Defined.

(** X24. [decode] translates the library's token errors and nothing
    else: an expired signature becomes TokenExpiredError, any other token
    error becomes InvalidTokenError with the library's text after
    "Invalid token: ", both of them authentication errors with status
    401; an exception that is no token error passes through unchanged;
    and a token error of the library itself never comes out of [decode]. *)
Theorem decode_translates_token_errors
    (jwt_decode : string -> string -> list string -> bool -> Result dict)
    (self : JWTHandler.t) (token : string) :
  let outcome := jwt_decode token (JWTHandler.secret self)
                            (JWTHandler.algorithms self)
                            (JWTHandler.verify self) in
  (forall payload, outcome = Return payload ->
     JWTHandler.decode jwt_decode self token = Return payload) /\
  (forall msg, outcome = Raise (Jwt ExpiredSignatureError msg) ->
     JWTHandler.decode jwt_decode self token
     = Raise (Sdk (TokenExpiredError (JStr "Token has expired")))) /\
  (forall c msg, outcome = Raise (Jwt c msg) ->
     is_jwt_InvalidTokenError c = true -> c <> ExpiredSignatureError ->
     JWTHandler.decode jwt_decode self token
     = Raise (Sdk (InvalidTokenError (JStr ("Invalid token: " ++ msg))))) /\
  (forall e, outcome = Raise e -> ~ token_failure e ->
     JWTHandler.decode jwt_decode self token = Raise e) /\
  (forall e, JWTHandler.decode jwt_decode self token = Raise e ->
     ~ token_failure e) /\
  (forall e, outcome = Raise e -> token_failure e ->
     exists s,
       JWTHandler.decode jwt_decode self token = Raise (Sdk s) /\
       Cls.issubclass (err_class s) Cls.AuthenticationError = true /\
       status_code s = Some 401%Z).
Proof.
  intros outcome. unfold JWTHandler.decode. fold outcome.
  repeat match goal with |- _ /\ _ => split end.
  - intros payload ->. reflexivity.
  - intros msg ->. reflexivity.
  - intros c msg -> Hc Hne. cbn. rewrite Hc.
    destruct c; try reflexivity; contradiction.
  - intros e -> Hnt.
    destruct e as [s|c msg|c msg|model errs|c msg]; try reflexivity.
    cbn. destruct (is_jwt_ExpiredSignatureError c) eqn:E1.
    + exfalso. apply Hnt. exists c, msg. split; [reflexivity|].
      destruct c; try discriminate E1; reflexivity.
    + destruct (is_jwt_InvalidTokenError c) eqn:E2; [|reflexivity].
      exfalso. apply Hnt. exists c, msg. auto.
  - intros e H (c & msg & -> & Hc).
    destruct outcome as [payload|e0]; [discriminate H|].
    destruct (JWTHandler.is_ExpiredSignatureError e0); [discriminate H|].
    destruct (JWTHandler.is_InvalidTokenError e0) eqn:E; [discriminate H|].
    injection H as ->. cbn in E. congruence.
  - intros e -> (c & msg & -> & Hc). cbn. rewrite Hc.
    destruct (is_jwt_ExpiredSignatureError c); eexists;
      (split; [reflexivity | split; reflexivity]).
Qed.

Lemma decode_translates_token_errors_witness :
  JWTHandler.decode sample_jwt_decode (JWTHandler.init "secret2" None true)
                    "signed-with-secret1"
  = Raise (Sdk (InvalidTokenError
                  (JStr "Invalid token: Signature verification failed"))).
Proof.
  apply (proj1 (proj2 (proj2 (decode_translates_token_errors
           sample_jwt_decode (JWTHandler.init "secret2" None true)
           "signed-with-secret1")))
           InvalidSignatureError "Signature verification failed");
    [reflexivity | reflexivity | discriminate].
Defined.

(** X25. In a handler that verifies signatures, [is_expired] answers
    whether [decode] fails, not whether the token has expired: on a token
    where the library decodes or fails with a token error, it returns
    True exactly when [decode] raises and False exactly when [decode]
    returns; so it is True for a token with a bad signature or a malformed
    one, for which [decode] raises InvalidTokenError and not
    TokenExpiredError. *)
Theorem is_expired_agrees_with_decode
    (jwt_decode : string -> string -> list string -> bool -> Result dict)
    (self : JWTHandler.t) (token : string) :
  JWTHandler.verify self = true ->
  (forall e,
     jwt_decode token (JWTHandler.secret self) (JWTHandler.algorithms self)
                true = Raise e ->
     token_failure e) ->
  (JWTHandler.is_expired jwt_decode self token = Return true <->
   raises (JWTHandler.decode jwt_decode self token)) /\
  (JWTHandler.is_expired jwt_decode self token = Return false <->
   exists payload,
     JWTHandler.decode jwt_decode self token = Return payload) /\
  (forall c msg,
     jwt_decode token (JWTHandler.secret self) (JWTHandler.algorithms self)
                true = Raise (Jwt c msg) ->
     c <> ExpiredSignatureError ->
     JWTHandler.is_expired jwt_decode self token = Return true /\
     JWTHandler.decode jwt_decode self token
     = Raise (Sdk (InvalidTokenError (JStr ("Invalid token: " ++ msg))))).
Proof.
  intros Hv Hlib. unfold JWTHandler.is_expired, JWTHandler.decode, raises.
  rewrite Hv.
  destruct (jwt_decode token (JWTHandler.secret self)
                       (JWTHandler.algorithms self) true) as [payload|e].
  - split; [|split].
    + split; [discriminate | intros [e He]; discriminate He].
    + split; [intros _; eauto | reflexivity].
    + intros c msg H. discriminate H.
  - destruct (Hlib e eq_refl) as (c & msg & -> & Hc).
    cbn [JWTHandler.is_ExpiredSignatureError JWTHandler.is_InvalidTokenError].
    rewrite Hc. split; [|split].
    + destruct (is_jwt_ExpiredSignatureError c);
        (split; [intros _; eexists; reflexivity | reflexivity]).
    + destruct (is_jwt_ExpiredSignatureError c);
        (split; [discriminate | intros [p Hp]; discriminate Hp]).
    + intros c' msg' H Hne. injection H as <- <-.
      destruct c; try contradiction; try discriminate Hc;
        split; reflexivity.
Qed.

Lemma is_expired_agrees_with_decode_witness :
  JWTHandler.is_expired sample_jwt_decode
    (JWTHandler.init "secret1" None true) "not-a-token" = Return true /\
  JWTHandler.decode sample_jwt_decode
    (JWTHandler.init "secret1" None true) "not-a-token"
  = Raise (Sdk (InvalidTokenError
                  (JStr "Invalid token: Not enough segments"))).
Proof.
  destruct (is_expired_agrees_with_decode sample_jwt_decode
              (JWTHandler.init "secret1" None true) "not-a-token" eq_refl)
    as (_ & _ & H).
  - intros e He. cbn in He. injection He as <-.
    exists DecodeError, "Not enough segments". auto.
  - apply (H DecodeError "Not enough segments" eq_refl). discriminate.
Defined.

Lemma claims_get_set_same (k : string) (v : JWTHandler.ClaimValue)
    (d : JWTHandler.claims) :
  JWTHandler.claims_get k (JWTHandler.claims_set k v d) = Some v.
Proof.
  induction d as [|[k' v'] d IH]; cbn.
  - now rewrite String.eqb_refl.
  - destruct (String.eqb k k') eqn:E; cbn; rewrite ?String.eqb_refl, ?E;
      [reflexivity | exact IH].
Qed.

Lemma claims_get_set_other (k k0 : string) (v : JWTHandler.ClaimValue)
    (d : JWTHandler.claims) :
  k0 <> k ->
  JWTHandler.claims_get k0 (JWTHandler.claims_set k v d)
  = JWTHandler.claims_get k0 d.
Proof.
  intros Hne. induction d as [|[k' v'] d IH]; cbn.
  - destruct (String.eqb k0 k) eqn:E; [|reflexivity].
    apply String.eqb_eq in E. contradiction.
  - destruct (String.eqb k k') eqn:E; cbn.
    + apply String.eqb_eq in E. subst k'.
      destruct (String.eqb k0 k) eqn:E0; [|reflexivity].
      apply String.eqb_eq in E0. contradiction.
    + rewrite IH. reflexivity.
Qed.

(** X26. [get_expiration_time] returns None when the token has no [exp]
    claim and also when the claim is falsy, an [exp] of 0 included;
    otherwise it returns the date of the claim.  A token that does not
    decode gives an InvalidTokenError with the library's text after
    "Failed to decode token: "; an [exp] that cannot be turned into a date
    gives the conversion's own exception, which is not wrapped. *)
Theorem expiration_time_cases
    (jwt_decode_unverified : string -> Result dict)
    (utcfromtimestamp : JSON -> Result datetime)
    (self : JWTHandler.t) (token : string) :
  let result := JWTHandler.get_expiration_time jwt_decode_unverified
                  utcfromtimestamp self token in
  (forall e, jwt_decode_unverified token = Raise e ->
     result = Raise (Sdk (InvalidTokenError
                (JStr ("Failed to decode token: " ++ Exc_str e))))) /\
  (forall payload, jwt_decode_unverified token = Return payload ->
     dict_get "exp" payload = None -> result = Return None) /\
  (forall payload v, jwt_decode_unverified token = Return payload ->
     dict_get "exp" payload = Some v ->
     JWTHandler.json_truthy v = false -> result = Return None) /\
  (forall payload v, jwt_decode_unverified token = Return payload ->
     dict_get "exp" payload = Some v ->
     JWTHandler.json_truthy v = true ->
     (forall d, utcfromtimestamp v = Return d -> result = Return (Some d)) /\
     (forall e, utcfromtimestamp v = Raise e -> result = Raise e)).
Proof.
  intros result. unfold result, JWTHandler.get_expiration_time,
    JWTHandler.get_payload_without_verification, try_except.
  repeat match goal with |- _ /\ _ => split end.
  - intros e ->. reflexivity.
  - intros payload -> Hexp. cbn. rewrite Hexp. reflexivity.
  - intros payload v -> Hexp Hf. cbn. rewrite Hexp, Hf. reflexivity.
  - intros payload v -> Hexp Ht. cbn. rewrite Hexp, Ht.
    split; intros x ->; reflexivity.
Qed.

(** A library behaviour on three tokens and a conversion of
    integer timestamps to microseconds, for examples. *)
Definition sample_decode_unverified (token : string) : Result dict :=
  if String.eqb token "expires-at-epoch" then
    Return [("sub", JStr "user-123"); ("exp", JNum 0)]
  else if String.eqb token "expired-in-2024" then
    Return [("sub", JStr "user-123"); ("exp", JNum 1704067200)]
  else Raise (Jwt DecodeError "Not enough segments").

Definition sample_utcfromtimestamp (v : JSON) : Result datetime :=
  match v with
  | JNum z => Return (z * 1000000)%Z
  | _ => Raise (Builtin TypeError "an integer is required")
  end.

Lemma expiration_time_cases_witness :
  JWTHandler.get_expiration_time sample_decode_unverified
    sample_utcfromtimestamp (JWTHandler.init "secret" None true)
    "expires-at-epoch" = Return None.
Proof.
  apply (proj1 (proj2 (proj2 (expiration_time_cases sample_decode_unverified
           sample_utcfromtimestamp (JWTHandler.init "secret" None true)
           "expires-at-epoch")))
           [("sub", JStr "user-123"); ("exp", JNum 0)] (JNum 0));
    reflexivity.
Defined.

(** X27. [get_time_to_expiration] is the expiration date minus the
    current time whenever the token has an expiration date, and None
    exactly when it has none; for a date in the past the result is a
    negative duration, not an error. *)
Theorem time_to_expiration
    (jwt_decode_unverified : string -> Result dict) (utcnow : datetime)
    (utcfromtimestamp : JSON -> Result datetime)
    (self : JWTHandler.t) (token : string) :
  let expiration := JWTHandler.get_expiration_time jwt_decode_unverified
                      utcfromtimestamp self token in
  let remaining := JWTHandler.get_time_to_expiration jwt_decode_unverified
                     utcnow utcfromtimestamp self token in
  (forall d, expiration = Return (Some d) ->
     remaining = Return (Some (d - utcnow)%Z) /\
     ((d < utcnow)%Z ->
      exists delta, remaining = Return (Some delta) /\ (delta < 0)%Z)) /\
  (expiration = Return None <-> remaining = Return None) /\
  (forall e, expiration = Raise e <-> remaining = Raise e).
Proof.
  intros expiration remaining.
  unfold remaining, JWTHandler.get_time_to_expiration. fold expiration.
  destruct expiration as [[d|]|e]; cbn.
  - split; [|split].
    + intros d' H. injection H as <-. split; [reflexivity|].
      intros Hlt. eexists. split; [reflexivity | lia].
    + split; discriminate.
    + intros e; split; discriminate.
  - split; [|split].
    + intros d H. discriminate H.
    + split; reflexivity.
    + intros e; split; discriminate.
  - split; [|split].
    + intros d H. discriminate H.
    + split; discriminate.
    + intros e'; split; intros H; injection H as <-; reflexivity.
Qed.

Lemma time_to_expiration_witness :
  exists delta,
    JWTHandler.get_time_to_expiration sample_decode_unverified
      1735689600000000%Z sample_utcfromtimestamp
      (JWTHandler.init "secret" None true) "expired-in-2024"
    = Return (Some delta) /\ (delta < 0)%Z.
Proof.
  apply (proj2 (proj1 (time_to_expiration sample_decode_unverified
           1735689600000000%Z sample_utcfromtimestamp
           (JWTHandler.init "secret" None true) "expired-in-2024")
           1704067200000000%Z eq_refl)).
  reflexivity.
Defined.

(** X28. [encode] fails with InvalidTokenError only, whatever went wrong
    in the library or in computing the expiry.  Without [expires_in], and
    also with an [expires_in] of 0, the payload is signed as given, with
    no [exp] added; with any other [expires_in] the payload that is signed
    has its [exp] set to the current time plus that many seconds, in place
    of any [exp] the caller gave, and all its other claims untouched. *)
Theorem encode_cases
    (jwt_encode : JWTHandler.claims -> string -> string -> Result string)
    (utcnow_plus_seconds : Z -> Result datetime)
    (self : JWTHandler.t) (payload : JWTHandler.claims) (algorithm : string)
    (expires_in : option Z) :
  let result := JWTHandler.encode jwt_encode utcnow_plus_seconds self payload
                  algorithm expires_in in
  (forall e, result = Raise e ->
     exists msg,
       e = Sdk (InvalidTokenError (JStr ("Failed to encode token: " ++ msg)))) /\
  (expires_in = None \/ expires_in = Some 0%Z ->
   forall tok,
     result = Return tok <->
     jwt_encode payload (JWTHandler.secret self) algorithm = Return tok) /\
  (forall n exp, expires_in = Some n -> n <> 0%Z ->
     utcnow_plus_seconds n = Return exp ->
     let signed := JWTHandler.claims_set "exp" (JWTHandler.Date exp) payload in
     (forall tok,
        result = Return tok <->
        jwt_encode signed (JWTHandler.secret self) algorithm = Return tok) /\
     JWTHandler.claims_get "exp" signed = Some (JWTHandler.Date exp) /\
     (forall k, k <> "exp" ->
        JWTHandler.claims_get k signed = JWTHandler.claims_get k payload)).
Proof.
  intros result. unfold result, JWTHandler.encode, try_except.
  split; [|split].
  - intros e.
    match goal with
    | |- match ?m with _ => _ end = _ -> _ => destruct m as [tok|e0]
    end; intros H; [discriminate H|].
    injection H as <-. eexists. reflexivity.
  - intros [-> | ->] tok; cbn;
      destruct (jwt_encode payload (JWTHandler.secret self) algorithm);
      split; intros H; try discriminate H; exact H.
  - intros n exp -> Hn Hexp. cbv zeta.
    split; [|split;
             [apply claims_get_set_same
             | intros k; apply claims_get_set_other]].
    intros tok. apply Z.eqb_neq in Hn. rewrite Hn. cbn. rewrite Hexp. cbn.
    destruct (jwt_encode
                (JWTHandler.claims_set "exp" (JWTHandler.Date exp) payload)
                (JWTHandler.secret self) algorithm);
      split; intros H; try discriminate H; exact H.
Qed.

(** A library that signs with HS256 only, and a clock at the start of
    2024, for examples. *)
Definition sample_jwt_encode (payload : JWTHandler.claims)
    (key algorithm : string) : Result string :=
  if String.eqb algorithm "HS256"
  then Return (match JWTHandler.claims_get "exp" payload with
               | Some _ => "token-with-expiry"
               | None => "token-without-expiry"
               end)
  else Raise (Builtin ValueError "Algorithm not supported").

Definition sample_utcnow_plus_seconds (n : Z) : Result datetime :=
  Return (1704067200000000 + n * 1000000)%Z.

Lemma encode_cases_witness :
  JWTHandler.encode sample_jwt_encode sample_utcnow_plus_seconds
    (JWTHandler.init "secret" None true)
    [("sub", JWTHandler.Plain (JStr "user-123"))] "HS256" (Some 0%Z)
  = Return "token-without-expiry".
Proof.
  apply (proj1 (proj2 (encode_cases sample_jwt_encode
           sample_utcnow_plus_seconds (JWTHandler.init "secret" None true)
           [("sub", JWTHandler.Plain (JStr "user-123"))]
           "HS256" (Some 0%Z)))).
  - right. reflexivity.
  - reflexivity.
Defined.

(** * Further properties of the retrying transport *)

(** X29. Transient failures within the budget are invisible to the
    caller: when the first [k] attempts of an operation, [k] at most
    [max_retries], are transient (failed connections, responses with
    status 429, 500, 502, 503 or 504, or responses with status 413 that
    carry a [Retry-After] header) and the [Retry-After] headers among them
    can be read, and the next attempt obtains a response that is not
    transient, the operation gives exactly what it gives when that
    response arrives at once, after [k + 1] attempts. *)
Theorem transient_failures_masked
    (parse_retry_after : string -> option Z)
    (retry_error_text : Request -> Response.t -> string)
    (net : Request -> nat -> Attempt)
    (parse_datetime : JSON -> option datetime)
    (self : TaskMasterClient.t) (op : Operation)
    (k : nat) (resp : Response.t) :
  let req := op_request self op in
  k <= max_retries self ->
  (forall i, i < k -> transient (max_retries self - i) (net req i) /\
                      waits parse_retry_after (net req i)) ->
  net req k = Sent resp ->
  ~ transient (max_retries self - k) (Sent resp) ->
  call (adapter parse_retry_after retry_error_text net) parse_datetime self op
  = call (patched (Return resp)) parse_datetime self op /\
  attempts parse_retry_after retry_error_text net (_setup_session self) req
  = S k.
Proof.
  intros req Hk Htr Hw Hnt.
  destruct (session_through_adapter parse_retry_after retry_error_text net
              self op) as [Hsession Htries].
  rewrite (adapter_skips parse_retry_after retry_error_text net self op
             k resp Hk Htr Hw Hnt) in Hsession, Htries.
  split; [|exact Htries].
  apply call_same_response. exact Hsession.
Qed.

Lemma transient_failures_masked_witness :
  call (adapter seconds_only too_many fails_once) unix_timestamp sample_client
       (ListTasks None None 50 0)
  = call (patched (Return empty_list_reply)) unix_timestamp sample_client
         (ListTasks None None 50 0) /\
  attempts seconds_only too_many fails_once (_setup_session sample_client)
           (op_request sample_client (ListTasks None None 50 0)) = 2.
Proof.
  apply (transient_failures_masked seconds_only too_many fails_once
           unix_timestamp sample_client (ListTasks None None 50 0) 1
           empty_list_reply).
  - cbn. lia.
  - intros i Hi. assert (i = 0) as -> by lia. split.
    + cbn. left. auto.
    + cbn. intros v Hv. discriminate Hv.
  - reflexivity.
  - cbn. intros [H | (_ & _ & H)]; [|discriminate H].
    repeat destruct H as [H|H]; try discriminate H; exact H.
Defined.


